(** * Agentverse: agent executor, LLM provider adapter, message router and
      project generator

    A shallow embedding of the server-side core of the Agentverse dashboard:

    - [server/llm/LLMProvider.ts]            (module [LLMProvider])
    - [server/services/ProjectGenerator.ts]  (module [ProjectGenerator])
    - [server/agents/AgentManager.ts]        (module [AgentManager])
    - [server/agents/UnifiedAgentCoordinator.ts] (module [UnifiedAgentCoordinator])
    - [server/agents/AgentExecutor.ts]       (module [AgentExecutor])
    - [server/services/emailService.ts]      (module [EmailService])
    - [server/routes.ts]                     (module [Routes])

    Conventions of the embedding.

    - A JavaScript string is a [string]: a sequence of code units below 256.
      Case mapping and the white-space class are those of JavaScript on that
      range.
    - An [async] function is run to completion; a rejected promise and a
      thrown exception are both [Threw], a fulfilled promise is [Returned].
    - Everything outside the process (hosted LLM endpoints, HTTP APIs, the
      mail transport, the clock, the environment, the JSON parser of the
      runtime) is a field of the record [World]. The mail service itself is
      modelled over the two mail libraries, the record
      [EmailService.MailLibrary]; [mailing] puts it in the place of the mail
      field of a world. *)

From Stdlib Require Import ZArith NArith QArith Ascii String List Lia Bool.
From stdpp Require Import base option list strings gmap pretty.

Set Warnings "-register-all".
Local Open Scope string_scope.

(** ** JavaScript values and the primitives the server code relies on *)

Module JS.

(** *** Exceptions *)

(** A thrown value: an [Error] instance with its message, or anything else
    (the handlers only ask [error instanceof Error]). *)
Inductive exn : Type :=
| Error (message : string)
| NotAnError.

Inductive outcome (A : Type) : Type :=
| Returned (a : A)
| Threw (e : exn).
Arguments Returned {A} a.
Arguments Threw {A} e.

#[global] Instance outcome_ret : MRet outcome := fun A a => Returned a.
#[global] Instance outcome_bind : MBind outcome := fun A B f m =>
  match m with
  | Returned a => f a
  | Threw e => Threw e
  end.

#[global] Instance outcome_fmap : FMap outcome := fun A B f m =>
  match m with
  | Returned a => Returned (f a)
  | Threw e => Threw e
  end.

(** [try { body } catch (error) { handler }] *)
Definition try_catch {A : Type} (body : outcome A) (handler : exn -> outcome A)
  : outcome A :=
  match body with
  | Returned a => Returned a
  | Threw e => handler e
  end.

(** [error instanceof Error ? error.message : fallback] *)
Definition message_or (e : exn) (fallback : string) : string :=
  match e with
  | Error m => m
  | NotAnError => fallback
  end.

Definition TypeError (what : string) : exn := Error what.

(** *** Characters *)

Definition nl : string := String "010"%char EmptyString.
Definition dq : string := String "034"%char EmptyString.
Definition bs : string := String "092"%char EmptyString.
Definition quoted (s : string) : string := dq +:+ s +:+ dq.

Definition unit_in (lo hi : nat) (c : ascii) : bool :=
  (lo <=? nat_of_ascii c)%nat && (nat_of_ascii c <=? hi)%nat.

(** Upper-case letters among the first 256 code points: A-Z, and
    U+00C0..U+00DE without the multiplication sign U+00D7. *)
Definition isUpperUnit (c : ascii) : bool :=
  unit_in 65 90 c || (unit_in 192 222 c && negb (nat_of_ascii c =? 215)%nat).

Definition lowerOf (c : ascii) : ascii := ascii_of_nat (nat_of_ascii c + 32).

Definition toLowerUnit (c : ascii) : ascii :=
  if isUpperUnit c then lowerOf c else c.

(** WhiteSpace and LineTerminator code points below 256. *)
Definition isWhiteSpace (c : ascii) : bool :=
  unit_in 9 13 c || (nat_of_ascii c =? 32)%nat || (nat_of_ascii c =? 160)%nat.

(** *** Strings *)

Definition isEmpty (s : string) : bool :=
  match s with
  | EmptyString => true
  | String _ _ => false
  end.

(** [String.prototype.toLowerCase] *)
Fixpoint toLowerCase (s : string) : string :=
  match s with
  | EmptyString => EmptyString
  | String c r => String (toLowerUnit c) (toLowerCase r)
  end.




(** [s.startsWith(p)] *)
Definition startsWith (s p : string) : bool := String.prefix p s.

(** [s.includes(k)] *)
Fixpoint includes (s k : string) : bool :=
  startsWith s k ||
  match s with
  | EmptyString => false
  | String _ r => includes r k
  end.

Fixpoint trimStart (s : string) : string :=
  match s with
  | EmptyString => EmptyString
  | String c r => if isWhiteSpace c then trimStart r else s
  end.

Fixpoint trimEnd (s : string) : string :=
  match s with
  | EmptyString => EmptyString
  | String c r =>
      let r' := trimEnd r in
      if isWhiteSpace c && isEmpty r' then EmptyString else String c r'
  end.

(** [s.trim()] *)
Definition trim (s : string) : string := trimEnd (trimStart s).

Fixpoint dropUnits (n : nat) (s : string) : string :=
  match n, s with
  | O, _ => s
  | S _, EmptyString => EmptyString
  | S k, String _ r => dropUnits k r
  end.

(** [s.replace(/PAT\n?/g, "")] for a literal, non-empty [pat]: every match
    of [pat], with the line feed after it when there is one, is deleted,
    scanning from the left; [skip] counts the units of the current match
    still to be dropped. *)
Fixpoint deleteAll_from (pat : string) (skip : nat) (s : string) : string :=
  match s with
  | EmptyString => EmptyString
  | String c r =>
      match skip with
      | S k => deleteAll_from pat k r
      | O =>
          if startsWith s pat then
            let after := dropUnits (String.length pat) s in
            let lf := if startsWith after nl then 1 else 0 in
            deleteAll_from pat (String.length pat - 1 + lf) r
          else String c (deleteAll_from pat 0 r)
      end
  end.

Definition deleteAll (pat : string) (s : string) : string :=
  deleteAll_from pat 0 s.

(** [s.split(sep)] for a one-unit separator; the result is never empty. *)
Fixpoint split (sep : ascii) (s : string) : list string :=
  match s with
  | EmptyString => [EmptyString]
  | String c r =>
      if Ascii.eqb c sep then EmptyString :: split sep r
      else match split sep r with
           | h :: t => String c h :: t
           | [] => [String c EmptyString]
           end
  end.

(** [array.pop()]: the last element, [undefined] on an empty array. *)
Definition pop {A : Type} (l : list A) : option A := last l.

(** [array.join(sep)] on strings *)
Fixpoint join (sep : string) (l : list string) : string :=
  match l with
  | [] => EmptyString
  | [x] => x
  | x :: r => x +:+ sep +:+ join sep r
  end.

Definition lines (l : list string) : string := join nl l.

Definition hexDigit (upper : bool) (n : nat) : ascii :=
  if (n <? 10)%nat then ascii_of_nat (48 + n)
  else ascii_of_nat ((if upper then 55 else 87) + n).

Definition hex2 (upper : bool) (n : nat) : string :=
  String (hexDigit upper (n / 16)) (String (hexDigit upper (n mod 16)) EmptyString).

(** The escape of one code unit inside a JSON string literal. *)
Definition jsonEscapeUnit (c : ascii) : string :=
  let n := nat_of_ascii c in
  if (n =? 34)%nat then bs +:+ dq
  else if (n =? 92)%nat then bs +:+ bs
  else if (n =? 8)%nat then bs +:+ "b"
  else if (n =? 9)%nat then bs +:+ "t"
  else if (n =? 10)%nat then bs +:+ "n"
  else if (n =? 12)%nat then bs +:+ "f"
  else if (n =? 13)%nat then bs +:+ "r"
  else if (n <? 32)%nat then bs +:+ "u00" +:+ hex2 false n
  else String c EmptyString.

Fixpoint jsonEscape (s : string) : string :=
  match s with
  | EmptyString => EmptyString
  | String c r => jsonEscapeUnit c +:+ jsonEscape r
  end.

Definition jsonQuote (s : string) : string := quoted (jsonEscape s).

(** [encodeURIComponent]: the unreserved marks and alphanumerics stay, any
    other unit is written as the percent-escapes of its UTF-8 bytes. *)
Definition isUriUnreserved (c : ascii) : bool :=
  unit_in 65 90 c || unit_in 97 122 c || unit_in 48 57 c ||
  existsb (Ascii.eqb c) (list_ascii_of_string "-_.!~*'()").

Definition encodeUnit (c : ascii) : string :=
  let n := nat_of_ascii c in
  if isUriUnreserved c then String c EmptyString
  else if (n <? 128)%nat then "%" +:+ hex2 true n
  else "%" +:+ hex2 true (192 + n / 64) +:+ "%" +:+ hex2 true (128 + n mod 64).

Fixpoint encodeURIComponent (s : string) : string :=
  match s with
  | EmptyString => EmptyString
  | String c r => encodeUnit c +:+ encodeURIComponent r
  end.

(** *** Values *)

(** A number is observed by this code through its truthiness and its
    decimal rendering only: an integer-valued double (rendered in plain
    decimal, which is what JavaScript prints below 10^21), or a non-zero
    non-integral double given by its rendering. *)
Inductive JSNumber : Type :=
| NumInt (z : Z)
| NumOther (text : string).

(** The built-in objects an ordinary object inherits from [Object.prototype]. *)
Inductive Builtin : Type :=
| ObjectConstructor
| ObjectPrototype
| PrototypeMethod (name : string).

(** [JArr] and [JObj] are plain data (what [JSON.parse] builds and what the
    code writes as literals): the own properties of a [JObj] are data
    properties, in insertion order, each key once. *)
Inductive JSVal : Type :=
| JUndefined
| JNull
| JBool (b : bool)
| JNum (n : JSNumber)
| JStr (s : string)
| JArr (items : list JSVal)
| JObj (fields : list (string * JSVal))
| JBuiltin (b : Builtin).

Definition JInt (z : Z) : JSVal := JNum (NumInt z).

Definition numberToString (n : JSNumber) : string :=
  match n with
  | NumInt z => pretty z
  | NumOther text => text
  end.

(** ToBoolean *)
Definition truthy (v : JSVal) : bool :=
  match v with
  | JUndefined | JNull => false
  | JBool b => b
  | JNum (NumInt z) => negb (z =? 0)%Z
  | JNum (NumOther _) => true
  | JStr s => negb (isEmpty s)
  | JArr _ | JObj _ | JBuiltin _ => true
  end.

(** [a || b] *)
Definition or_else (a b : JSVal) : JSVal := if truthy a then a else b.

(** A destructuring default [{ k = d }]: used when the property is
    [undefined], and only then. *)
Definition default_to (v d : JSVal) : JSVal :=
  match v with
  | JUndefined => d
  | _ => v
  end.

Definition isArray (v : JSVal) : bool :=
  match v with
  | JArr _ => true
  | _ => false
  end.

Fixpoint assoc {A : Type} (k : string) (l : list (string * A)) : option A :=
  match l with
  | [] => None
  | (k', v) :: r => if String.eqb k k' then Some v else assoc k r
  end.

(** The properties every ordinary object inherits. *)
Definition inherited (key : string) : option Builtin :=
  if String.eqb key "constructor" then Some ObjectConstructor
  else if String.eqb key "__proto__" then Some ObjectPrototype
  else if existsb (String.eqb key)
            ["hasOwnProperty"; "isPrototypeOf"; "propertyIsEnumerable";
             "toLocaleString"; "toString"; "valueOf"; "__defineGetter__";
             "__defineSetter__"; "__lookupGetter__"; "__lookupSetter__"]
       then Some (PrototypeMethod key)
  else None.

(** [obj[key]] on an ordinary object: own property first, then the
    prototype. *)
Definition lookupProperty (fields : list (string * JSVal)) (key : string) : JSVal :=
  match assoc key fields with
  | Some v => v
  | None =>
      match inherited key with
      | Some b => JBuiltin b
      | None => JUndefined
      end
  end.

(** [v.key], for the property names this code reads on values it did not
    build itself; none of them is a method of a primitive wrapper or of
    [Array.prototype]. Reading a property of [null] or [undefined] throws. *)
Definition getProp (v : JSVal) (key : string) : outcome JSVal :=
  match v with
  | JUndefined =>
      Threw (TypeError ("Cannot read properties of undefined (reading '" +:+ key +:+ "')"))
  | JNull =>
      Threw (TypeError ("Cannot read properties of null (reading '" +:+ key +:+ "')"))
  | JObj fields => Returned (lookupProperty fields key)
  | JArr items =>
      Returned (if String.eqb key "length" then JInt (Z.of_nat (length items))
                else JUndefined)
  | JStr s =>
      Returned (if String.eqb key "length" then JInt (Z.of_nat (String.length s))
                else JUndefined)
  | JBool _ | JNum _ | JBuiltin _ => Returned JUndefined
  end.

(** [v?.key] *)
Definition getPropOpt (v : JSVal) (key : string) : outcome JSVal :=
  match v with
  | JUndefined | JNull => Returned JUndefined
  | _ => getProp v key
  end.

(** [v[0]] *)
Definition getFirst (v : JSVal) : outcome JSVal :=
  match v with
  | JUndefined =>
      Threw (TypeError "Cannot read properties of undefined (reading '0')")
  | JNull =>
      Threw (TypeError "Cannot read properties of null (reading '0')")
  | JArr items => Returned (List.hd JUndefined items)
  | JStr (String c _) => Returned (JStr (String c EmptyString))
  | JObj fields => Returned (lookupProperty fields "0")
  | _ => Returned JUndefined
  end.

Definition hasOwn (fields : list (string * JSVal)) (key : string) : bool :=
  match assoc key fields with
  | Some _ => true
  | None => false
  end.

(** ToString, as a template literal applies it. An ordinary object prints
    through the inherited [toString]; when it carries an own data property
    of that name the method is hidden, [valueOf] gives back the object, and
    the conversion throws. An array prints its elements joined by commas,
    [null] and [undefined] as nothing. *)
Fixpoint toString (v : JSVal) : outcome string :=
  match v with
  | JUndefined => Returned "undefined"
  | JNull => Returned "null"
  | JBool b => Returned (if b then "true" else "false")
  | JNum n => Returned (numberToString n)
  | JStr s => Returned s
  | JArr items =>
      parts ← (fix each (l : list JSVal) : outcome (list string) :=
                 match l with
                 | [] => Returned []
                 | x :: r =>
                     s ← match x with
                         | JUndefined | JNull => Returned EmptyString
                         | _ => toString x
                         end;
                     rest ← each r;
                     Returned (s :: rest)
                 end) items;
      Returned (join "," parts)
  | JObj fields =>
      if hasOwn fields "toString"
      then Threw (TypeError "Cannot convert object to primitive value")
      else Returned "[object Object]"
  | JBuiltin ObjectPrototype => Returned "[object Object]"
  | JBuiltin ObjectConstructor => Returned "function Object() { [native code] }"
  | JBuiltin (PrototypeMethod name) =>
      Returned ("function " +:+ name +:+ "() { [native code] }")
  end.

(** SameValueZero, the equality of [Set]: primitives by value; two objects
    are the same only when they are one object, and every object met here
    is a fresh one. *)
Definition sameValueZero (a b : JSVal) : bool :=
  match a, b with
  | JUndefined, JUndefined | JNull, JNull => true
  | JBool x, JBool y => Bool.eqb x y
  | JNum (NumInt x), JNum (NumInt y) => (x =? y)%Z
  | JNum (NumOther x), JNum (NumOther y) => String.eqb x y
  | JStr x, JStr y => String.eqb x y
  | _, _ => false
  end.

(** [Array.from(new Set(l))] *)
Fixpoint uniqueValues_from (seen : list JSVal) (l : list JSVal) : list JSVal :=
  match l with
  | [] => []
  | x :: r =>
      if existsb (sameValueZero x) seen then uniqueValues_from seen r
      else x :: uniqueValues_from (x :: seen) r
  end.

Definition uniqueValues (l : list JSVal) : list JSVal := uniqueValues_from [] l.

(** The JSON text of a value; [None] where [JSON.stringify] yields
    [undefined] (for [undefined] itself and for functions). *)
Fixpoint serialize (v : JSVal) : option string :=
  match v with
  | JUndefined => None
  | JNull => Some "null"
  | JBool b => Some (if b then "true" else "false")
  | JNum n => Some (numberToString n)
  | JStr s => Some (jsonQuote s)
  | JArr items =>
      Some ("[" +:+
            join "," ((fix each (l : list JSVal) : list string :=
                         match l with
                         | [] => []
                         | x :: r => default "null" (serialize x) :: each r
                         end) items) +:+ "]")
  | JObj fields =>
      Some ("{" +:+
            join "," ((fix each (l : list (string * JSVal)) : list string :=
                         match l with
                         | [] => []
                         | (k, x) :: r =>
                             match serialize x with
                             | Some t => (jsonQuote k +:+ ":" +:+ t) :: each r
                             | None => each r
                             end
                         end) fields) +:+ "}")
  | JBuiltin ObjectPrototype => Some "{}"
  | JBuiltin _ => None
  end.

(** [JSON.stringify(v)] for a [v] that has a JSON text. *)
Definition JSON_stringify (v : JSVal) : string := default "undefined" (serialize v).

End JS.

Import JS.

(** ** The world outside the process *)

(** [process.env] as far as the server reads it. *)
Record Env : Type := {
  GEMINI_API_KEY : option string;
  OPENAI_API_KEY : option string;
  ANTHROPIC_API_KEY : option string
}.

(** An environment variable used as a condition: set, and not empty. *)
Definition configured (v : option string) : bool :=
  match v with
  | Some s => negb (isEmpty s)
  | None => false
  end.

Inductive Role : Type := system | user | assistant.

#[global] Instance Role_eq_dec : EqDecision Role.
Proof. solve_decision. Defined.

Module Message.
Record t : Type := mk { role : Role; content : string }.
End Message.

Record Sampling : Type := { temperature : Q; max_tokens : Z }.

(** The first content block of an Anthropic reply. *)
Inductive ContentBlock : Type :=
| TextBlock (text : string)
| OtherBlock.

Record HttpResponse : Type := {
  ok : bool;
  statusText : string;
  json : outcome JSVal
}.

Inductive AgentStatus : Type := idle | executing | active | error.

Inductive LogStatus : Type := log_success | log_error.

Record ExecutionLog : Type := {
  log_agentId : string;
  log_status : LogStatus;
  log_message : string;
  log_result : JSVal
}.

(** The writes the executor sends to the agent store; a status goes with
    the date the caller passes, if it passes one. *)
Inductive StorageCall : Type :=
| UpdateAgentStatus (id : string) (status : AgentStatus) (date : option Z)
| UpdateAgentMetrics (id : string) (tasksCompleted successRate : N)
| CreateAgentExecutionLog (entry : ExecutionLog).

Record World : Type := {
  env : Env;
  (** [Date.now()] and the ISO rendering of the same instant *)
  now : Z;
  nowISO : string;
  (** [model.startChat({history, generationConfig}).sendMessage(prompt)],
      read through [response.text()] *)
  gemini_sendMessage :
    string -> list (string * string) -> Sampling -> string -> outcome string;
  (** [model.generateContent(prompt)], read through [response.text()] *)
  gemini_generateContent : string -> string -> outcome string;
  (** [openai.chat.completions.create(...)], read through
      [choices[0]?.message?.content]; [None] is a missing or null content *)
  openai_create : string -> list Message.t -> Sampling -> outcome (option string);
  (** [anthropic.messages.create(...)], read through [response.content] *)
  anthropic_create :
    string -> Sampling -> string -> list Message.t -> outcome (list ContentBlock);
  JSON_parse : string -> outcome JSVal;
  emailService_sendEmail : JSVal -> JSVal -> JSVal -> outcome bool;
  fetch : string -> outcome HttpResponse
}.

(** ** server/llm/LLMProvider.ts *)

Module LLMProvider.

Module ChatResponse.
Record t : Type := mk { content : string; provider : string }.
End ChatResponse.

(** The object: its one field is fixed by the constructor. *)
Record t : Type := { provider : string }.

Definition detectProvider (e : Env) : string :=
  if configured (GEMINI_API_KEY e) then "gemini"
  else if configured (OPENAI_API_KEY e) then "openai"
  else if configured (ANTHROPIC_API_KEY e) then "anthropic"
  else "mock".

(** [new LLMProvider()] in an environment [e] *)
Definition create (e : Env) : t := {| provider := detectProvider e |}.

Definition getProvider (self : t) : string := provider self.

Definition isRealLLMAvailable (self : t) : bool :=
  negb (String.eqb (provider self) "mock").

Definition conciseSuffix : string :=
  nl +:+ nl +:+
  "IMPORTANT: Provide only the essential answer in under 120 words. Format your response in three sections:" +:+ nl +:+
  "1. **Summary** (1-2 sentences)" +:+ nl +:+
  "2. **Key Points** (bullet list, 3 items or fewer)" +:+ nl +:+
  "3. **Recommended Action** (optional, only when relevant)" +:+ nl +:+ nl +:+
  "Omit internal reasoning and verbose explanations. Be concise and focused.".

Definition isSystem (m : Message.t) : bool := bool_decide (Message.role m = system).

(** [messages.find(m => m.role === "system")?.content || ""] *)
Definition systemContent (messages : list Message.t) : string :=
  match List.find isSystem messages with
  | Some m => Message.content m
  | None => EmptyString
  end.

Definition mockChat (messages : list Message.t) : outcome ChatResponse.t :=
  let lastMessage :=
    match last messages with
    | Some m => Message.content m
    | None => EmptyString
    end in
  let response := lines [
    "**Summary**";
    "Running in mock mode (no LLM API configured). Limited responses available.";
    EmptyString;
    "**Key Points**";
    "• Configure GEMINI_API_KEY for Google Gemini 2.0";
    "• Configure OPENAI_API_KEY for GPT-3.5 access";
    "• Configure ANTHROPIC_API_KEY for Claude access";
    EmptyString;
    "**Recommended Action**";
    "Add an API key to environment variables for intelligent AI responses." ] in
  Returned (ChatResponse.mk response "mock").

Definition chatWithGemini (w : World) (messages : list Message.t)
  : outcome ChatResponse.t :=
  try_catch
    (let systemMessage := systemContent messages in
     let userMessages := List.filter (fun m => negb (isSystem m)) messages in
     let enhancedSystemPrompt := systemMessage +:+ conciseSuffix in
     let chatHistory :=
       List.map (fun msg =>
                   (if bool_decide (Message.role msg = user) then "user" else "model",
                    Message.content msg))
                (removelast userMessages) in
     let lastUserMessage :=
       match last userMessages with
       | Some m => Message.content m
       | None => EmptyString
       end in
     let fullPrompt :=
       match chatHistory with
       | [] => enhancedSystemPrompt +:+ nl +:+ nl +:+ "User: " +:+ lastUserMessage
       | _ :: _ => lastUserMessage
       end in
     text ← gemini_sendMessage w "gemini-2.0-flash" chatHistory
              {| temperature := 5 # 10; max_tokens := 1024 |} fullPrompt;
     Returned (ChatResponse.mk text "gemini"))
    (fun _ => mockChat messages).

Definition chatWithOpenAI (w : World) (messages : list Message.t)
  : outcome ChatResponse.t :=
  try_catch
    (let enhancedMessages :=
       List.map (fun msg =>
                   if isSystem msg
                   then Message.mk (Message.role msg) (Message.content msg +:+ conciseSuffix)
                   else msg) messages in
     reply ← openai_create w "gpt-3.5-turbo" enhancedMessages
               {| temperature := 5 # 10; max_tokens := 1024 |};
     Returned (ChatResponse.mk
                 (match reply with
                  | Some s => if isEmpty s then "No response" else s
                  | None => "No response"
                  end) "openai"))
    (fun _ => mockChat messages).

Definition chatWithAnthropic (w : World) (messages : list Message.t)
  : outcome ChatResponse.t :=
  try_catch
    (let systemMessage := systemContent messages +:+ conciseSuffix in
     let userMessages := List.filter (fun m => negb (isSystem m)) messages in
     blocks ← anthropic_create w "claude-3-haiku-20240307"
                {| temperature := 5 # 10; max_tokens := 1024 |}
                systemMessage userMessages;
     match blocks with
     | [] => Threw (TypeError "Cannot read properties of undefined (reading 'type')")
     | TextBlock text :: _ => Returned (ChatResponse.mk text "anthropic")
     | OtherBlock :: _ => Returned (ChatResponse.mk "No response" "anthropic")
     end)
    (fun _ => mockChat messages).

Definition chat (w : World) (self : t) (messages : list Message.t)
  : outcome ChatResponse.t :=
  if String.eqb (provider self) "gemini" && configured (GEMINI_API_KEY (env w))
  then chatWithGemini w messages
  else if String.eqb (provider self) "openai" && configured (OPENAI_API_KEY (env w))
  then chatWithOpenAI w messages
  else if String.eqb (provider self) "anthropic" && configured (ANTHROPIC_API_KEY (env w))
  then chatWithAnthropic w messages
  else mockChat messages.

(** The fence-stripping both quiz and schedule generators apply to the
    trimmed reply (written out in each of the four functions). *)
Definition cleanFences (text : string) : string :=
  if startsWith text "```json"
  then trim (deleteAll "```" (deleteAll "```json" text))
  else if startsWith text "```"
  then trim (deleteAll "```" text)
  else text.

(** [goals ? `${label}${goals}. ` : ""] *)
Definition goalsClause (label : string) (goals : option string) : string :=
  match goals with
  | Some g => if isEmpty g then EmptyString else label +:+ g +:+ ". "
  | None => EmptyString
  end.

Definition mockQuiz (topic : string) : ChatResponse.t :=
  ChatResponse.mk
    (JSON_stringify
       (JObj [("questions",
               JArr [JObj [
                 ("question", JStr ("What is a key concept in " +:+ topic +:+ "?"));
                 ("options", JArr [
                    JStr "Mock answer A (configure GEMINI_API_KEY for real questions)";
                    JStr "Mock answer B";
                    JStr "Mock answer C";
                    JStr "Mock answer D"]);
                 ("correctAnswer", JInt 0);
                 ("explanation", JStr "This is a mock quiz. Add GEMINI_API_KEY or OPENAI_API_KEY environment variable to generate real educational quizzes.")]])]))
    "mock".

(** The mock schedule holds [topic] and [duration] as they are, not
    converted to strings. *)
Definition mockScheduleOf (topic duration : JSVal) : ChatResponse.t :=
  ChatResponse.mk
    (JSON_stringify
       (JObj [
          ("topic", topic);
          ("totalDuration", duration);
          ("estimatedHoursPerDay", JInt 2);
          ("schedule",
           JArr [JObj [
             ("day", JInt 1);
             ("title", JStr "Getting Started");
             ("duration", JStr "2 hours");
             ("topics", JArr [JStr "Introduction"; JStr "Basic Concepts"]);
             ("description", JStr "This is a mock schedule. Add GEMINI_API_KEY or OPENAI_API_KEY to generate personalized AI-powered study schedules.");
             ("completed", JBool false)]]);
          ("tips", JArr [
             JStr "Configure GEMINI_API_KEY for AI-generated schedules";
             JStr "Set realistic daily study goals";
             JStr "Take breaks between study sessions"])]))
    "mock".

Definition mockSchedule (topic duration : string) : ChatResponse.t :=
  mockScheduleOf (JStr topic) (JStr duration).

(** The four prompts, given the text of the clause on the goals. *)
Definition geminiQuizPromptWith (timestamp : Z) (topic clause : string) : string :=
  lines [
    "Generate 3 unique, educational multiple-choice quiz questions about " +:+
      quoted topic +:+ ". " +:+ clause;
    EmptyString;
    "Generate DIFFERENT questions each time - avoid common questions. Include variety in difficulty and topics.";
    EmptyString;
    "Timestamp for uniqueness: " +:+ pretty timestamp;
    EmptyString;
    "Return ONLY valid JSON in this exact format (no markdown, no backticks, no extra text):";
    "{";
    "  " +:+ quoted "questions" +:+ ": [";
    "    {";
    "      " +:+ quoted "question" +:+ ": " +:+ quoted "Question text here?" +:+ ",";
    "      " +:+ quoted "options" +:+ ": [" +:+ quoted "Option A" +:+ ", " +:+
      quoted "Option B" +:+ ", " +:+ quoted "Option C" +:+ ", " +:+ quoted "Option D" +:+ "],";
    "      " +:+ quoted "correctAnswer" +:+ ": 0,";
    "      " +:+ quoted "explanation" +:+ ": " +:+ quoted "Explanation of why this is correct";
    "    }";
    "  ]";
    "}";
    EmptyString;
    "Rules:";
    "- correctAnswer is the index (0-3) of the correct option";
    "- Each question must be different and educational";
    "- Make questions practical and relevant";
    "- Vary the difficulty level" ].

Definition geminiQuizPrompt (timestamp : Z) (topic : string) (goals : option string)
  : string :=
  geminiQuizPromptWith timestamp topic (goalsClause "Focus on: " goals).

Definition generateQuizWithGemini (w : World) (topic : string) (goals : option string)
  : outcome ChatResponse.t :=
  try_catch
    (let timestamp := now w in
     let prompt := geminiQuizPrompt timestamp topic goals in
     raw ← gemini_generateContent w "gemini-2.0-flash" prompt;
     let text := trim raw in
     Returned (ChatResponse.mk (cleanFences text) "gemini"))
    (fun _ => Returned (mockQuiz topic)).

Definition openaiQuizMessagesWith (timestamp : Z) (topic clause : string)
  : list Message.t :=
  [ Message.mk system
      "You are a quiz generator. Generate educational quiz questions in JSON format. Return ONLY valid JSON, no markdown code blocks, no extra text.";
    Message.mk user
      ("Generate 3 unique multiple-choice quiz questions about " +:+ quoted topic +:+
       ". " +:+ clause +:+
       "Timestamp: " +:+ pretty timestamp +:+
       ". Return valid JSON with format: {" +:+ quoted "questions" +:+ ": [{" +:+
       quoted "question" +:+ ": " +:+ quoted "..." +:+ ", " +:+
       quoted "options" +:+ ": [" +:+ quoted "A" +:+ ", " +:+ quoted "B" +:+ ", " +:+
       quoted "C" +:+ ", " +:+ quoted "D" +:+ "], " +:+
       quoted "correctAnswer" +:+ ": 0, " +:+
       quoted "explanation" +:+ ": " +:+ quoted "..." +:+ "}]}") ].

Definition openaiQuizMessages (timestamp : Z) (topic : string) (goals : option string)
  : list Message.t :=
  openaiQuizMessagesWith timestamp topic (goalsClause "Focus on: " goals).

(** [response.choices[0]?.message?.content || "{}"] *)
Definition contentOrEmptyObject (reply : option string) : string :=
  match reply with
  | Some s => if isEmpty s then "{}" else s
  | None => "{}"
  end.

Definition generateQuizWithOpenAI (w : World) (topic : string) (goals : option string)
  : outcome ChatResponse.t :=
  try_catch
    (let timestamp := now w in
     reply ← openai_create w "gpt-3.5-turbo" (openaiQuizMessages timestamp topic goals)
               {| temperature := 8 # 10; max_tokens := 2048 |};
     let text := contentOrEmptyObject reply in
     let cleanedText := trim text in
     Returned (ChatResponse.mk (cleanFences cleanedText) "openai"))
    (fun _ => Returned (mockQuiz topic)).

Definition generateQuiz (w : World) (self : t) (topic : string) (goals : option string)
  : outcome ChatResponse.t :=
  if String.eqb (provider self) "gemini" && configured (GEMINI_API_KEY (env w))
  then generateQuizWithGemini w topic goals
  else if String.eqb (provider self) "openai" && configured (OPENAI_API_KEY (env w))
  then generateQuizWithOpenAI w topic goals
  else Returned (mockQuiz topic).

Definition geminiSchedulePromptWith (timestamp : Z) (topic duration clause : string)
  : string :=
  lines [
    "Create a personalized study schedule for learning " +:+ quoted topic +:+
      " over " +:+ duration +:+ ". " +:+ clause;
    EmptyString;
    "Analyze the topic complexity and create a realistic day-by-day learning plan.";
    EmptyString;
    "Timestamp for uniqueness: " +:+ pretty timestamp;
    EmptyString;
    "Return ONLY valid JSON in this exact format (no markdown, no backticks, no extra text):";
    "{";
    "  " +:+ quoted "topic" +:+ ": " +:+ quoted topic +:+ ",";
    "  " +:+ quoted "totalDuration" +:+ ": " +:+ quoted duration +:+ ",";
    "  " +:+ quoted "estimatedHoursPerDay" +:+ ": 2,";
    "  " +:+ quoted "schedule" +:+ ": [";
    "    {";
    "      " +:+ quoted "day" +:+ ": 1,";
    "      " +:+ quoted "title" +:+ ": " +:+ quoted "Introduction and Fundamentals" +:+ ",";
    "      " +:+ quoted "duration" +:+ ": " +:+ quoted "2 hours" +:+ ",";
    "      " +:+ quoted "topics" +:+ ": [" +:+ quoted "Topic 1" +:+ ", " +:+ quoted "Topic 2" +:+ "],";
    "      " +:+ quoted "description" +:+ ": " +:+
      quoted "Detailed description of what to learn and practice" +:+ ",";
    "      " +:+ quoted "completed" +:+ ": false";
    "    }";
    "  ],";
    "  " +:+ quoted "tips" +:+ ": [" +:+ quoted "Helpful tip 1" +:+ ", " +:+
      quoted "Helpful tip 2" +:+ "]";
    "}";
    EmptyString;
    "Rules:";
    "- Break down the learning journey into daily chunks";
    "- Each day should have realistic hours (1-3 hours per day)";
    "- Progress from fundamentals to advanced topics";
    "- Include practical exercises and projects";
    "- Provide 3-5 helpful study tips";
    "- Make the schedule achievable and motivating" ].

Definition geminiSchedulePrompt (timestamp : Z) (topic duration : string)
    (goals : option string) : string :=
  geminiSchedulePromptWith timestamp topic duration
                           (goalsClause "Learning goals: " goals).

Definition generateScheduleWithGemini (w : World) (topic duration : string)
    (goals : option string) : outcome ChatResponse.t :=
  try_catch
    (let timestamp := now w in
     let prompt := geminiSchedulePrompt timestamp topic duration goals in
     raw ← gemini_generateContent w "gemini-2.0-flash" prompt;
     let text := trim raw in
     Returned (ChatResponse.mk (cleanFences text) "gemini"))
    (fun _ => Returned (mockSchedule topic duration)).

Definition openaiScheduleMessagesWith (timestamp : Z) (topic duration clause : string)
  : list Message.t :=
  [ Message.mk system
      "You are a study schedule planner. Create personalized learning schedules in JSON format. Return ONLY valid JSON, no markdown code blocks, no extra text.";
    Message.mk user
      ("Create a study schedule for " +:+ quoted topic +:+ " over " +:+ duration +:+
       ". " +:+ clause +:+
       "Timestamp: " +:+ pretty timestamp +:+
       ". Return valid JSON with format: {" +:+
       quoted "topic" +:+ ": " +:+ quoted "..." +:+ ", " +:+
       quoted "totalDuration" +:+ ": " +:+ quoted "..." +:+ ", " +:+
       quoted "estimatedHoursPerDay" +:+ ": 2, " +:+
       quoted "schedule" +:+ ": [{" +:+
       quoted "day" +:+ ": 1, " +:+
       quoted "title" +:+ ": " +:+ quoted "..." +:+ ", " +:+
       quoted "duration" +:+ ": " +:+ quoted "..." +:+ ", " +:+
       quoted "topics" +:+ ": [" +:+ quoted "..." +:+ "], " +:+
       quoted "description" +:+ ": " +:+ quoted "..." +:+ ", " +:+
       quoted "completed" +:+ ": false}], " +:+
       quoted "tips" +:+ ": [" +:+ quoted "..." +:+ "]}") ].

Definition openaiScheduleMessages (timestamp : Z) (topic duration : string)
    (goals : option string) : list Message.t :=
  openaiScheduleMessagesWith timestamp topic duration (goalsClause "Goals: " goals).

Definition generateScheduleWithOpenAI (w : World) (topic duration : string)
    (goals : option string) : outcome ChatResponse.t :=
  try_catch
    (let timestamp := now w in
     reply ← openai_create w "gpt-3.5-turbo"
               (openaiScheduleMessages timestamp topic duration goals)
               {| temperature := 7 # 10; max_tokens := 2048 |};
     let text := contentOrEmptyObject reply in
     let cleanedText := trim text in
     Returned (ChatResponse.mk (cleanFences cleanedText) "openai"))
    (fun _ => Returned (mockSchedule topic duration)).

Definition generateSchedule (w : World) (self : t) (topic duration : string)
    (goals : option string) : outcome ChatResponse.t :=
  if String.eqb (provider self) "gemini" && configured (GEMINI_API_KEY (env w))
  then generateScheduleWithGemini w topic duration goals
  else if String.eqb (provider self) "openai" && configured (OPENAI_API_KEY (env w))
  then generateScheduleWithOpenAI w topic duration goals
  else Returned (mockSchedule topic duration).

End LLMProvider.

(** ** server/services/ProjectGenerator.ts *)

Module ProjectGenerator.

(** The fields are what the code puts there: a string where it writes a
    literal, otherwise whatever value the parsed reply holds. *)
Record ProjectFile : Type := {
  path : JSVal;
  content : JSVal;
  language : JSVal
}.

(** The returned object is the parsed reply itself with [files] rewritten;
    the four properties of the interface are kept here. *)
Record GeneratedProject : Type := {
  name : JSVal;
  description : JSVal;
  files : list ProjectFile;
  instructions : JSVal
}.

Definition languageMap : list (string * JSVal) :=
  [ ("html", JStr "html"); ("css", JStr "css"); ("js", JStr "javascript");
    ("ts", JStr "typescript"); ("json", JStr "json"); ("md", JStr "markdown");
    ("py", JStr "python"); ("java", JStr "java"); ("cpp", JStr "cpp");
    ("c", JStr "c"); ("go", JStr "go"); ("rs", JStr "rust") ].

(** [filename.split(".").pop()?.toLowerCase()], then
    [languageMap[ext || ""] || "text"]. Only a string has [split]. *)
Definition detectLanguage (filename : JSVal) : outcome JSVal :=
  match filename with
  | JStr s =>
      let ext := toLowerCase <$> pop (split "." s) in
      Returned (or_else (lookupProperty languageMap (default EmptyString ext))
                        (JStr "text"))
  | JUndefined =>
      Threw (TypeError "Cannot read properties of undefined (reading 'split')")
  | JNull =>
      Threw (TypeError "Cannot read properties of null (reading 'split')")
  | _ => Threw (TypeError "filename.split is not a function")
  end.

Definition mkFile (p c l : string) : ProjectFile :=
  {| path := JStr p; content := JStr c; language := JStr l |}.

Definition getFallbackProject (description : string) : GeneratedProject :=
  {| name := JStr "simple-project";
     description := JStr description;
     files := [
       mkFile "index.html"
         (lines [
            "<!DOCTYPE html>";
            "<html lang=" +:+ quoted "en" +:+ ">";
            "<head>";
            "    <meta charset=" +:+ quoted "UTF-8" +:+ ">";
            "    <meta name=" +:+ quoted "viewport" +:+ " content=" +:+
              quoted "width=device-width, initial-scale=1.0" +:+ ">";
            "    <title>" +:+ description +:+ "</title>";
            "    <link rel=" +:+ quoted "stylesheet" +:+ " href=" +:+ quoted "style.css" +:+ ">";
            "</head>";
            "<body>";
            "    <div class=" +:+ quoted "container" +:+ ">";
            "        <h1>Welcome to Your Project</h1>";
            "        <p>" +:+ description +:+ "</p>";
            "    </div>";
            "    <script src=" +:+ quoted "script.js" +:+ "></script>";
            "</body>";
            "</html>" ])
         "html";
       mkFile "style.css"
         (lines [
            "* {";
            "    margin: 0;";
            "    padding: 0;";
            "    box-sizing: border-box;";
            "}";
            EmptyString;
            "body {";
            "    font-family: -apple-system, BlinkMacSystemFont, 'Segoe UI', Roboto, Oxygen, Ubuntu, Cantarell, sans-serif;";
            "    line-height: 1.6;";
            "    background: linear-gradient(135deg, #667eea 0%, #764ba2 100%);";
            "    min-height: 100vh;";
            "    display: flex;";
            "    align-items: center;";
            "    justify-content: center;";
            "}";
            EmptyString;
            ".container {";
            "    background: white;";
            "    padding: 2rem;";
            "    border-radius: 10px;";
            "    box-shadow: 0 10px 30px rgba(0,0,0,0.2);";
            "    max-width: 600px;";
            "    text-align: center;";
            "}";
            EmptyString;
            "h1 {";
            "    color: #333;";
            "    margin-bottom: 1rem;";
            "}";
            EmptyString;
            "p {";
            "    color: #666;";
            "}" ])
         "css";
       mkFile "script.js"
         (lines [
            "console.log('Project loaded successfully!');";
            EmptyString;
            "document.addEventListener('DOMContentLoaded', () => {";
            "    console.log('DOM ready');";
            "});" ])
         "javascript";
       mkFile "README.md"
         (lines [
            "# " +:+ description;
            EmptyString;
            "## Setup";
            EmptyString;
            "1. Open `index.html` in a web browser";
            "2. That's it! The project is ready to use.";
            EmptyString;
            "## Files";
            EmptyString;
            "- `index.html` - Main HTML file";
            "- `style.css` - Styling";
            "- `script.js` - JavaScript functionality";
            EmptyString;
            "## Features";
            EmptyString;
            "This is a simple web project. Customize it to fit your needs!" ])
         "markdown" ];
     instructions :=
       JStr "Simply open index.html in a web browser to view the project. No build step required!" |}.

Definition prompt (description : string) : string :=
  lines [
    "You are a project generator. Create a complete, working project based on this description:";
    EmptyString;
    quoted description;
    EmptyString;
    "Generate a COMPLETE, production-ready project with all necessary files. Include:";
    "- All HTML, CSS, JavaScript files needed";
    "- Package configuration (package.json if applicable)";
    "- README with setup instructions";
    "- Any config files needed";
    EmptyString;
    "Return ONLY valid JSON in this exact format (no markdown, no code blocks):";
    "{";
    "  " +:+ quoted "name" +:+ ": " +:+ quoted "project-name" +:+ ",";
    "  " +:+ quoted "description" +:+ ": " +:+ quoted "Brief project description" +:+ ",";
    "  " +:+ quoted "files" +:+ ": [";
    "    {" +:+ quoted "path" +:+ ": " +:+ quoted "index.html" +:+ ", " +:+
      quoted "content" +:+ ": " +:+ quoted "file content here" +:+ ", " +:+
      quoted "language" +:+ ": " +:+ quoted "html" +:+ "},";
    "    {" +:+ quoted "path" +:+ ": " +:+ quoted "style.css" +:+ ", " +:+
      quoted "content" +:+ ": " +:+ quoted "file content here" +:+ ", " +:+
      quoted "language" +:+ ": " +:+ quoted "css" +:+ "},";
    "    {" +:+ quoted "path" +:+ ": " +:+ quoted "script.js" +:+ ", " +:+
      quoted "content" +:+ ": " +:+ quoted "file content here" +:+ ", " +:+
      quoted "language" +:+ ": " +:+ quoted "javascript" +:+ "}";
    "  ],";
    "  " +:+ quoted "instructions" +:+ ": " +:+
      quoted "Step-by-step setup and run instructions";
    "}";
    EmptyString;
    "IMPORTANT: ";
    "1. Return ONLY the JSON object, no other text";
    "2. Include ALL file content, not placeholders";
    "3. Make the project actually work";
    "4. Use modern, clean code";
    "5. Include at least 3-5 files for a complete project" ].

Definition request (description : string) : list Message.t :=
  [ Message.mk system
      "You are an expert project generator. You create complete, working projects with all necessary files. Always return valid JSON only.";
    Message.mk user (prompt description) ].

(** [response.content.trim()], with the Markdown fences removed when the
    text starts with one. *)
Definition jsonContent (reply : string) : string :=
  let trimmed := trim reply in
  if startsWith trimmed "```"
  then deleteAll "```" (deleteAll "```json" trimmed)
  else trimmed.

(** The reply of the provider, parsed: the first half of the [try] block. *)
Definition parsedReply (w : World) (llm : LLMProvider.t) (description : string)
  : outcome JSVal :=
  response ← LLMProvider.chat w llm (request description);
  JSON_parse w (jsonContent (LLMProvider.ChatResponse.content response)).

(** One step of [project.files.map(...)]. *)
Definition normalizeFile (file : JSVal) : outcome ProjectFile :=
  p ← getProp file "path";
  c ← getProp file "content";
  l ← getProp file "language";
  lang ← (if truthy l then Returned l else detectLanguage p);
  Returned {| path := or_else p (JStr "unnamed.txt");
              content := or_else c (JStr EmptyString);
              language := lang |}.

Fixpoint mapFiles (entries : list JSVal) : outcome (list ProjectFile) :=
  match entries with
  | [] => Returned []
  | e :: r =>
      f ← normalizeFile e;
      fs ← mapFiles r;
      Returned (f :: fs)
  end.

(** Validation and normalisation: the second half of the [try] block. *)
Definition checkedProject (project : JSVal) : outcome GeneratedProject :=
  nm ← getProp project "name";
  fl ← getProp project "files";
  if negb (truthy nm) || negb (truthy fl) || negb (isArray fl)
  then Threw (Error "Invalid project structure from AI")
  else
    match fl with
    | JArr entries =>
        fs ← mapFiles entries;
        d ← getProp project "description";
        i ← getProp project "instructions";
        Returned {| name := nm; description := d; files := fs; instructions := i |}
    | _ => Threw (Error "Invalid project structure from AI")
    end.

Definition generateProject (w : World) (llm : LLMProvider.t) (description : string)
  : outcome GeneratedProject :=
  try_catch
    (project ← parsedReply w llm description;
     checkedProject project)
    (fun _ => Returned (getFallbackProject description)).

End ProjectGenerator.

(** ** server/agents/AgentManager.ts *)

Module AgentManager.

Record Agent : Type := {
  id : string;
  name : string;
  description : string;
  createdAt : Z
}.

(** The object: its one field is the [Map] from agent id to agent. *)
Record t : Type := { agents : gmap string Agent }.

Definition defaultAgents : list (string * string * string) :=
  [ ("learning-assistant", "Learning Assistant",
     "Helps with study plans, quizzes, and learning goals");
    ("booking-navigator", "Booking Navigator",
     "Assists with travel bookings and reservations");
    ("code-helper", "Code Helper",
     "Provides coding assistance and debugging help") ].

Definition initializeDefaultAgents (clock : Z) (self : t) : t :=
  {| agents :=
       foldl (fun m '(i, n, d) =>
                <[ i := {| id := i; name := n; description := d; createdAt := clock |} ]> m)
             (agents self) defaultAgents |}.

(** [new AgentManager()] *)
Definition create (clock : Z) : t := initializeDefaultAgents clock {| agents := ∅ |}.

Definition getAgent (self : t) (i : string) : option Agent := agents self !! i.

(** [uuid] is the value [randomUUID()] returns. *)
Definition createAgent (clock : Z) (uuid : string) (self : t) (n d : string)
  : Agent * t :=
  let agent := {| id := uuid; name := n; description := d; createdAt := clock |} in
  (agent, {| agents := <[ uuid := agent ]> (agents self) |}).

Definition deleteAgent (self : t) (i : string) : bool * t :=
  (bool_decide (is_Some (agents self !! i)), {| agents := delete i (agents self) |}).

Definition executeTask (self : t) (agentId task : string) : outcome string * t :=
  match agents self !! agentId with
  | None => (Threw (Error ("Agent " +:+ agentId +:+ " not found")), self)
  | Some agent =>
      (Returned ("Agent " +:+ name agent +:+ " executed task: " +:+ task), self)
  end.

Definition chatWithAgent (self : t) (agentId message : string) : outcome string * t :=
  match agents self !! agentId with
  | None => (Threw (Error ("Agent " +:+ agentId +:+ " not found")), self)
  | Some agent =>
      (Returned ("Agent " +:+ name agent +:+ " response to: " +:+ message), self)
  end.

End AgentManager.

(** ** server/agents/UnifiedAgentCoordinator.ts *)

Module UnifiedAgentCoordinator.

Import ProjectGenerator.

Record CoordinatorResult : Type := {
  response : string;
  agentsUsed : list string;
  projectId : option string;
  projectData : option GeneratedProject
}.

Definition learningKeywords : list string :=
  ["learn"; "study"; "quiz"; "teach"; "explain"; "course"; "lesson"].
Definition bookingKeywords : list string :=
  ["book"; "reserve"; "hotel"; "flight"; "restaurant"; "travel"].
Definition codeKeywords : list string :=
  ["code"; "program"; "debug"; "function"; "syntax"; "error"; "bug"].
Definition projectKeywords : list string :=
  ["create a project"; "build a project"; "generate a project"; "make a project";
   "create project"; "build project"].

Definition isLearningQuery (message : string) : bool :=
  existsb (fun keyword => includes (toLowerCase message) keyword) learningKeywords.

Definition isBookingQuery (message : string) : bool :=
  existsb (fun keyword => includes (toLowerCase message) keyword) bookingKeywords.

Definition isCodeQuery (message : string) : bool :=
  existsb (fun keyword => includes (toLowerCase message) keyword) codeKeywords.

Definition isProjectGenerationQuery (message : string) : bool :=
  existsb (fun keyword => includes (toLowerCase message) keyword) projectKeywords.

(** [project.files.map(f => `- ${f.path}`)] *)
Fixpoint fileLines (fs : list ProjectFile) : outcome (list string) :=
  match fs with
  | [] => Returned []
  | f :: r =>
      p ← toString (path f);
      rest ← fileLines r;
      Returned (("- " +:+ p) :: rest)
  end.

(** The text of the reply in the project branch; a template literal
    converts each value it embeds to a string. *)
Definition projectSummary (project : GeneratedProject) : outcome string :=
  n ← toString (name project);
  d ← toString (description project);
  ls ← fileLines (files project);
  Returned ("**Project Generated: " +:+ n +:+ "**" +:+ nl +:+ nl +:+ d +:+ nl +:+ nl +:+
            "I've created a complete project with the following files:" +:+ nl +:+
            join nl ls +:+ nl +:+ nl +:+
            "You can download this project as a zip file using the download button.").

Definition systemPrompt (agentsUsed : list string) (specialization : string) : string :=
  lines [
    "You are an intelligent AI assistant coordinating specialized capabilities: " +:+
      join ", " agentsUsed +:+ ".";
    EmptyString;
    specialization;
    EmptyString;
    "CRITICAL INSTRUCTIONS:";
    "1. Answer ALL questions directly and concisely";
    "2. Keep responses under 120 words";
    "3. Use proper formatting with these sections:";
    "   - **Summary** (1-2 sentences)";
    "   - **Key Points** (bulleted list, 3 items max)";
    "   - **Recommended Action** (only when relevant)";
    "4. Omit verbose explanations and internal reasoning";
    "5. Focus only on essential information";
    EmptyString;
    "Your goal is to provide clear, focused answers that deliver maximum value with minimal words." ].

(** The three keyword tests of [handleMessage] and the fallback, run in
    order on the pair [(agentsUsed, specialization)]. *)
Definition specialize (message : string) : list string * string :=
  let st : list string * string := ([], EmptyString) in
  let st :=
    if isLearningQuery message
    then ((st.1 ++ ["Learning Assistant"])%list,
          st.2 +:+ "You excel at educational content, breaking down complex topics, creating study plans, and generating quiz questions. ")
    else st in
  let st :=
    if isBookingQuery message
    then ((st.1 ++ ["Booking Navigator"])%list,
          st.2 +:+ "You specialize in travel and booking assistance, helping users find flights, hotels, restaurants, and events. ")
    else st in
  let st :=
    if isCodeQuery message
    then ((st.1 ++ ["Code Helper"])%list,
          st.2 +:+ "You are expert at programming, debugging, explaining code concepts, and providing code examples. ")
    else st in
  if (length st.1 =? 0)%nat
  then ((st.1 ++ ["General Assistant"])%list,
        "You are a knowledgeable general assistant capable of answering any question. ")
  else st.

Definition handleMessage (w : World) (llm : LLMProvider.t) (message : string)
  : outcome CoordinatorResult :=
  let agentsUsed : list string := [] in
  if isProjectGenerationQuery message then
    let agentsUsed := (agentsUsed ++ ["Project Generator"])%list in
    try_catch
      (project ← generateProject w llm message;
       let projectId := "proj-" +:+ pretty (now w) in
       text ← projectSummary project;
       Returned {| response := text;
                   agentsUsed := agentsUsed;
                   projectId := Some projectId;
                   projectData := Some project |})
      (fun error =>
         Returned {| response := "I encountered an error generating your project: " +:+
                                 message_or error "undefined";
                     agentsUsed := agentsUsed;
                     projectId := None;
                     projectData := None |})
  else
    let '(agentsUsed, specialization) := specialize message in
    let messages :=
      [ Message.mk system (systemPrompt agentsUsed specialization);
        Message.mk user message ] in
    response ← LLMProvider.chat w llm messages;
    Returned {| response := LLMProvider.ChatResponse.content response;
                agentsUsed := agentsUsed;
                projectId := None;
                projectData := None |}.

End UnifiedAgentCoordinator.

(** ** server/storage.ts, as the executor uses it *)

Module Storage.

(** Modelled from the spec: the agent record of the store ([storage.ts] and
    [shared/schema.ts] are not part of the sources). The spec gives the
    fields [id, name, description, templateId?, status, tasksCompleted,
    successRate, createdAt]. The counters are non-negative integers. *)
Record Agent : Type := {
  id : string;
  name : string;
  description : string;
  templateId : option string;
  status : AgentStatus;
  tasksCompleted : N;
  successRate : N;
  createdAt : Z
}.

(** Modelled from the spec: the store is a collection of agent records
    keyed by id, and an append-only list of execution log entries. *)
Record t : Type := {
  agents : gmap string Agent;
  executionLogs : list ExecutionLog
}.

Definition getAgent (st : t) (agentId : string) : option Agent :=
  agents st !! agentId.

Definition setStatus (s : AgentStatus) (a : Agent) : Agent :=
  {| id := id a; name := name a; description := description a;
     templateId := templateId a; status := s;
     tasksCompleted := tasksCompleted a; successRate := successRate a;
     createdAt := createdAt a |}.

Definition setMetrics (n r : N) (a : Agent) : Agent :=
  {| id := id a; name := name a; description := description a;
     templateId := templateId a; status := status a;
     tasksCompleted := n; successRate := r;
     createdAt := createdAt a |}.

(** Modelled from the spec: what a write does. The store of the spec has
    simple read and update operations and no failure mode; an update of an
    id that is not stored changes nothing, and the record of the spec has no
    field for the date that comes with a status. *)
Definition apply (call : StorageCall) (st : t) : t :=
  match call with
  | UpdateAgentStatus i s _ =>
      {| agents := alter (setStatus s) i (agents st);
         executionLogs := executionLogs st |}
  | UpdateAgentMetrics i n r =>
      {| agents := alter (setMetrics n r) i (agents st);
         executionLogs := executionLogs st |}
  | CreateAgentExecutionLog entry =>
      {| agents := agents st;
         executionLogs := executionLogs st ++ [entry] |}
  end.

End Storage.

(** ** server/agents/AgentExecutor.ts *)

Module AgentExecutor.

Import Storage.

Record AgentExecutionResult : Type := {
  success : bool;
  message : string;
  data : JSVal
}.

Definition failure (m : string) : AgentExecutionResult :=
  {| success := false; message := m; data := JUndefined |}.

(** Code that awaits the store: the store is threaded through. *)
Definition Exec (A : Type) : Type := Storage.t -> outcome A * Storage.t.

Definition ret {A : Type} (a : A) : Exec A := fun st => (Returned a, st).

Definition bind {A B : Type} (m : Exec A) (f : A -> Exec B) : Exec B :=
  fun st =>
    match m st with
    | (Returned a, st') => f a st'
    | (Threw e, st') => (Threw e, st')
    end.

Definition lift {A : Type} (o : outcome A) : Exec A := fun st => (o, st).

Definition try_catch_exec {A : Type} (body : Exec A) (handler : exn -> Exec A)
  : Exec A :=
  fun st =>
    match body st with
    | (Returned a, st') => (Returned a, st')
    | (Threw e, st') => handler e st'
    end.

Notation "x <- m ;; k" := (bind m (fun x => k))
  (at level 100, m at next level, right associativity).
Notation "m ;; k" := (bind m (fun _ => k))
  (at level 100, right associativity).

(** [await storage.<call>] *)
Definition write (call : StorageCall) : Exec unit :=
  fun st => (Returned tt, Storage.apply call st).

(** [Math.round(num / den)] on non-negative integers: the nearest integer,
    a half rounded up. *)
Definition Math_round_ratio (num den : N) : N := ((2 * num + den) / (2 * den))%N.

(** [params || {}] *)
Definition paramsObject (params : JSVal) : JSVal := or_else params (JObj []).

(** [a === b] against a string literal *)
Definition isString (v : JSVal) (s : string) : bool :=
  match v with
  | JStr x => String.eqb x s
  | _ => false
  end.

Definition executeAutoEmailAgent (w : World) (agent : Agent) (params : JSVal)
  : outcome AgentExecutionResult :=
  let p := paramsObject params in
  to ← getProp p "to";
  subject ← getProp p "subject";
  body ← getProp p "body";
  if negb (truthy to) || negb (truthy subject) || negb (truthy body) then
    Returned (failure "Missing required parameters: to, subject, body")
  else
    try_catch
      (sent ← emailService_sendEmail w to subject body;
       if (sent : bool) then
         toText ← toString to;
         Returned {| success := true;
                     message := "Email sent successfully to " +:+ toText;
                     data := JObj [("to", to); ("subject", subject)] |}
       else Returned (failure "Email service failed to send email"))
      (fun error =>
         Returned (failure ("Failed to send email: " +:+ message_or error "Unknown error"))).

Definition executeWeatherReportAgent (w : World) (agent : Agent) (params : JSVal)
  : outcome AgentExecutionResult :=
  let p := paramsObject params in
  location ← getProp p "location";
  apiKey ← getProp p "apiKey";
  if negb (truthy location) then
    Returned (failure "Missing required parameter: location")
  else if negb (truthy apiKey) then
    Returned (failure "Missing required parameter: apiKey (OpenWeatherMap API key)")
  else
    try_catch
      (locationText ← toString location;
       apiKeyText ← toString apiKey;
       response ← fetch w ("https://api.openweathermap.org/data/2.5/weather?q=" +:+
                           encodeURIComponent locationText +:+ "&appid=" +:+ apiKeyText +:+
                           "&units=metric");
       if negb (ok response) then
         Returned (failure ("Weather API error: " +:+ statusText response))
       else
         d ← json response;
         nm ← getProp d "name";
         main ← getProp d "main";
         temp ← getProp main "temp";
         feels ← getProp main "feels_like";
         humidity ← getProp main "humidity";
         weather ← getProp d "weather";
         w0 ← getFirst weather;
         desc ← getProp w0 "description";
         w0' ← getFirst weather;
         icon ← getProp w0' "icon";
         Returned {| success := true;
                     message := "Weather fetched successfully for " +:+ locationText;
                     data := JObj [("location", nm); ("temperature", temp);
                                   ("feelsLike", feels); ("humidity", humidity);
                                   ("description", desc); ("icon", icon)] |})
      (fun error =>
         Returned (failure ("Failed to fetch weather: " +:+ message_or error "Unknown error"))).

(** One element of [articles.map(...)], as the five fields
    [title, source, url, publishedAt, description]. *)
Record Article : Type := {
  title : JSVal;
  source : JSVal;
  url : JSVal;
  publishedAt : JSVal;
  article_description : JSVal
}.

Definition structureArticle (article : JSVal) : outcome Article :=
  t ← getProp article "title";
  src ← getProp article "source";
  srcName ← getPropOpt src "name";
  u ← getProp article "url";
  pa ← getProp article "publishedAt";
  d ← getProp article "description";
  Returned {| title := or_else t (JStr "Untitled");
              source := or_else srcName (JStr "Unknown");
              url := or_else u JNull;
              publishedAt := or_else pa JNull;
              article_description := or_else d JNull |}.

Fixpoint structureArticles (l : list JSVal) : outcome (list Article) :=
  match l with
  | [] => Returned []
  | a :: r =>
      x ← structureArticle a;
      xs ← structureArticles r;
      Returned (x :: xs)
  end.

Definition articleObject (a : Article) : JSVal :=
  JObj [("title", title a); ("source", source a); ("url", url a);
        ("publishedAt", publishedAt a); ("description", article_description a)].

(** The text of one article, [idx] counting from 0. *)
Definition articleText (idx : nat) (a : Article) : outcome string :=
  t ← toString (title a);
  d ← toString (or_else (article_description a) (JStr EmptyString));
  src ← toString (source a);
  pa ← toString (or_else (publishedAt a) (JStr "Unknown"));
  Returned (pretty (idx + 1)%nat +:+ ". " +:+ t +:+ nl +:+ d +:+ nl +:+
            "Source: " +:+ src +:+ nl +:+ "Published: " +:+ pa).

Fixpoint articleTexts (idx : nat) (l : list Article) : outcome (list string) :=
  match l with
  | [] => Returned []
  | a :: r =>
      x ← articleText idx a;
      xs ← articleTexts (S idx) r;
      Returned (x :: xs)
  end.

Definition executeNewsSummarizerAgent (w : World) (llm : LLMProvider.t)
    (agent : Agent) (params : JSVal) : outcome AgentExecutionResult :=
  let p := paramsObject params in
  topic ← getProp p "topic";
  country ← (fun v => default_to v (JStr "in")) <$> getProp p "country";
  pageSize ← (fun v => default_to v (JInt 5)) <$> getProp p "pageSize";
  apiKey ← getProp p "apiKey";
  if negb (truthy topic) then
    Returned (failure "Missing required parameter: topic (e.g., 'technology', 'business', 'sports')")
  else if negb (truthy apiKey) then
    Returned (failure "Missing required parameter: apiKey (News API key)")
  else
    try_catch
      (topicText ← toString topic;
       countryText ← toString country;
       pageSizeText ← toString pageSize;
       apiKeyText ← toString apiKey;
       response ← fetch w ("https://newsapi.org/v2/top-headlines?q=" +:+
                           encodeURIComponent topicText +:+ "&country=" +:+ countryText +:+
                           "&pageSize=" +:+ pageSizeText +:+ "&apiKey=" +:+ apiKeyText);
       if negb (ok response) then
         let errorData :=
           match json response with
           | Returned v => v
           | Threw _ => JObj []
           end in
         m ← getProp errorData "message";
         text ← toString (or_else m (JStr (statusText response)));
         Returned (failure ("News API error: " +:+ text))
       else
         d ← json response;
         st ← getProp d "status";
         if isString st "error" then
           m ← getProp d "message";
           mText ← toString (or_else m (JStr "Unknown error"));
           c ← getProp d "code";
           cText ← toString (or_else c (JStr "N/A"));
           Returned (failure ("News API error: " +:+ mText +:+ ". Code: " +:+ cText))
         else
           arts ← getProp d "articles";
           let articles := or_else arts (JArr []) in
           len ← getProp articles "length";
           match len with
           | JNum (NumInt 0) =>
               Returned (failure ("No news articles found for topic: " +:+ topicText))
           | _ =>
               match articles with
               | JArr items =>
                   structuredArticles ← structureArticles items;
                   texts ← articleTexts 0 structuredArticles;
                   let articlesText := join (nl +:+ nl) texts in
                   lenText ← toString len;
                   llmResponse ←
                     LLMProvider.chat w llm
                       [ Message.mk system
                           "You are a news summarizer. Create a concise, informative summary of the news articles provided. Focus on key facts and trends.";
                         Message.mk user
                           ("Summarize these " +:+ lenText +:+ " news articles about " +:+
                            quoted topicText +:+ ":" +:+ nl +:+ nl +:+ articlesText) ];
                   let uniqueSources :=
                     List.filter (fun s => negb (isString s "Unknown"))
                                 (uniqueValues (List.map source structuredArticles)) in
                   Returned {|
                     success := true;
                     message := "Successfully summarized " +:+ lenText +:+
                                " news articles about " +:+ quoted topicText;
                     data := JObj [
                       ("topic", topic);
                       ("articlesCount", len);
                       ("summary", JStr (LLMProvider.ChatResponse.content llmResponse));
                       ("llmProvider", JStr (LLMProvider.ChatResponse.provider llmResponse));
                       ("articles", JArr (List.map articleObject structuredArticles));
                       ("sources", JArr uniqueSources) ] |}
               | _ => Threw (TypeError "articles.map is not a function")
               end
           end)
      (fun error =>
         Returned (failure ("Failed to fetch and summarize news: " +:+
                            message_or error "Unknown error"))).

Definition executeTaskReminderAgent (w : World) (agent : Agent) (params : JSVal)
  : outcome AgentExecutionResult :=
  let p := paramsObject params in
  task ← getProp p "task";
  dueDate ← getProp p "dueDate";
  reminderEmail ← getProp p "reminderEmail";
  reminderTime ← (fun v => default_to v (JStr "09:00 UTC")) <$> getProp p "reminderTime";
  timezone ← (fun v => default_to v (JStr "UTC")) <$> getProp p "timezone";
  if negb (truthy task) then
    Returned (failure "Missing required parameter: task (description of what to remind)")
  else if negb (truthy reminderEmail) then
    Returned (failure "Missing required parameter: reminderEmail (where to send reminder)")
  else
    try_catch
      (taskText ← toString task;
       dueText ← (if truthy dueDate then toString dueDate else Returned EmptyString);
       let reminderSubject :=
         if truthy dueDate
         then "Task Reminder: " +:+ taskText +:+ " (Due: " +:+ dueText +:+ ")"
         else "Task Reminder: " +:+ taskText in
       timeText ← toString reminderTime;
       zoneText ← toString timezone;
       let reminderBody :=
         trim (lines [
           EmptyString;
           "Hello!";
           EmptyString;
           "This is a reminder about your task:";
           EmptyString;
           "TASK: " +:+ taskText;
           (if truthy dueDate then "DUE DATE: " +:+ dueText else EmptyString);
           "REMINDER TIME: " +:+ timeText +:+ " (" +:+ zoneText +:+ ")";
           EmptyString;
           "Don't forget to complete this task on time!";
           EmptyString;
           "Best regards,";
           "Your Agentverse Task Reminder Agent";
           "      " ]) in
       sent ← emailService_sendEmail w reminderEmail (JStr reminderSubject) (JStr reminderBody);
       if (sent : bool) then
         emailText ← toString reminderEmail;
         Returned {|
           success := true;
           message := "Task reminder sent successfully to " +:+ emailText;
           data := JObj [ ("task", task); ("dueDate", dueDate);
                          ("reminderEmail", reminderEmail);
                          ("reminderTime", reminderTime); ("timezone", timezone);
                          ("sentAt", JStr (nowISO w)) ] |}
       else Returned (failure "Failed to send task reminder email"))
      (fun error =>
         Returned (failure ("Failed to send task reminder: " +:+
                            message_or error "Unknown error"))).

Definition executeSocialMonitorAgent (agent : Agent) (params : JSVal)
  : outcome AgentExecutionResult :=
  Returned (failure "Social Monitor agent not yet implemented. Coming soon!").

Definition executeDataBackupAgent (agent : Agent) (params : JSVal)
  : outcome AgentExecutionResult :=
  Returned (failure "Data Backup agent not yet implemented. Coming soon!").

(** The [switch] on [agent.templateId]; an agent without a template
    carries [null] there. *)
Definition dispatch (w : World) (llm : LLMProvider.t) (agent : Agent) (params : JSVal)
  : outcome AgentExecutionResult :=
  match templateId agent with
  | Some template =>
      if String.eqb template "auto-email"
      then executeAutoEmailAgent w agent params
      else if String.eqb template "weather-report"
      then executeWeatherReportAgent w agent params
      else if String.eqb template "news-summarizer"
      then executeNewsSummarizerAgent w llm agent params
      else if String.eqb template "task-reminder"
      then executeTaskReminderAgent w agent params
      else if String.eqb template "social-monitor"
      then executeSocialMonitorAgent agent params
      else if String.eqb template "data-backup"
      then executeDataBackupAgent agent params
      else Returned (failure ("Unknown agent template: " +:+ template))
  | None => Returned (failure "Unknown agent template: null")
  end.

Definition executeAgent (w : World) (llm : LLMProvider.t) (agentId : string)
    (params : JSVal) : Exec AgentExecutionResult :=
  fun st =>
    match getAgent st agentId with
    | None => (Returned (failure "Agent not found"), st)
    | Some agent =>
        (write (UpdateAgentStatus agentId executing (Some (now w))) ;;
         try_catch_exec
           (result <- lift (dispatch w llm agent params) ;;
            let newTasksCompleted := (tasksCompleted agent + 1)%N in
            let newSuccessRate :=
              if success result
              then Math_round_ratio (successRate agent * tasksCompleted agent + 100)
                                    newTasksCompleted
              else Math_round_ratio (successRate agent * tasksCompleted agent)
                                    newTasksCompleted in
            write (UpdateAgentMetrics agentId newTasksCompleted newSuccessRate) ;;
            write (UpdateAgentStatus agentId (if success result then idle else error) None) ;;
            write (CreateAgentExecutionLog
                       {| log_agentId := agentId;
                          log_status := if success result then log_success else log_error;
                          log_message := message result;
                          log_result := data result |}) ;;
            ret result)
           (fun err =>
              write (UpdateAgentStatus agentId error None) ;;
              write (CreateAgentExecutionLog
                         {| log_agentId := agentId;
                            log_status := log_error;
                            log_message := message_or err "Unknown error occurred";
                            log_result := JNull |}) ;;
              ret (failure (message_or err "Unknown error occurred")))) st
    end.

End AgentExecutor.

(** ** server/services/emailService.ts *)

Module EmailService.

(** [process.env] as the mail service reads it when the module loads. *)
Record MailEnv : Type := {
  RESEND_API_KEY : option string;
  FROM_EMAIL : option string;
  GMAIL_USER : option string;
  GMAIL_APP_PASSWORD : option string;
  GMAIL_CLIENT_ID : option string;
  GMAIL_CLIENT_SECRET : option string;
  GMAIL_REFRESH_TOKEN : option string
}.

(** [process.env.X || d] *)
Definition env_or (v : option string) (d : string) : string :=
  match v with
  | Some s => if isEmpty s then d else s
  | None => d
  end.

Inductive EmailProvider : Type :=
| GmailAppPassword
| GmailOAuth2
| Resend
| Demo.

(** The string of the union type [EmailProvider]. *)
Definition providerName (p : EmailProvider) : string :=
  match p with
  | GmailAppPassword => "gmail-app-password"
  | GmailOAuth2 => "gmail-oauth2"
  | Resend => "resend"
  | Demo => "demo"
  end.

(** The two option objects handed to [nodemailer.createTransport]: the
    Gmail service with a user and a password, and the SMTP host
    [smtp.gmail.com], port 465, secure, with OAuth2 credentials. *)
Inductive TransportConfig : Type :=
| ServiceGmail (user pass : string)
| SmtpOAuth2 (user clientId clientSecret refreshToken : string).

Record MailOptions : Type := {
  from : string;
  to : JSVal;
  subject : JSVal;
  html : string
}.

(** The two mail libraries. A transporter is known by the options it was
    made from, a Resend client by its key; each call returns or throws. What
    [sendMail] and [emails.send] return is not read by the service. *)
Record MailLibrary : Type := {
  nodemailer_createTransport : TransportConfig -> outcome unit;
  transporter_sendMail : TransportConfig -> MailOptions -> outcome unit;
  Resend_new : string -> outcome unit;
  resend_emails_send : string -> MailOptions -> outcome unit
}.

(** The fields of the object. *)
Record t : Type := {
  resend : option string;
  gmailTransporter : option TransportConfig;
  provider : EmailProvider;
  enabled : bool;
  fromEmail : string
}.

(** The field initialisers of the class. *)
Definition fresh : t :=
  {| resend := None; gmailTransporter := None; provider := Demo;
     enabled := false; fromEmail := EmptyString |}.

(** One [if (...) { try { ...; return; } catch { warn } }] block of
    [initializeEmailProvider]: [Some] of the object when the block returns. *)
Definition attempt (condition : bool) (construct : outcome unit) (configured : t)
  : option t :=
  if condition then
    match construct with
    | Returned _ => Some configured
    | Threw _ => None
    end
  else None.

Definition initializeEmailProvider (lib : MailLibrary) (e : MailEnv) (self : t) : t :=
  let resendKey := env_or (RESEND_API_KEY e) EmptyString in
  let fromAddress := env_or (FROM_EMAIL e) "onboarding@resend.dev" in
  let gmailUser := env_or (GMAIL_USER e) EmptyString in
  let appPassword := env_or (GMAIL_APP_PASSWORD e) EmptyString in
  let clientId := env_or (GMAIL_CLIENT_ID e) EmptyString in
  let clientSecret := env_or (GMAIL_CLIENT_SECRET e) EmptyString in
  let refreshToken := env_or (GMAIL_REFRESH_TOKEN e) EmptyString in
  let password := ServiceGmail gmailUser appPassword in
  let oauth2 := SmtpOAuth2 gmailUser clientId clientSecret refreshToken in
  match attempt (negb (isEmpty gmailUser) && negb (isEmpty appPassword))
                (nodemailer_createTransport lib password)
                {| resend := resend self; gmailTransporter := Some password;
                   provider := GmailAppPassword; enabled := true;
                   fromEmail := gmailUser |}
  with
  | Some configured => configured
  | None =>
      match attempt (negb (isEmpty gmailUser) && negb (isEmpty clientId) &&
                     negb (isEmpty clientSecret) && negb (isEmpty refreshToken))
                    (nodemailer_createTransport lib oauth2)
                    {| resend := resend self; gmailTransporter := Some oauth2;
                       provider := GmailOAuth2; enabled := true;
                       fromEmail := gmailUser |}
      with
      | Some configured => configured
      | None =>
          match attempt (negb (isEmpty resendKey) && negb (String.eqb resendKey EmptyString))
                        (Resend_new lib resendKey)
                        {| resend := Some resendKey;
                           gmailTransporter := gmailTransporter self;
                           provider := Resend; enabled := true;
                           fromEmail := fromAddress |}
          with
          | Some configured => configured
          | None => self
          end
      end
  end.

(** [new EmailService()] *)
Definition create (lib : MailLibrary) (e : MailEnv) : t :=
  initializeEmailProvider lib e fresh.

Definition isEnabled (self : t) : bool := enabled self.

Definition getProvider (self : t) : EmailProvider := provider self.

(** [s.replace(/\n/g, r)] *)
Fixpoint replaceLineFeeds (r : string) (s : string) : string :=
  match s with
  | EmptyString => EmptyString
  | String c rest =>
      if Ascii.eqb c "010"%char then r +:+ replaceLineFeeds r rest
      else String c (replaceLineFeeds r rest)
  end.

(** [body.replace(/\n/g, '<br>')] on whatever [body] is: only a string has
    the method. *)
Definition bodyMarkup (body : JSVal) : outcome string :=
  match body with
  | JStr s => Returned (replaceLineFeeds "<br>" s)
  | JUndefined =>
      Threw (TypeError "Cannot read properties of undefined (reading 'replace')")
  | JNull =>
      Threw (TypeError "Cannot read properties of null (reading 'replace')")
  | _ => Threw (TypeError "body.replace is not a function")
  end.

(** The page of [sendEmail] around the marked-up body. *)
Definition page (markup : string) : string :=
  lines [
    EmptyString;
    "      <!DOCTYPE html>";
    "      <html>";
    "        <head>";
    "          <style>";
    "            body { font-family: Arial, sans-serif; line-height: 1.6; color: #333; }";
    "            .container { max-width: 600px; margin: 0 auto; padding: 20px; }";
    "            .content { background: #f9f9f9; padding: 20px; border-radius: 8px; }";
    "          </style>";
    "        </head>";
    "        <body>";
    "          <div class=" +:+ quoted "container" +:+ ">";
    "            <div class=" +:+ quoted "content" +:+ ">";
    "              " +:+ markup;
    "            </div>";
    "          </div>";
    "        </body>";
    "      </html>";
    "    " ].

(** The log line of [sendViaGmail] and [sendViaResend] prints [to]; so does
    the line of their [catch] block, outside any [try]. *)
Definition sendViaGmail (lib : MailLibrary) (self : t) (to subject : JSVal)
    (html : string) (day : Z) : outcome bool :=
  try_catch
    (let mailOptions :=
       {| from := fromEmail self; to := to; subject := subject; html := html |} in
     match gmailTransporter self with
     | Some transporter =>
         _ ← transporter_sendMail lib transporter mailOptions;
         _ ← toString to;
         Returned true
     | None => Threw (TypeError "Cannot read properties of null (reading 'sendMail')")
     end)
    (fun error => _ ← toString to; Returned false).

Definition sendViaResend (lib : MailLibrary) (self : t) (to subject : JSVal)
    (html : string) (day : Z) : outcome bool :=
  try_catch
    (match resend self with
     | None => Threw (Error "Resend not initialized")
     | Some client =>
         _ ← resend_emails_send lib client
               {| from := fromEmail self; to := to; subject := subject; html := html |};
         _ ← toString to;
         Returned true
     end)
    (fun error => _ ← toString to; Returned false).

Definition sendEmail (lib : MailLibrary) (self : t) (to subject body : JSVal)
  : outcome bool :=
  if negb (enabled self) then
    _ ← toString to;
    _ ← toString subject;
    _ ← toString body;
    Returned true
  else
    markup ← bodyMarkup body;
    let html := page markup in
    match provider self with
    | GmailAppPassword | GmailOAuth2 => sendViaGmail lib self to subject html 0
    | Resend =>
        match resend self with
        | Some _ => sendViaResend lib self to subject html 0
        | None => Returned false
        end
    | Demo => Returned false
    end.

End EmailService.

(** ** server/routes.ts *)

Module Routes.

Import UnifiedAgentCoordinator.

(** The objects the handlers pass to [res.json]. *)
Inductive Payload : Type :=
| ErrorBody (text : string)
| ExecutionBody (result : AgentExecutor.AgentExecutionResult)
| ExecutionFailure (message : string)
| TextBody (text : string)
| AgentChatBody (response provider : string)
| ProviderBody (provider : string) (hasRealLLM : bool)
| IntentBody (intent provider : string)
| CoordinatorBody (result : CoordinatorResult).

Record Response : Type := {
  statusCode : nat;
  payload : Payload
}.

(** [res.json(p)] *)
Definition res_json (p : Payload) : Response :=
  {| statusCode := 200; payload := p |}.

(** [res.status(code).json(p)] *)
Definition res_status_json (code : nat) (p : Payload) : Response :=
  {| statusCode := code; payload := p |}.

(** The objects the handlers share: the agent store, the map
    [storage.generatedProjects], which is created on first use, and the
    agent manager. *)
Record Server : Type := {
  storage : Storage.t;
  generatedProjects : option (gmap string ProjectGenerator.GeneratedProject);
  agentManager : AgentManager.t
}.

(** [this.agents.get(agentId)] for whatever the caller passes: the keys of
    the map are strings. *)
Definition agents_get (self : AgentManager.t) (agentId : JSVal)
  : option AgentManager.Agent :=
  match agentId with
  | JStr i => AgentManager.getAgent self i
  | _ => None
  end.

(** [agentManager.executeTask(agentId, task)] and
    [agentManager.chatWithAgent(agentId, message)] on the values the
    handlers read from a request, which need not be strings; the manager is
    not written. *)
Definition agentManager_executeTask (self : AgentManager.t) (agentId task : JSVal)
  : outcome string :=
  match agents_get self agentId with
  | None =>
      idText ← toString agentId;
      Threw (Error ("Agent " +:+ idText +:+ " not found"))
  | Some agent =>
      taskText ← toString task;
      Returned ("Agent " +:+ AgentManager.name agent +:+ " executed task: " +:+ taskText)
  end.

Definition agentManager_chatWithAgent (self : AgentManager.t) (agentId message : JSVal)
  : outcome string :=
  match agents_get self agentId with
  | None =>
      idText ← toString agentId;
      Threw (Error ("Agent " +:+ idText +:+ " not found"))
  | Some agent =>
      messageText ← toString message;
      Returned ("Agent " +:+ AgentManager.name agent +:+ " response to: " +:+ messageText)
  end.

(** [unifiedCoordinator.handleMessage(message)] on the value a handler read
    from a request: the first keyword test calls [message.toLowerCase()]. *)
Definition unifiedCoordinator_handleMessage (w : World) (llm : LLMProvider.t)
    (message : JSVal) : outcome CoordinatorResult :=
  match message with
  | JStr s => handleMessage w llm s
  | JUndefined =>
      Threw (TypeError "Cannot read properties of undefined (reading 'toLowerCase')")
  | JNull =>
      Threw (TypeError "Cannot read properties of null (reading 'toLowerCase')")
  | _ => Threw (TypeError "message.toLowerCase is not a function")
  end.

(** [llmProvider.generateQuiz(topic, goals)] and
    [llmProvider.generateSchedule(topic, duration, goals)] on the values the
    handlers read from a request, which need not be strings: a template
    literal converts them, and the conversion of an object can throw. The
    prompts are built inside the [try] blocks; [mockQuiz] interpolates the
    topic once more, outside any [try]; [mockSchedule] stores [topic] and
    [duration] as they are. *)
Definition goalsClauseOf (label : string) (goals : JSVal) : outcome string :=
  if truthy goals then
    goalsText ← toString goals;
    Returned (label +:+ goalsText +:+ ". ")
  else Returned EmptyString.

Definition llmProvider_mockQuiz (topic : JSVal) : outcome LLMProvider.ChatResponse.t :=
  topicText ← toString topic;
  Returned (LLMProvider.mockQuiz topicText).

Definition llmProvider_generateQuizWithGemini (w : World) (topic goals : JSVal)
  : outcome LLMProvider.ChatResponse.t :=
  try_catch
    (let timestamp := now w in
     topicText ← toString topic;
     clause ← goalsClauseOf "Focus on: " goals;
     let prompt := LLMProvider.geminiQuizPromptWith timestamp topicText clause in
     raw ← gemini_generateContent w "gemini-2.0-flash" prompt;
     let text := trim raw in
     Returned (LLMProvider.ChatResponse.mk (LLMProvider.cleanFences text) "gemini"))
    (fun _ => llmProvider_mockQuiz topic).

Definition llmProvider_generateQuizWithOpenAI (w : World) (topic goals : JSVal)
  : outcome LLMProvider.ChatResponse.t :=
  try_catch
    (let timestamp := now w in
     topicText ← toString topic;
     clause ← goalsClauseOf "Focus on: " goals;
     reply ← openai_create w "gpt-3.5-turbo"
               (LLMProvider.openaiQuizMessagesWith timestamp topicText clause)
               {| temperature := 8 # 10; max_tokens := 2048 |};
     let text := LLMProvider.contentOrEmptyObject reply in
     let cleanedText := trim text in
     Returned (LLMProvider.ChatResponse.mk (LLMProvider.cleanFences cleanedText) "openai"))
    (fun _ => llmProvider_mockQuiz topic).

Definition llmProvider_generateQuiz (w : World) (self : LLMProvider.t)
    (topic goals : JSVal) : outcome LLMProvider.ChatResponse.t :=
  if String.eqb (LLMProvider.provider self) "gemini" && configured (GEMINI_API_KEY (env w))
  then llmProvider_generateQuizWithGemini w topic goals
  else if String.eqb (LLMProvider.provider self) "openai"
          && configured (OPENAI_API_KEY (env w))
  then llmProvider_generateQuizWithOpenAI w topic goals
  else llmProvider_mockQuiz topic.

Definition llmProvider_generateScheduleWithGemini (w : World)
    (topic duration goals : JSVal) : outcome LLMProvider.ChatResponse.t :=
  try_catch
    (let timestamp := now w in
     topicText ← toString topic;
     durationText ← toString duration;
     clause ← goalsClauseOf "Learning goals: " goals;
     let prompt :=
       LLMProvider.geminiSchedulePromptWith timestamp topicText durationText clause in
     raw ← gemini_generateContent w "gemini-2.0-flash" prompt;
     let text := trim raw in
     Returned (LLMProvider.ChatResponse.mk (LLMProvider.cleanFences text) "gemini"))
    (fun _ => Returned (LLMProvider.mockScheduleOf topic duration)).

Definition llmProvider_generateScheduleWithOpenAI (w : World)
    (topic duration goals : JSVal) : outcome LLMProvider.ChatResponse.t :=
  try_catch
    (let timestamp := now w in
     topicText ← toString topic;
     durationText ← toString duration;
     clause ← goalsClauseOf "Goals: " goals;
     reply ← openai_create w "gpt-3.5-turbo"
               (LLMProvider.openaiScheduleMessagesWith timestamp topicText durationText
                                                       clause)
               {| temperature := 7 # 10; max_tokens := 2048 |};
     let text := LLMProvider.contentOrEmptyObject reply in
     let cleanedText := trim text in
     Returned (LLMProvider.ChatResponse.mk (LLMProvider.cleanFences cleanedText) "openai"))
    (fun _ => Returned (LLMProvider.mockScheduleOf topic duration)).

Definition llmProvider_generateSchedule (w : World) (self : LLMProvider.t)
    (topic duration goals : JSVal) : outcome LLMProvider.ChatResponse.t :=
  if String.eqb (LLMProvider.provider self) "gemini" && configured (GEMINI_API_KEY (env w))
  then llmProvider_generateScheduleWithGemini w topic duration goals
  else if String.eqb (LLMProvider.provider self) "openai"
          && configured (OPENAI_API_KEY (env w))
  then llmProvider_generateScheduleWithOpenAI w topic duration goals
  else Returned (LLMProvider.mockScheduleOf topic duration).

(** The frames the socket handler sends, before [JSON.stringify]. *)
Inductive Frame : Type :=
| AgentResponse (content : string)
| UnifiedResponse (result : CoordinatorResult).

(** [if (result.projectId && result.projectData) { ... set(...) }] *)
Definition storeProject (result : CoordinatorResult) (srv : Server) : Server :=
  match projectId result, projectData result with
  | Some i, Some project =>
      if negb (isEmpty i) then
        {| storage := storage srv;
           generatedProjects :=
             Some (<[ i := project ]> (default ∅ (generatedProjects srv)));
           agentManager := agentManager srv |}
      else srv
  | _, _ => srv
  end.

(** [ws.on("message", ...)], for the text of the message; the frames are
    those handed to [ws.send], which is taken to return. *)
Definition onMessage (w : World) (llm : LLMProvider.t) (message : string) (srv : Server)
  : list Frame * Server :=
  match
    (data ← JSON_parse w message;
     type ← getProp data "type";
     if AgentExecutor.isString type "agent_chat" then
       agentId ← getProp data "agentId";
       text ← getProp data "message";
       response ← agentManager_chatWithAgent (agentManager srv) agentId text;
       Returned ([AgentResponse response], srv)
     else if AgentExecutor.isString type "unified_chat" then
       text ← getProp data "message";
       result ← unifiedCoordinator_handleMessage w llm text;
       Returned ([UnifiedResponse result], storeProject result srv)
     else Returned ([], srv))
  with
  | Returned sent => sent
  | Threw _ => ([], srv)
  end.

(** [POST /api/agents/:id/execute] *)
Definition postAgentExecute (w : World) (llm : LLMProvider.t) (id : string)
    (reqBody : JSVal) (srv : Server) : Response * Server :=
  match AgentExecutor.executeAgent w llm id reqBody (storage srv) with
  | (Returned result, st) =>
      (res_json (ExecutionBody result),
       {| storage := st; generatedProjects := generatedProjects srv;
          agentManager := agentManager srv |})
  | (Threw err, st) =>
      (res_status_json 500
         (ExecutionFailure (message_or err "Failed to execute agent")),
       {| storage := st; generatedProjects := generatedProjects srv;
          agentManager := agentManager srv |})
  end.

(** [try { ... } catch (error) { res.status(500).json(failed) }] around a
    handler body that answers once. *)
Definition answer (body : outcome Response) (failed : Payload) : Response :=
  match body with
  | Returned r => r
  | Threw _ => res_status_json 500 failed
  end.

(** [POST /api/agents/:id/task] *)
Definition postAgentTask (id : string) (reqBody : JSVal) (srv : Server) : Response :=
  answer
    (task ← getProp reqBody "task";
     if negb (truthy task) then
       Returned (res_status_json 400 (ErrorBody "Task description is required"))
     else
       result ← agentManager_executeTask (agentManager srv) (JStr id) task;
       Returned (res_json (TextBody result)))
    (ErrorBody "Failed to execute task").

(** [POST /api/agents/:id/chat] *)
Definition postAgentChat (llm : LLMProvider.t) (id : string) (reqBody : JSVal)
    (srv : Server) : Response :=
  answer
    (message ← getProp reqBody "message";
     if negb (truthy message) then
       Returned (res_status_json 400 (ErrorBody "Message is required"))
     else
       response ← agentManager_chatWithAgent (agentManager srv) (JStr id) message;
       Returned (res_json (AgentChatBody response (LLMProvider.getProvider llm))))
    (ErrorBody "Failed to chat with agent").

(** [GET /api/system/llm-provider] *)
Definition getLlmProvider (llm : LLMProvider.t) : Response :=
  res_json (ProviderBody (LLMProvider.getProvider llm)
                         (LLMProvider.isRealLLMAvailable llm)).

(** One optional line of the booking request:
    [${v ? `Label: ${v}` : ""}]. *)
Definition labelled (label : string) (v : JSVal) : outcome string :=
  if truthy v then
    text ← toString v;
    Returned (label +:+ ": " +:+ text)
  else Returned EmptyString.

(** [POST /api/booking/detect-intent] *)
Definition postDetectIntent (w : World) (llm : LLMProvider.t) (reqBody : JSVal)
  : Response :=
  answer
    (query ← getProp reqBody "query";
     budget ← getProp reqBody "budget";
     destination ← getProp reqBody "destination";
     dates ← getProp reqBody "dates";
     if negb (truthy query) then
       Returned (res_status_json 400 (ErrorBody "Query is required"))
     else
       queryText ← toString query;
       budgetLine ← labelled "Budget" budget;
       destinationLine ← labelled "Destination" destination;
       datesLine ← labelled "Dates" dates;
       let messages :=
         [ Message.mk system
             "You are a travel booking assistant. Analyze user requests and determine what they want to book.";
           Message.mk user
             ("Analyze this booking request:" +:+ nl +:+ queryText +:+ nl +:+
              budgetLine +:+ nl +:+ destinationLine +:+ nl +:+ datesLine +:+ nl +:+ nl +:+
              "What is the user trying to book? (flights, hotels, packages, restaurants, events)") ] in
       response ← LLMProvider.chat w llm messages;
       Returned (res_json (IntentBody (LLMProvider.ChatResponse.content response)
                                      (LLMProvider.ChatResponse.provider response))))
    (ErrorBody "Failed to detect intent").

(** [POST /api/chat/unified]; the handler does not touch the shared
    objects. *)
Definition postChatUnified (w : World) (llm : LLMProvider.t) (reqBody : JSVal)
  : Response :=
  answer
    (message ← getProp reqBody "message";
     if negb (truthy message) then
       Returned (res_status_json 400 (ErrorBody "Message is required"))
     else
       result ← unifiedCoordinator_handleMessage w llm message;
       Returned (res_json (CoordinatorBody result)))
    (ErrorBody "Failed to process message").

(** The guard of [GET /api/projects/:id/download]: the answer 404, or the
    project the archive is then made of. *)
Definition getProjectDownload (id : string) (srv : Server)
  : Response + ProjectGenerator.GeneratedProject :=
  match generatedProjects srv with
  | None => inl (res_status_json 404 (ErrorBody "Project not found"))
  | Some projects =>
      match projects !! id with
      | None => inl (res_status_json 404 (ErrorBody "Project not found"))
      | Some project => inr project
      end
  end.

End Routes.

(** ** Notions used in the statements *)

(** Two code units that are the same letter, whatever the case. *)
Inductive same_letter : ascii -> ascii -> Prop :=
| same_unit (c : ascii) : same_letter c c
| upper_then_lower (c : ascii) : isUpperUnit c = true -> same_letter c (lowerOf c)
| lower_then_upper (c : ascii) : isUpperUnit c = true -> same_letter (lowerOf c) c.

(** Two strings equal up to letter case. *)
Inductive eq_upto_case : string -> string -> Prop :=
| eq_upto_case_nil : eq_upto_case EmptyString EmptyString
| eq_upto_case_cons (c c' : ascii) (s s' : string) :
    same_letter c c' -> eq_upto_case s s' -> eq_upto_case (String c s) (String c' s').

(** The optional argument [goals?] of a typed call, as a value. *)
Definition goalsValue (goals : option string) : JSVal :=
  match goals with
  | Some g => JStr g
  | None => JUndefined
  end.



Definition no_credentials (e : Env) : Prop :=
  configured (GEMINI_API_KEY e) = false /\
  configured (OPENAI_API_KEY e) = false /\
  configured (ANTHROPIC_API_KEY e) = false.





(** The validation of [generateProject]: a truthy [name] and an array
    [files]. *)
Definition valid_project (project : JSVal) : bool :=
  match getProp project "name", getProp project "files" with
  | Returned n, Returned f => truthy n && truthy f && isArray f
  | _, _ => false
  end.


(** A value that is not an object: converting it to a string cannot throw. *)
Definition primitive (v : JSVal) : bool :=
  match v with
  | JArr _ | JObj _ => false
  | _ => true
  end.

(** The labels [handleMessage] reports for a message that is not a project
    request, read off the three keyword tests one by one. *)
Definition labels_of (learning booking code : bool) : list string :=
  match (if learning then ["Learning Assistant"] else []) ++
        (if booking then ["Booking Navigator"] else []) ++
        (if code then ["Code Helper"] else []) with
  | [] => ["General Assistant"]
  | picked => picked
  end.

(** Whether a call of [executeAgent] ended in a successful result. *)
Definition succeeded (o : outcome AgentExecutor.AgentExecutionResult) : bool :=
  match o with
  | Returned r => AgentExecutor.success r
  | Threw _ => false
  end.

(** The running average as the specification words it. *)
Definition spec_successRate (oldRate oldCount : N) (success : bool) : N :=
  AgentExecutor.Math_round_ratio
    (oldRate * oldCount + (if success then 100 else 0)) (oldCount + 1).

(** The two counters of the agent [i], if stored. *)
Definition counters (st : Storage.t) (i : string) : option (N * N) :=
  (fun a => (Storage.tasksCompleted a, Storage.successRate a)) <$> Storage.getAgent st i.

(** ** Sample worlds *)

Definition noKeys : Env :=
  {| GEMINI_API_KEY := None; OPENAI_API_KEY := None; ANTHROPIC_API_KEY := None |}.

Definition geminiKey : Env :=
  {| GEMINI_API_KEY := Some "g-key"; OPENAI_API_KEY := None; ANTHROPIC_API_KEY := None |}.

Definition openaiKey : Env :=
  {| GEMINI_API_KEY := None; OPENAI_API_KEY := Some "o-key"; ANTHROPIC_API_KEY := None |}.

Definition anthropicKey : Env :=
  {| GEMINI_API_KEY := None; OPENAI_API_KEY := None; ANTHROPIC_API_KEY := Some "a-key" |}.

(** A parser that knows one text: [value] for [text], a syntax error for
    any other input. *)
Definition parses (text : string) (value : JSVal) : string -> outcome JSVal :=
  fun s => if String.eqb s text then Returned value
           else Threw (Error "Unexpected token in JSON").

(** A world in which every endpoint replies [text], which parses to [value];
    mail is delivered, HTTP requests fail. *)
Definition replying (e : Env) (text : string) (value : JSVal) : World :=
  {| env := e;
     now := 1700000000000;
     nowISO := "2023-11-14T22:13:20.000Z";
     gemini_sendMessage := fun _ _ _ _ => Returned text;
     gemini_generateContent := fun _ _ => Returned text;
     openai_create := fun _ _ _ => Returned (Some text);
     anthropic_create := fun _ _ _ _ => Returned [TextBlock text];
     JSON_parse := parses text value;
     emailService_sendEmail := fun _ _ _ => Returned true;
     fetch := fun _ => Threw (Error "fetch failed") |}.

(** A reply whose one file states its own language. *)
Definition tsxReply : JSVal :=
  JObj [ ("name", JStr "demo-app");
         ("description", JStr "A demo");
         ("files", JArr [ JObj [ ("path", JStr "src/App.tsx");
                                 ("content", JStr "export default function App() { return null; }");
                                 ("language", JStr "typescript") ] ]);
         ("instructions", JStr "npm install") ].

(** The reply is the JSON text of [tsxReply], which [JSON.parse] reads back
    as that value. *)
Definition tsxWorld : World := replying geminiKey (JSON_stringify tsxReply) tsxReply.

(** A reply whose project name is an object with a property [toString]. *)
Definition oddNameReply : JSVal :=
  JObj [ ("name", JObj [("toString", JInt 0)]);
         ("files", JArr []) ].

(** The reply is the JSON text of [oddNameReply] (spelled out in
    [oddNameReply_text]), which [JSON.parse] reads back as that value. *)
Definition oddNameWorld : World :=
  replying geminiKey (JSON_stringify oddNameReply) oddNameReply.

(** A store with one agent of a stub template, three runs behind it. *)
Definition monitor : Storage.Agent :=
  {| Storage.id := "a1"; Storage.name := "Monitor";
     Storage.description := "Watches mentions";
     Storage.templateId := Some "social-monitor"; Storage.status := idle;
     Storage.tasksCompleted := 3; Storage.successRate := 67;
     Storage.createdAt := 0 |}.

(** An agent of the e-mail template with the same history. *)
Definition mailer : Storage.Agent :=
  {| Storage.id := "a2"; Storage.name := "Mailer";
     Storage.description := "Sends a message";
     Storage.templateId := Some "auto-email"; Storage.status := idle;
     Storage.tasksCompleted := 3; Storage.successRate := 67;
     Storage.createdAt := 0 |}.

Definition oneAgent : Storage.t :=
  {| Storage.agents := {[ "a1" := monitor ]}; Storage.executionLogs := [] |}.

Definition twoAgents : Storage.t :=
  {| Storage.agents := <[ "a2" := mailer ]> {[ "a1" := monitor ]};
     Storage.executionLogs := [] |}.

Definition mailParams : JSVal :=
  JObj [ ("to", JStr "ada@example.org"); ("subject", JStr "Hello");
         ("body", JStr "A first message") ].

(** ** Further notions and samples *)

(** Every hosted endpoint rejects every request. *)
Definition upstream_down (w : World) : Prop :=
  (forall m h s p, exists e, gemini_sendMessage w m h s p = Threw e) /\
  (forall m p, exists e, gemini_generateContent w m p = Threw e) /\
  (forall m ms s, exists e, openai_create w m ms s = Threw e) /\
  (forall m s sys ms, exists e, anthropic_create w m s sys ms = Threw e).

(** A world without network: every endpoint and every HTTP request fails,
    no text parses, mail is not delivered. *)
Definition offline (e : Env) : World :=
  {| env := e;
     now := 1700000000000;
     nowISO := "2023-11-14T22:13:20.000Z";
     gemini_sendMessage := fun _ _ _ _ => Threw (Error "fetch failed");
     gemini_generateContent := fun _ _ => Threw (Error "fetch failed");
     openai_create := fun _ _ _ => Threw NotAnError;
     anthropic_create := fun _ _ _ _ => Threw (Error "fetch failed");
     JSON_parse := fun _ => Threw (Error "Unexpected token in JSON");
     emailService_sendEmail := fun _ _ _ => Returned false;
     fetch := fun _ => Threw (Error "fetch failed") |}.

Definition allKeys : Env :=
  {| GEMINI_API_KEY := Some "g-key"; OPENAI_API_KEY := Some "o-key";
     ANTHROPIC_API_KEY := Some "a-key" |}.

(** An entry of [files] that [generateProject] can normalise: not [null],
    and either it names a language or its path is a string. *)
Definition entry_ok (e : JSVal) : bool :=
  match getProp e "language", getProp e "path" with
  | Returned l, Returned p =>
      truthy l || match p with JStr _ => true | _ => false end
  | _, _ => false
  end.

(** The file [generateProject] makes of an entry that names its language. *)
Definition file_of_entry (e : JSVal) (f : ProjectGenerator.ProjectFile) : Prop :=
  exists p c,
    getProp e "path" = Returned p /\
    getProp e "content" = Returned c /\
    ProjectGenerator.path f = or_else p (JStr "unnamed.txt") /\
    ProjectGenerator.content f = or_else c (JStr EmptyString).

(** The parameter [k] as a template handler reads it from [params || {}]. *)
Definition param (params : JSVal) (k : string) : JSVal :=
  match getProp (AgentExecutor.paramsObject params) k with
  | Returned v => v
  | Threw _ => JUndefined
  end.

(** The four templates with an implementation. *)
Definition implemented (template : option string) : bool :=
  match template with
  | Some t => existsb (String.eqb t)
                ["auto-email"; "weather-report"; "news-summarizer"; "task-reminder"]
  | None => false
  end.

(** [clear pat rest x]: no match of [pat] in [x +:+ rest] starts inside [x]. *)
Fixpoint clear (pat rest x : string) : bool :=
  match x with
  | EmptyString => true
  | String c x' => negb (startsWith (x +:+ rest) pat) && clear pat rest x'
  end.

(** A reply wrapped in a Markdown fence, with or without the [json] tag. *)
Definition fenced (tag body : string) : string :=
  "```" +:+ tag +:+ nl +:+ body +:+ nl +:+ "```".

(** A reply with one good entry and one that has neither a language nor a
    path. *)
Definition mixedReply : JSVal :=
  JObj [ ("name", JStr "demo-app");
         ("files", JArr [ JObj [ ("path", JStr "index.html");
                                 ("content", JStr "<p>Hello</p>");
                                 ("language", JStr "html") ];
                          JObj [ ("content", JStr "body { margin: 0 }") ] ]) ].

Definition mixedWorld : World :=
  replying geminiKey (JSON_stringify mixedReply) mixedReply.

(** A write [executeAgent] may send for the agent [agent] stored under
    [agentId]: a status of that id, the counters of that id as computed from
    [agent], or a log entry of that id. *)
Definition call_of (agentId : string) (agent : Storage.Agent) (c : StorageCall) : Prop :=
  match c with
  | UpdateAgentStatus i _ _ => i = agentId
  | UpdateAgentMetrics i n r =>
      i = agentId /\
      n = (Storage.tasksCompleted agent + 1)%N /\
      exists b, r = spec_successRate (Storage.successRate agent)
                                     (Storage.tasksCompleted agent) b
  | CreateAgentExecutionLog e => log_agentId e = agentId
  end.

(** A message matches a keyword list when its lower-cased text contains one
    of the keywords. *)
Definition mentions (keywords : list string) (m : string) : Prop :=
  exists k a b, In k keywords /\ toLowerCase m = a +:+ k +:+ b.

(** The same world with an HTTP client that answers every request with
    [resp]. *)
Definition answering (w : World) (resp : HttpResponse) : World :=
  {| env := env w; now := now w; nowISO := nowISO w;
     gemini_sendMessage := gemini_sendMessage w;
     gemini_generateContent := gemini_generateContent w;
     openai_create := openai_create w;
     anthropic_create := anthropic_create w;
     JSON_parse := JSON_parse w;
     emailService_sendEmail := emailService_sendEmail w;
     fetch := fun _ => Returned resp |}.

(** A current-weather document of the upstream API. *)
Definition weatherReply : JSVal :=
  JObj [ ("name", JStr "Pune");
         ("main", JObj [ ("temp", JInt 31); ("feels_like", JInt 33);
                         ("humidity", JInt 40) ]);
         ("weather", JArr [ JObj [ ("description", JStr "clear sky");
                                   ("icon", JStr "01d") ] ]) ].

Definition weatherWorld : World :=
  answering (replying noKeys "{}" (JObj []))
            {| ok := true; statusText := "OK"; json := Returned weatherReply |}.

Definition weatherParams : JSVal :=
  JObj [ ("location", JStr "Pune"); ("apiKey", JStr "k-1") ].

(** The same world with the mail service [svc] over the libraries [lib] in
    the place of the mail oracle. *)
Definition mailing (w : World) (lib : EmailService.MailLibrary) (svc : EmailService.t)
  : World :=
  {| env := env w; now := now w; nowISO := nowISO w;
     gemini_sendMessage := gemini_sendMessage w;
     gemini_generateContent := gemini_generateContent w;
     openai_create := openai_create w;
     anthropic_create := anthropic_create w;
     JSON_parse := JSON_parse w;
     emailService_sendEmail := EmailService.sendEmail lib svc;
     fetch := fetch w |}.

(** What the service sends for three strings. *)
Definition mailOf (svc : EmailService.t) (to subject body : string)
  : EmailService.MailOptions :=
  {| EmailService.from := EmailService.fromEmail svc;
     EmailService.to := JStr to;
     EmailService.subject := JStr subject;
     EmailService.html :=
       EmailService.page (EmailService.replaceLineFeeds "<br>" body) |}.

(** A value that is neither a string nor [null] nor [undefined]. *)
Definition otherThanText (v : JSVal) : bool :=
  match v with
  | JStr _ | JUndefined | JNull => false
  | _ => true
  end.

Definition noMail : EmailService.MailEnv :=
  {| EmailService.RESEND_API_KEY := None; EmailService.FROM_EMAIL := None;
     EmailService.GMAIL_USER := None; EmailService.GMAIL_APP_PASSWORD := None;
     EmailService.GMAIL_CLIENT_ID := None; EmailService.GMAIL_CLIENT_SECRET := None;
     EmailService.GMAIL_REFRESH_TOKEN := None |}.

(** Every credential is set. *)
Definition allMail : EmailService.MailEnv :=
  {| EmailService.RESEND_API_KEY := Some "re_key";
     EmailService.FROM_EMAIL := Some "noreply@example.org";
     EmailService.GMAIL_USER := Some "ada@example.org";
     EmailService.GMAIL_APP_PASSWORD := Some "app-pass";
     EmailService.GMAIL_CLIENT_ID := Some "client";
     EmailService.GMAIL_CLIENT_SECRET := Some "secret";
     EmailService.GMAIL_REFRESH_TOKEN := Some "token" |}.

(** Libraries that construct their clients and deliver every message. *)
Definition delivering : EmailService.MailLibrary :=
  {| EmailService.nodemailer_createTransport := fun _ => Returned tt;
     EmailService.transporter_sendMail := fun _ _ => Returned tt;
     EmailService.Resend_new := fun _ => Returned tt;
     EmailService.resend_emails_send := fun _ _ => Returned tt |}.

(** Libraries whose Gmail transport cannot be constructed and whose Resend
    client rejects every message. *)
Definition failing : EmailService.MailLibrary :=
  {| EmailService.nodemailer_createTransport := fun _ => Threw (Error "no transport");
     EmailService.transporter_sendMail := fun _ _ => Threw (Error "no connection");
     EmailService.Resend_new := fun _ => Returned tt;
     EmailService.resend_emails_send := fun _ _ => Threw (Error "rate limited") |}.

(** The e-mail parameters with a number as the body. *)
Definition numberBody : JSVal :=
  JObj [ ("to", JStr "ada@example.org"); ("subject", JStr "Hello");
         ("body", JInt 5) ].

(** A server with the store [twoAgents], no generated project yet, and a
    manager with its three default agents. *)
Definition sampleServer : Routes.Server :=
  {| Routes.storage := twoAgents;
     Routes.generatedProjects := None;
     Routes.agentManager := AgentManager.create 0 |}.

(** A socket message that asks the coordinator for a project. *)
Definition projectFrame : JSVal :=
  JObj [ ("type", JStr "unified_chat");
         ("message", JStr "Please create a project that tracks books") ].

(** A world whose parser reads the text of [projectFrame] and nothing else,
    so that the reply of the mock provider does not parse. *)
Definition socketWorld : World :=
  replying noKeys (JSON_stringify projectFrame) projectFrame.

(** * Properties *)

(** ** The provider adapter *)

Section ProviderAdapter.

Import LLMProvider.

Lemma try_catch_returns {A : Type} (body : outcome A) (handler : exn -> outcome A) :
  (forall e, exists a, handler e = Returned a) ->
  exists a, try_catch body handler = Returned a.
Proof.
  intros Hh. destruct body as [a | e]; simpl; eauto.
Qed.

Lemma mockChat_mock (messages : list Message.t) :
  exists r, mockChat messages = Returned r /\ ChatResponse.provider r = "mock".
Proof. unfold mockChat. eexists. split; reflexivity. Qed.

(** [chat] never rejects: every provider branch falls back to the mock
    reply on an exception. *)
Lemma chat_returns (w : World) (llm : t) (messages : list Message.t) :
  exists r, chat w llm messages = Returned r.
Proof.
  unfold chat.
  repeat match goal with |- context [if ?b then _ else _] => destruct b end;
    try (apply try_catch_returns; intros; unfold mockChat; eauto).
  unfold mockChat; eauto.
Qed.

Example cleanFences_json_fence :
  cleanFences (trim (lines ["```json"; "{}"; "```"; EmptyString])) = "{}".
Proof. reflexivity. Qed.

Example cleanFences_plain_fence :
  cleanFences (trim (lines ["```"; "[1, 2]"; "```"])) = "[1, 2]".
Proof. reflexivity. Qed.

Example cleanFences_no_fence :
  cleanFences (trim "  {} ") = "{}".
Proof. reflexivity. Qed.

Example detectProvider_priority :
  detectProvider {| GEMINI_API_KEY := Some "g"; OPENAI_API_KEY := Some "o";
                    ANTHROPIC_API_KEY := Some "a" |} = "gemini" /\
  detectProvider {| GEMINI_API_KEY := Some EmptyString; OPENAI_API_KEY := Some "o";
                    ANTHROPIC_API_KEY := Some "a" |} = "openai" /\
  detectProvider anthropicKey = "anthropic" /\
  detectProvider noKeys = "mock".
Proof. repeat split. Qed.

Lemma toString_text (v : JSVal) :
  primitive v = true -> exists s, toString v = Returned s.
Proof.
  destruct v as [| | b | n | s | l | l | b]; simpl; intros H;
    try discriminate; eauto.
  destruct b; eauto.
Qed.

Lemma detectProvider_no_credentials (e : Env) :
  no_credentials e -> detectProvider e = "mock".
Proof.
  intros (Hg & Ho & Ha). unfold detectProvider. rewrite Hg, Ho, Ha. reflexivity.
Qed.

(** On strings the calls on arbitrary values are the typed functions. *)
Lemma untyped_calls_agree (w : World) (llm : t) (topic duration : string)
    (goals : option string) :
  Routes.llmProvider_generateQuiz w llm (JStr topic) (goalsValue goals)
  = generateQuiz w llm topic goals /\
  Routes.llmProvider_generateSchedule w llm (JStr topic) (JStr duration)
                                      (goalsValue goals)
  = generateSchedule w llm topic duration goals.
Proof.
  unfold Routes.llmProvider_generateQuiz, Routes.llmProvider_generateSchedule,
    generateQuiz, generateSchedule.
  destruct goals as [[| c g] |]; split; reflexivity.
Qed.

(** C6, as stated, fails: [generateQuiz] is called with the [topic] of
    the request body as it is, and [mockQuiz] interpolates it outside any
    [try]. With no credential configured and a topic whose conversion to a
    string throws, [generateQuiz] rejects. *)
Lemma mock_quiz_throws_on_object_topic :
  ~ (forall (w : World) (llm : t) (topic goals : JSVal),
       no_credentials (env w) ->
       exists r, Routes.llmProvider_generateQuiz w llm topic goals = Returned r /\
                 ChatResponse.provider r = "mock").
Proof.
  intros H.
  destruct (H (replying noKeys "{}" (JObj [])) (create noKeys)
              (JObj [("toString", JInt 0)]) JUndefined)
    as (r & Hr & _).
  - repeat split.
  - vm_compute in Hr. discriminate Hr.
Qed.

(** C6 (amended). With no provider credential configured, [chat] and
    [generateSchedule] return (they do not throw), and so does
    [generateQuiz] for every topic that can be converted to a string, which
    every string and every other primitive value can; every result carries
    the provider ["mock"]. For a topic whose conversion throws,
    [generateQuiz] rejects with that exception. This holds when the
    environment of the call has no credential, and also for an adapter
    constructed in such an environment, whatever the environment of the
    call. *)
Theorem mock_mode_returns_mock (e : Env) (w : World) (llm : t)
    (messages : list Message.t) (topic duration goals : JSVal) :
  no_credentials e ->
  env w = e \/ llm = create e ->
  (exists r, chat w llm messages = Returned r /\ ChatResponse.provider r = "mock") /\
  Routes.llmProvider_generateQuiz w llm topic goals = mockQuiz <$> toString topic /\
  (primitive topic = true ->
   exists r, Routes.llmProvider_generateQuiz w llm topic goals = Returned r /\
             ChatResponse.provider r = "mock") /\
  (exists r, Routes.llmProvider_generateSchedule w llm topic duration goals = Returned r /\
             ChatResponse.provider r = "mock") /\
  (forall (t d : string) (g : option string),
     (exists r, generateQuiz w llm t g = Returned r /\
                ChatResponse.provider r = "mock") /\
     (exists r, generateSchedule w llm t d g = Returned r /\
                ChatResponse.provider r = "mock")).
Proof.
  intros Hno Hmode.
  assert (Hguards :
    String.eqb (provider llm) "gemini" && configured (GEMINI_API_KEY (env w)) = false /\
    String.eqb (provider llm) "openai" && configured (OPENAI_API_KEY (env w)) = false /\
    String.eqb (provider llm) "anthropic" && configured (ANTHROPIC_API_KEY (env w))
    = false).
  { destruct Hmode as [Henv | Hllm].
    - destruct Hno as (Hg & Ho & Ha). subst e.
      rewrite Hg, Ho, Ha, !andb_false_r. auto.
    - subst llm. unfold create. cbn [provider].
      rewrite (detectProvider_no_credentials e Hno). auto. }
  destruct Hguards as (Hg & Ho & Ha).
  assert (Hquiz : Routes.llmProvider_generateQuiz w llm topic goals
                  = mockQuiz <$> toString topic).
  { unfold Routes.llmProvider_generateQuiz, Routes.llmProvider_mockQuiz.
    rewrite Hg, Ho. destruct (toString topic); reflexivity. }
  split; [| split; [exact Hquiz | split; [| split]]].
  - unfold chat. rewrite Hg, Ho, Ha. apply mockChat_mock.
  - intros Hp. rewrite Hquiz.
    destruct (toString_text topic Hp) as (text & ->).
    eexists. split; reflexivity.
  - unfold Routes.llmProvider_generateSchedule. rewrite Hg, Ho.
    eexists. split; reflexivity.
  - intros t d g. unfold generateQuiz, generateSchedule. rewrite Hg, Ho.
    split; eexists; split; reflexivity.
Qed.

Lemma mock_mode_returns_mock_witness :
  no_credentials noKeys /\
  (exists r, Routes.llmProvider_generateQuiz (replying noKeys "{}" (JObj []))
               (create noKeys) (JInt 7) JUndefined = Returned r /\
             ChatResponse.provider r = "mock") /\
  exists r, generateQuiz (replying noKeys "{}" (JObj [])) (create noKeys) "Rust" None
            = Returned r /\ ChatResponse.provider r = "mock".
Proof.
  assert (Hno : no_credentials noKeys) by (repeat split; reflexivity).
  split; [exact Hno |].
  destruct (mock_mode_returns_mock noKeys (replying noKeys "{}" (JObj []))
              (create noKeys) [] (JInt 7) (JStr "2 weeks") JUndefined Hno
              (or_introl eq_refl))
    as (_ & _ & Hquiz & _ & Htyped).
  split; [exact (Hquiz eq_refl) |].
  exact (proj1 (Htyped "Rust" "2 weeks" None)).
Defined.



End ProviderAdapter.

(** ** The project generator *)

Section Generator.

Import ProjectGenerator.

Example detectLanguage_known :
  detectLanguage (JStr "src/index.TS") = Returned (JStr "typescript").
Proof. reflexivity. Qed.

Example detectLanguage_unknown :
  detectLanguage (JStr "Dockerfile") = Returned (JStr "text").
Proof. reflexivity. Qed.

(** The table is an object literal, so a lookup also finds what the literal
    inherits: these two extensions do not yield ["text"]. *)
Example detectLanguage_inherited :
  detectLanguage (JStr "a.constructor") = Returned (JBuiltin ObjectConstructor) /\
  detectLanguage (JStr "a.__proto__") = Returned (JBuiltin ObjectPrototype).
Proof. split; reflexivity. Qed.

(** A file without a language and without a string path makes the whole
    generation fall back. *)
Example normalizeFile_needs_a_path :
  normalizeFile (JObj [("content", JStr "x")]) =
    Threw (TypeError "Cannot read properties of undefined (reading 'split')").
Proof. reflexivity. Qed.

Example oddNameReply_text :
  JSON_stringify oddNameReply =
    "{" +:+ quoted "name" +:+ ":{" +:+ quoted "toString" +:+ ":0}," +:+
    quoted "files" +:+ ":[]}".
Proof. reflexivity. Qed.

Lemma generateProject_cases (w : World) (llm : LLMProvider.t) (d : string) :
  generateProject w llm d =
    match parsedReply w llm d with
    | Returned v =>
        match checkedProject v with
        | Returned p => Returned p
        | Threw _ => Returned (getFallbackProject d)
        end
    | Threw _ => Returned (getFallbackProject d)
    end.
Proof.
  unfold generateProject.
  destruct (parsedReply w llm d) as [v | e]; simpl; [| reflexivity].
  destruct (checkedProject v); reflexivity.
Qed.

(** The [catch] of [generateProject] answers every exception. *)
Lemma generateProject_returns (w : World) (llm : LLMProvider.t) (d : string) :
  exists p, generateProject w llm d = Returned p.
Proof.
  rewrite generateProject_cases.
  destruct (parsedReply w llm d) as [v | e]; [| eauto].
  destruct (checkedProject v); eauto.
Qed.

Lemma checkedProject_invalid (v : JSVal) :
  valid_project v = false -> exists e, checkedProject v = Threw e.
Proof.
  unfold valid_project, checkedProject. intros H.
  destruct (getProp v "name") as [n | e]; simpl; [| eauto].
  destruct (getProp v "files") as [f | e]; simpl; [| eauto].
  destruct (truthy n); simpl in *; [| eauto].
  destruct (truthy f); simpl in *; [| eauto].
  destruct f; simpl in *; try discriminate; eauto.
Qed.

Lemma checkedProject_files (v : JSVal) (p : GeneratedProject) :
  checkedProject v = Returned p ->
  exists entries,
    getProp v "files" = Returned (JArr entries) /\
    mapFiles entries = Returned (files p).
Proof.
  unfold checkedProject. intros H.
  destruct (getProp v "name") as [n | e]; simpl in H; [| discriminate].
  destruct (getProp v "files") as [f | e]; simpl in H; [| discriminate].
  destruct (negb (truthy n) || negb (truthy f) || negb (isArray f)); [discriminate |].
  destruct f; try discriminate.
  exists items. split; [reflexivity |].
  destruct (mapFiles items) as [fs | e]; simpl in H; [| discriminate].
  destruct (getProp v "description"); simpl in H; [| discriminate].
  destruct (getProp v "instructions"); simpl in H; [| discriminate].
  injection H as <-. reflexivity.
Qed.











(** C7. [generateProject] returns for every description and never throws;
    whenever the reply of the provider does not parse as JSON, or parses to
    a value that fails the validation (no truthy [name], or [files] absent
    or not an array), the result is the fixed fallback scaffold, whose
    files are exactly [index.html], [style.css], [script.js] and
    [README.md]. *)
Theorem generateProject_never_throws (w : World) (llm : LLMProvider.t) (d : string) :
  (exists p, generateProject w llm d = Returned p) /\
  ((exists e, parsedReply w llm d = Threw e) \/
   (exists v, parsedReply w llm d = Returned v /\ valid_project v = false) ->
   generateProject w llm d = Returned (getFallbackProject d)) /\
  path <$> files (getFallbackProject d) =
    [JStr "index.html"; JStr "style.css"; JStr "script.js"; JStr "README.md"] /\
  length (files (getFallbackProject d)) = 4.
Proof.
  split; [apply generateProject_returns |].
  split; [| split; reflexivity].
  rewrite generateProject_cases.
  intros [(e & He) | (v & Hv & Hinv)].
  - rewrite He. reflexivity.
  - rewrite Hv. destruct (checkedProject_invalid v Hinv) as (e & ->). reflexivity.
Qed.

Lemma generateProject_never_throws_witness :
  generateProject (replying noKeys "{}" (JObj [])) (LLMProvider.create noKeys)
                  "a todo list"
  = Returned (getFallbackProject "a todo list") /\
  generateProject (replying geminiKey "{}" (JObj [])) (LLMProvider.create geminiKey)
                  "a todo list"
  = Returned (getFallbackProject "a todo list").
Proof.
  split.
  - apply (proj1 (proj2 (generateProject_never_throws
                           (replying noKeys "{}" (JObj []))
                           (LLMProvider.create noKeys) "a todo list"))).
    left. eexists. vm_compute. reflexivity.
  - apply (proj1 (proj2 (generateProject_never_throws
                           (replying geminiKey "{}" (JObj []))
                           (LLMProvider.create geminiKey) "a todo list"))).
    right. exists (JObj []). split; vm_compute; reflexivity.
Defined.



Example language_tags_examples :
  detectLanguage (JStr "src/Main.PY") = Returned (JStr "python") /\
  detectLanguage (JStr "notes.txt") = Returned (JStr "text") /\
  detectLanguage (JStr "a.constructor") = Returned (JBuiltin ObjectConstructor).
Proof. repeat split. Qed.

End Generator.

(** ** The unified message router *)

Section Router.

Import ProjectGenerator UnifiedAgentCoordinator.

Lemma lowerOf_not_upper (c : ascii) :
  isUpperUnit c = true -> isUpperUnit (lowerOf c) = false.
Proof.
  destruct c as [[] [] [] [] [] [] [] []]; vm_compute; intros H;
    first [reflexivity | discriminate H].
Qed.

Lemma same_letter_lower (c c' : ascii) :
  same_letter c c' -> toLowerUnit c = toLowerUnit c'.
Proof.
  intros [x | x Hx | x Hx]; unfold toLowerUnit.
  - reflexivity.
  - rewrite Hx, (lowerOf_not_upper x Hx). reflexivity.
  - rewrite Hx, (lowerOf_not_upper x Hx). reflexivity.
Qed.

Lemma eq_upto_case_lower (m m' : string) :
  eq_upto_case m m' -> toLowerCase m = toLowerCase m'.
Proof.
  induction 1 as [| c c' s s' Hc _ IH]; simpl.
  - reflexivity.
  - rewrite (same_letter_lower c c' Hc), IH. reflexivity.
Qed.

Lemma specialize_labels (m : string) :
  (specialize m).1 = labels_of (isLearningQuery m) (isBookingQuery m) (isCodeQuery m).
Proof.
  unfold specialize, labels_of.
  destruct (isLearningQuery m), (isBookingQuery m), (isCodeQuery m); reflexivity.
Qed.

(** The project branch: the generator always returns, so the outcome is
    decided by the rendering of the summary alone. *)
Lemma handleMessage_project (w : World) (llm : LLMProvider.t) (m : string)
    (p : GeneratedProject) :
  isProjectGenerationQuery m = true ->
  generateProject w llm m = Returned p ->
  handleMessage w llm m =
    Returned
      match projectSummary p with
      | Returned text =>
          {| response := text;
             agentsUsed := ["Project Generator"];
             projectId := Some ("proj-" +:+ pretty (now w));
             projectData := Some p |}
      | Threw e =>
          {| response := "I encountered an error generating your project: " +:+
                         message_or e "undefined";
             agentsUsed := ["Project Generator"];
             projectId := None;
             projectData := None |}
      end.
Proof.
  intros Hq Hp. unfold handleMessage. rewrite Hq, Hp. simpl.
  destruct (projectSummary p); reflexivity.
Qed.

(** The chat branch: one call of the provider, which always returns. *)
Lemma handleMessage_chat (w : World) (llm : LLMProvider.t) (m : string) :
  isProjectGenerationQuery m = false ->
  exists reply,
    handleMessage w llm m =
      Returned {| response := LLMProvider.ChatResponse.content reply;
                  agentsUsed := (specialize m).1;
                  projectId := None;
                  projectData := None |}.
Proof.
  intros Hq. unfold handleMessage. rewrite Hq.
  destruct (specialize m) as [used spec]. simpl.
  destruct (chat_returns w llm [Message.mk system (systemPrompt used spec);
                                 Message.mk user m]) as (reply & ->).
  exists reply. reflexivity.
Qed.

Lemma handleMessage_agentsUsed (w : World) (llm : LLMProvider.t) (m : string) :
  exists r,
    handleMessage w llm m = Returned r /\
    agentsUsed r =
      if isProjectGenerationQuery m then ["Project Generator"]
      else labels_of (isLearningQuery m) (isBookingQuery m) (isCodeQuery m).
Proof.
  destruct (isProjectGenerationQuery m) eqn:Hq.
  - destruct (generateProject_returns w llm m) as (p & Hp).
    rewrite (handleMessage_project w llm m p Hq Hp).
    eexists. split; [reflexivity |]. destruct (projectSummary p); reflexivity.
  - destruct (handleMessage_chat w llm m Hq) as (reply & ->).
    eexists. split; [reflexivity |]. simpl. apply specialize_labels.
Qed.

Lemma toString_primitive (v : JSVal) :
  primitive v = true -> exists s, toString v = Returned s.
Proof.
  destruct v as [| | b | n | s | l | l | b]; simpl; intros H;
    try discriminate; eauto.
  destruct b; eauto.
Qed.

Lemma fileLines_primitive (fs : list ProjectFile) :
  Forall (fun f => primitive (path f) = true) fs ->
  exists ls, fileLines fs = Returned ls.
Proof.
  induction 1 as [| f r Hf _ (ls & IH)]; simpl.
  - eauto.
  - destruct (toString_primitive _ Hf) as (s & ->). rewrite IH. simpl. eauto.
Qed.

Lemma projectSummary_primitive (p : GeneratedProject) :
  primitive (name p) = true ->
  primitive (description p) = true ->
  Forall (fun f => primitive (path f) = true) (files p) ->
  exists text, projectSummary p = Returned text.
Proof.
  intros Hn Hd Hf. unfold projectSummary.
  destruct (toString_primitive _ Hn) as (n & ->).
  destruct (toString_primitive _ Hd) as (d & ->).
  destruct (fileLines_primitive _ Hf) as (ls & ->). simpl. eauto.
Qed.










(** C5. Classification is not exclusive. The message
    ["teach me about flights to book a hotel"] passes the learning test and
    the booking test, and [handleMessage] reports both ["Learning
    Assistant"] and ["Booking Navigator"] for it. In general the three
    tests are applied independently of each other: for a message that is
    not a project request, [agentsUsed] lists exactly the labels whose test
    passes (["General Assistant"] when none does), and each of the eight
    combinations of answers is given by some message. *)
Theorem classification_is_not_exclusive :
  isLearningQuery "teach me about flights to book a hotel" = true /\
  isBookingQuery "teach me about flights to book a hotel" = true /\
  (forall (w : World) (llm : LLMProvider.t),
      exists r,
        handleMessage w llm "teach me about flights to book a hotel" = Returned r /\
        agentsUsed r = ["Learning Assistant"; "Booking Navigator"]) /\
  (forall (w : World) (llm : LLMProvider.t) (m : string),
      exists r,
        handleMessage w llm m = Returned r /\
        agentsUsed r =
          if isProjectGenerationQuery m then ["Project Generator"]
          else labels_of (isLearningQuery m) (isBookingQuery m) (isCodeQuery m)) /\
  (forall learning booking code : bool,
      exists m,
        isProjectGenerationQuery m = false /\
        isLearningQuery m = learning /\
        isBookingQuery m = booking /\
        isCodeQuery m = code).
Proof.
  split; [reflexivity |]. split; [reflexivity |]. split; [| split].
  - intros w llm.
    destruct (handleMessage_agentsUsed w llm "teach me about flights to book a hotel")
      as (r & Hr & Hu).
    exists r. split; [exact Hr |]. rewrite Hu. reflexivity.
  - apply handleMessage_agentsUsed.
  - intros learning booking code.
    exists ((if learning then "quiz " else "hello ") +:+
            (if booking then "hotel " else "there ") +:+
            (if code then "debug" else "friend")).
    destruct learning, booking, code; vm_compute; repeat split.
Qed.

(** C4, as stated, fails: when the reply parses to a project whose name is
    an object carrying a property [toString], the project passes the
    validation, the template literal of the summary throws, and the [catch]
    of [handleMessage] answers without [projectId] and [projectData]. *)
Lemma project_reply_without_project :
  ~ (forall (w : World) (llm : LLMProvider.t) (m : string),
       isProjectGenerationQuery m = true ->
       exists r,
         handleMessage w llm m = Returned r /\
         In "Project Generator" (agentsUsed r) /\
         is_Some (projectId r) /\ is_Some (projectData r)).
Proof.
  intros H.
  destruct (H oddNameWorld (LLMProvider.create geminiKey) "create a project" eq_refl)
    as (r & Hr & _ & (i & Hi) & _).
  vm_compute in Hr. injection Hr as <-. discriminate Hi.
Qed.

(** C4 (amended). For every message containing one of the project
    phrasings, [handleMessage] returns a result whose [agentsUsed] is
    exactly ["Project Generator"]. The result carries a [projectId] and the
    generated project as [projectData] whenever the summary of that project
    can be rendered, which is so for the fallback scaffold and for every
    project whose name, description and file paths are not objects;
    otherwise it carries neither. *)
Theorem project_requests (w : World) (llm : LLMProvider.t) (m : string) :
  isProjectGenerationQuery m = true ->
  exists p r,
    generateProject w llm m = Returned p /\
    handleMessage w llm m = Returned r /\
    agentsUsed r = ["Project Generator"] /\
    match projectSummary p with
    | Returned text =>
        response r = text /\
        projectId r = Some ("proj-" +:+ pretty (now w)) /\
        projectData r = Some p
    | Threw _ => projectId r = None /\ projectData r = None
    end /\
    (p = getFallbackProject m \/
     (primitive (name p) = true /\ primitive (description p) = true /\
      Forall (fun f => primitive (path f) = true) (files p)) ->
     is_Some (projectId r) /\ projectData r = Some p).
Proof.
  intros Hq.
  destruct (generateProject_returns w llm m) as (p & Hp).
  exists p. eexists. split; [exact Hp |].
  split; [apply (handleMessage_project w llm m p Hq Hp) |].
  split; [destruct (projectSummary p); reflexivity |].
  split; [destruct (projectSummary p); repeat split |].
  intros Hr.
  assert (exists text, projectSummary p = Returned text) as (text & ->).
  { destruct Hr as [-> | (Hn & Hd & Hf)].
    - apply projectSummary_primitive; try reflexivity.
      simpl. repeat constructor.
    - apply projectSummary_primitive; assumption. }
  simpl. split; [eexists; reflexivity | reflexivity].
Qed.

Lemma project_requests_witness :
  isProjectGenerationQuery "Please CREATE A PROJECT that tracks books" = true /\
  exists r,
    handleMessage (replying noKeys "{}" (JObj [])) (LLMProvider.create noKeys)
                  "Please CREATE A PROJECT that tracks books" = Returned r /\
    agentsUsed r = ["Project Generator"] /\
    is_Some (projectId r) /\
    projectData r = Some (getFallbackProject "Please CREATE A PROJECT that tracks books").
Proof.
  split; [reflexivity |].
  destruct (project_requests (replying noKeys "{}" (JObj []))
              (LLMProvider.create noKeys)
              "Please CREATE A PROJECT that tracks books" eq_refl)
    as (p & r & Hp & Hr & Hu & _ & Hcarry).
  assert (Hfb : p = getFallbackProject "Please CREATE A PROJECT that tracks books").
  { vm_compute in Hp. injection Hp as <-. vm_compute. reflexivity. }
  exists r. split; [exact Hr |]. split; [exact Hu |].
  destruct (Hcarry (or_introl Hfb)) as (Hid & Hdata).
  split; [exact Hid |]. rewrite Hdata, Hfb. reflexivity.
Defined.

End Router.

(** ** The agent manager *)

Section Manager.

Import AgentManager.

(** C10, as stated, fails: the routes hand over the [task] and the
    [message] of the request body as they are, and the template literal
    converts them after the lookup. For a stored agent and a task whose
    conversion to a string throws, [executeTask] throws. *)
Lemma known_agent_can_throw :
  ~ (forall (self : t) (agentId : string) (task : JSVal),
       (exists e, Routes.agentManager_executeTask self (JStr agentId) task = Threw e) <->
       agents self !! agentId = None).
Proof.
  intros H.
  assert (Hn : agents (create 0) !! "code-helper" = None).
  { apply (H (create 0) "code-helper" (JObj [("toString", JInt 0)])).
    eexists. vm_compute. reflexivity. }
  vm_compute in Hn. discriminate Hn.
Qed.

(** C10 (amended). [executeTask] and [chatWithAgent] throw when the agent
    id is not in the map, with the message [Agent <id> not found]; when it
    is, they return the formatted string, provided the task or message can
    be converted to a string, and throw what the conversion throws
    otherwise. For a string, and for every other primitive value, they
    throw exactly when the id is not in the map. The map is left as it was
    in every case. [AgentExecutor.executeAgent], by contrast, answers an
    unknown id with a returned failure. *)
Theorem manager_throws_iff_unknown (self : t) (agentId : string)
    (task message : JSVal) :
  Routes.agentManager_executeTask self (JStr agentId) task
  = match agents self !! agentId with
    | None => Threw (Error ("Agent " +:+ agentId +:+ " not found"))
    | Some agent =>
        (fun text => "Agent " +:+ name agent +:+ " executed task: " +:+ text)
          <$> toString task
    end /\
  Routes.agentManager_chatWithAgent self (JStr agentId) message
  = match agents self !! agentId with
    | None => Threw (Error ("Agent " +:+ agentId +:+ " not found"))
    | Some agent =>
        (fun text => "Agent " +:+ name agent +:+ " response to: " +:+ text)
          <$> toString message
    end /\
  ((exists e, Routes.agentManager_executeTask self (JStr agentId) task = Threw e) <->
   agents self !! agentId = None \/ exists e, toString task = Threw e) /\
  ((exists e, Routes.agentManager_chatWithAgent self (JStr agentId) message = Threw e) <->
   agents self !! agentId = None \/ exists e, toString message = Threw e) /\
  (primitive task = true ->
   ((exists e, Routes.agentManager_executeTask self (JStr agentId) task = Threw e) <->
    agents self !! agentId = None)) /\
  (primitive message = true ->
   ((exists e, Routes.agentManager_chatWithAgent self (JStr agentId) message = Threw e) <->
    agents self !! agentId = None)) /\
  (forall text : string,
     executeTask self agentId text
     = (Routes.agentManager_executeTask self (JStr agentId) (JStr text), self) /\
     chatWithAgent self agentId text
     = (Routes.agentManager_chatWithAgent self (JStr agentId) (JStr text), self)) /\
  (forall (w : World) (llm : LLMProvider.t) (st : Storage.t) (params : JSVal),
     Storage.getAgent st agentId = None ->
     exists r, AgentExecutor.executeAgent w llm agentId params st = (Returned r, st) /\
               AgentExecutor.success r = false).
Proof.
  unfold Routes.agentManager_executeTask, Routes.agentManager_chatWithAgent,
    Routes.agents_get, getAgent, executeTask, chatWithAgent.
  assert (Hexec : forall (w : World) (llm : LLMProvider.t) (st : Storage.t)
                         (params : JSVal),
             Storage.getAgent st agentId = None ->
             exists r, AgentExecutor.executeAgent w llm agentId params st
                       = (Returned r, st) /\
                       AgentExecutor.success r = false).
  { intros w llm st params Hn. unfold AgentExecutor.executeAgent. rewrite Hn.
    eexists. split; reflexivity. }
  destruct (agents self !! agentId) as [agent |] eqn:Hl;
    cbn [toString mbind outcome_bind fmap outcome_fmap].
  - split; [destruct (toString task); reflexivity |].
    split; [destruct (toString message); reflexivity |].
    split; [| split; [| split; [| split; [| split; [| exact Hexec]]]]].
    + destruct (toString task) as [text | e]; cbn; split.
      * intros (e & He). discriminate He.
      * intros [H | (e & H)]; discriminate H.
      * intros _. right. eauto.
      * intros _. eauto.
    + destruct (toString message) as [text | e]; cbn; split.
      * intros (e & He). discriminate He.
      * intros [H | (e & H)]; discriminate H.
      * intros _. right. eauto.
      * intros _. eauto.
    + intros Hp. destruct (toString_text task Hp) as (text & ->). cbn.
      split; [intros (e & He); discriminate He | discriminate].
    + intros Hp. destruct (toString_text message Hp) as (text & ->). cbn.
      split; [intros (e & He); discriminate He | discriminate].
    + intros text. split; reflexivity.
  - split; [reflexivity |]. split; [reflexivity |].
    split; [split; eauto |]. split; [split; eauto |].
    split; [intros _; split; eauto |]. split; [intros _; split; eauto |].
    split; [intros text; split; reflexivity | exact Hexec].
Qed.

Lemma manager_throws_iff_unknown_witness :
  Routes.agentManager_executeTask (create 0) (JStr "code-helper") (JStr "sort a list")
  = Returned "Agent Code Helper executed task: sort a list" /\
  (exists e, Routes.agentManager_executeTask (create 0) (JStr "nobody") (JInt 3)
             = Threw e).
Proof.
  split; [reflexivity |].
  apply (proj1 (proj2 (proj2 (proj2 (proj2
           (manager_throws_iff_unknown (create 0) "nobody" (JInt 3) (JStr "hi")))))));
    reflexivity.
Defined.

End Manager.

(** ** The agent executor *)

Section Executor.

Import Storage AgentExecutor.

Lemma getProp_paramsObject (params : JSVal) (k : string) :
  exists v, getProp (paramsObject params) k = Returned v.
Proof.
  unfold paramsObject, or_else.
  destruct (truthy params) eqn:Ht; [| simpl; eauto].
  destruct params; simpl in *; try discriminate; eauto.
Qed.

Ltac read_params params :=
  repeat match goal with
         | |- context [getProp (paramsObject params) ?k] =>
             let v := fresh "v" in
             destruct (getProp_paramsObject params k) as (v & ->); simpl
         end.

Ltac settle :=
  repeat match goal with
         | |- exists r, (if ?b then _ else _) = Returned r => destruct b
         end;
  first [ eexists; reflexivity
        | apply try_catch_returns; intros; eexists; reflexivity ].

(** No template handler throws: each validates its parameters with a
    returned failure and catches what its own [try] block raises. *)
Lemma dispatch_returns (w : World) (llm : LLMProvider.t) (agent : Agent)
    (params : JSVal) :
  exists r, dispatch w llm agent params = Returned r.
Proof.
  unfold dispatch. destruct (templateId agent) as [template |]; [| eauto].
  repeat match goal with
         | |- exists r, (if ?b then _ else _) = Returned r => destruct b
         end.
  - unfold executeAutoEmailAgent. read_params params. settle.
  - unfold executeWeatherReportAgent. read_params params. settle.
  - unfold executeNewsSummarizerAgent. read_params params. settle.
  - unfold executeTaskReminderAgent. read_params params. settle.
  - unfold executeSocialMonitorAgent. eauto.
  - unfold executeDataBackupAgent. eauto.
  - eauto.
Qed.

Lemma counters_status (st : Storage.t) (i j : string) (s : AgentStatus)
    (d : option Z) :
  counters (Storage.apply (UpdateAgentStatus j s d) st) i = counters st i.
Proof.
  unfold counters, getAgent. simpl. rewrite lookup_alter.
  destruct (decide (j = i)) as [-> |]; [| reflexivity].
  destruct (agents st !! i); reflexivity.
Qed.

Lemma counters_log (st : Storage.t) (i : string) (entry : ExecutionLog) :
  counters (Storage.apply (CreateAgentExecutionLog entry) st) i = counters st i.
Proof. reflexivity. Qed.

(** The run of [executeAgent] for a stored agent: the four writes, in the
    order of the source. The handler of the outer [catch] is not entered,
    since no template handler throws. *)
Lemma executeAgent_run (w : World) (llm : LLMProvider.t) (st : Storage.t)
    (agentId : string) (params : JSVal) (agent : Agent) :
  getAgent st agentId = Some agent ->
  exists r,
    dispatch w llm agent params = Returned r /\
    executeAgent w llm agentId params st =
      (Returned r,
       Storage.apply
         (CreateAgentExecutionLog
            {| log_agentId := agentId;
               log_status := if success r then log_success else log_error;
               log_message := message r;
               log_result := data r |})
         (Storage.apply
            (UpdateAgentStatus agentId (if success r then idle else error) None)
            (Storage.apply
               (UpdateAgentMetrics agentId (tasksCompleted agent + 1)
                  (spec_successRate (successRate agent) (tasksCompleted agent)
                                    (success r)))
               (Storage.apply (UpdateAgentStatus agentId executing (Some (now w)))
                              st)))).
Proof.
  intros Hget.
  destruct (dispatch_returns w llm agent params) as (r & Hr).
  exists r. split; [exact Hr |].
  unfold executeAgent. rewrite Hget.
  unfold bind, try_catch_exec, lift, ret, write. rewrite Hr.
  unfold spec_successRate.
  destruct (success r); [reflexivity |].
  rewrite N.add_0_r. reflexivity.
Qed.

Example Math_round_ratio_half_up :
  Math_round_ratio 7 2 = 4%N /\ Math_round_ratio 201 4 = 50%N /\
  Math_round_ratio 301 4 = 75%N /\ Math_round_ratio 100 1 = 100%N.
Proof. repeat split. Qed.

(** C2. For an agent id that is not in the store, [executeAgent] returns
    (it does not throw) a result with [success = false], and the store is
    left exactly as it was: no counter of any agent changes. *)
Theorem unknown_agent_fails_quietly (w : World) (llm : LLMProvider.t)
    (st : Storage.t) (agentId : string) (params : JSVal) :
  getAgent st agentId = None ->
  exists r,
    executeAgent w llm agentId params st = (Returned r, st) /\
    success r = false /\
    message r = "Agent not found" /\
    forall i, counters (executeAgent w llm agentId params st).2 i = counters st i.
Proof.
  intros Hn. unfold executeAgent. rewrite Hn.
  eexists. repeat split.
Qed.

Lemma unknown_agent_fails_quietly_witness :
  getAgent oneAgent "a2" = None /\
  exists r,
    executeAgent (replying noKeys "{}" (JObj []))
                 (LLMProvider.create noKeys) "a2" (JObj [("to", JStr "x@y.z")]) oneAgent
    = (Returned r, oneAgent) /\ success r = false.
Proof.
  assert (Hn : getAgent oneAgent "a2" = None) by (vm_compute; reflexivity).
  split; [exact Hn |].
  destruct (unknown_agent_fails_quietly
              (replying noKeys "{}" (JObj []))
              (LLMProvider.create noKeys) oneAgent "a2"
              (JObj [("to", JStr "x@y.z")]) Hn) as (r & Hr & Hs & _).
  exists r. split; assumption.
Defined.



End Executor.

(** * Further properties of the code *)

(** ** The provider adapter, continued *)

Section MoreProvider.

Import LLMProvider.

Lemma mockChat_constant (messages : list Message.t) : mockChat messages = mockChat [].
Proof. reflexivity. Qed.


End MoreProvider.

Section MoreProvider2.

Import LLMProvider.

(** X2. When every hosted endpoint fails, the adapter degrades silently:
    [chat] returns the fixed mock text, and [generateQuiz] and
    [generateSchedule] return the canned mock payloads, all tagged ["mock"],
    whatever provider the adapter selected. *)
Theorem upstream_failure_degrades_to_mock (w : World) (llm : t)
    (messages : list Message.t) (topic duration : string) (goals : option string) :
  upstream_down w ->
  chat w llm messages = mockChat [] /\
  generateQuiz w llm topic goals = Returned (mockQuiz topic) /\
  generateSchedule w llm topic duration goals = Returned (mockSchedule topic duration).
Proof.
  intros (Hs & Hg & Ho & Ha).
  unfold chat, generateQuiz, generateSchedule.
  unfold chatWithGemini, chatWithOpenAI, chatWithAnthropic,
    generateQuizWithGemini, generateQuizWithOpenAI,
    generateScheduleWithGemini, generateScheduleWithOpenAI.
  repeat split;
    repeat match goal with
           | |- context [if ?b then _ else _] => destruct b
           | |- context [gemini_sendMessage w ?m ?h ?s ?p] =>
               destruct (Hs m h s p) as (? & ->)
           | |- context [gemini_generateContent w ?m ?p] =>
               destruct (Hg m p) as (? & ->)
           | |- context [openai_create w ?m ?ms ?s] =>
               destruct (Ho m ms s) as (? & ->)
           | |- context [anthropic_create w ?m ?s ?sys ?ms] =>
               destruct (Ha m s sys ms) as (? & ->)
           end; reflexivity.
Qed.

Lemma upstream_failure_degrades_to_mock_witness :
  upstream_down (offline allKeys) /\
  generateQuiz (offline allKeys) (create allKeys) "Rust" None = Returned (mockQuiz "Rust") /\
  ChatResponse.provider <$> chat (offline allKeys) (create allKeys) [] = Returned "mock".
Proof.
  assert (Hd : upstream_down (offline allKeys))
    by (repeat split; intros; eexists; reflexivity).
  split; [exact Hd |]. split.
  - exact (proj1 (proj2 (upstream_failure_degrades_to_mock
                           (offline allKeys) (create allKeys) [] "Rust" "2 weeks" None Hd))).
  - rewrite (proj1 (upstream_failure_degrades_to_mock
                      (offline allKeys) (create allKeys) [] "Rust" "2 weeks" None Hd)).
    reflexivity.
Defined.

End MoreProvider2.

(** ** Markdown fences *)

Section Fences.

Import LLMProvider.

Lemma app_cons (c : ascii) (s t : string) : String c s +:+ t = String c (s +:+ t).
Proof. reflexivity. Qed.

Lemma app_empty (t : string) : EmptyString +:+ t = t.
Proof. reflexivity. Qed.

Lemma app_assoc_string (a b c : string) : (a +:+ b) +:+ c = a +:+ b +:+ c.
Proof. induction a as [| x a IH]; [reflexivity |]. rewrite !app_cons, IH. reflexivity. Qed.

Lemma deleteAll_clear (pat rest x : string) :
  clear pat rest x = true ->
  deleteAll_from pat 0 (x +:+ rest) = x +:+ deleteAll_from pat 0 rest.
Proof.
  induction x as [| c x IH]; intros H; [reflexivity |].
  cbn [clear] in H. apply andb_true_iff in H as [Hs Hc].
  apply negb_true_iff in Hs.
  rewrite app_cons in *. cbn [deleteAll_from]. rewrite Hs, (IH Hc). reflexivity.
Qed.

Lemma prefix_cons (a b : ascii) (p s : string) :
  String.prefix (String a p) (String b s) =
    if Ascii.eqb a b then String.prefix p s else false.
Proof.
  cbn [String.prefix].
  destruct (ascii_dec a b) as [-> | Hn]; [rewrite Ascii.eqb_refl; reflexivity |].
  destruct (Ascii.eqb_spec a b); [contradiction | reflexivity].
Qed.

Lemma prefix_nil_r (a : ascii) (p : string) : String.prefix (String a p) EmptyString = false.
Proof. reflexivity. Qed.

Lemma prefix_nil_l (s : string) : String.prefix EmptyString s = true.
Proof. destruct s; reflexivity. Qed.

Ltac prefix_cases :=
  repeat first
    [ rewrite prefix_cons
    | rewrite prefix_nil_r
    | rewrite prefix_nil_l
    | match goal with
      | |- context [Ascii.eqb ?a ?b] => destruct (Ascii.eqb_spec a b); subst
      | H : context [Ascii.eqb ?a ?b] |- _ => destruct (Ascii.eqb_spec a b); subst
      end ];
  try discriminate; try reflexivity; try congruence.

Lemma startsWith_fence_json (t : string) :
  startsWith t "```json" = true -> startsWith t "```" = true.
Proof.
  unfold startsWith.
  destruct t as [| a [| b [| c t]]]; intros H;
    repeat (rewrite ?prefix_cons, ?prefix_nil_r, ?prefix_nil_l in H);
    repeat rewrite ?prefix_cons, ?prefix_nil_r, ?prefix_nil_l;
    try discriminate;
    repeat match goal with
           | H : context [Ascii.eqb ?x ?y] |- _ =>
               destruct (Ascii.eqb x y); try discriminate
           end; reflexivity.
Qed.

Lemma clear_fence (body : string) :
  includes body "```" = false ->
  clear "```" (nl +:+ "```") body = true.
Proof.
  induction body as [| a body IH]; intros H; [reflexivity |].
  cbn [includes] in H. apply orb_false_iff in H as [Hs Hi].
  cbn [clear]. rewrite (IH Hi), andb_true_r. apply negb_true_iff.
  unfold startsWith in *. unfold nl. rewrite !app_cons.
  destruct body as [| b [| c body]]; rewrite ?app_cons, ?app_empty;
    repeat (rewrite ?prefix_cons, ?prefix_nil_r, ?prefix_nil_l in Hs);
    repeat rewrite ?prefix_cons, ?prefix_nil_r, ?prefix_nil_l;
    repeat match goal with
           | |- context [Ascii.eqb ?x ?y] =>
               destruct (Ascii.eqb x y) eqn:?; try discriminate; try reflexivity
           end.
Qed.

Lemma clear_fence_json (body : string) :
  includes body "```" = false ->
  clear "```json" (nl +:+ "```") body = true.
Proof.
  intros H. apply clear_fence in H. revert H.
  induction body as [| a body IH]; [reflexivity |].
  cbn [clear]. intros H. apply andb_true_iff in H as [Hs Hc].
  rewrite (IH Hc), andb_true_r. apply negb_true_iff. apply negb_true_iff in Hs.
  destruct (startsWith (String a body +:+ nl +:+ "```") "```json") eqn:E; [| reflexivity].
  apply startsWith_fence_json in E. congruence.
Qed.

Lemma trimEnd_app_nl (t : string) : trimEnd (t +:+ nl) = trimEnd t.
Proof.
  induction t as [| c t IH]; [reflexivity |].
  rewrite app_cons. cbn [trimEnd]. rewrite IH. reflexivity.
Qed.

Lemma trim_app_nl (body : string) : trim (body +:+ nl) = trim body.
Proof.
  unfold trim. induction body as [| c body IH]; [reflexivity |].
  rewrite app_cons. cbn [trimStart]. destruct (isWhiteSpace c); [exact IH |].
  rewrite <- app_cons. apply trimEnd_app_nl.
Qed.

Lemma trimEnd_app_fence (x : string) : trimEnd (x +:+ "```") = x +:+ "```".
Proof.
  induction x as [| c x IH]; [reflexivity |].
  rewrite app_cons. cbn [trimEnd]. rewrite IH.
  destruct x; rewrite ?app_cons, ?app_empty; simpl; rewrite andb_false_r; reflexivity.
Qed.

Lemma trim_fenced (tag body : string) : trim (fenced tag body) = fenced tag body.
Proof.
  unfold trim.
  assert (Hs : trimStart (fenced tag body) = fenced tag body) by reflexivity.
  rewrite Hs.
  assert (Hf : fenced tag body = ("```" +:+ tag +:+ nl +:+ body +:+ nl) +:+ "```")
    by (unfold fenced; rewrite !app_assoc_string; reflexivity).
  rewrite Hf. apply trimEnd_app_fence.
Qed.

Ltac run_deleteAll :=
  repeat first
    [ progress cbn [deleteAll_from String.length dropUnits Nat.sub Nat.add]
    | progress unfold startsWith
    | rewrite prefix_cons
    | rewrite prefix_nil_l
    | rewrite prefix_nil_r
    | progress unfold nl
    | progress (simpl Ascii.eqb; cbv iota) ].

Lemma deleteAll_json_fenced (body : string) :
  includes body "```" = false ->
  deleteAll "```json" (fenced "json" body) = body +:+ nl +:+ "```".
Proof.
  intros H. unfold deleteAll, fenced, nl. rewrite !app_cons, !app_empty.
  run_deleteAll.
  exact (deleteAll_clear _ _ _ (clear_fence_json body H)).
Qed.

Lemma deleteAll_plain_fenced (body : string) :
  includes body "```" = false ->
  deleteAll "```" (fenced EmptyString body) = body +:+ nl.
Proof.
  intros H. unfold deleteAll, fenced, nl. rewrite !app_cons, !app_empty.
  run_deleteAll.
  exact (deleteAll_clear _ _ _ (clear_fence body H)).
Qed.

Lemma deleteAll_fence_tail (body : string) :
  includes body "```" = false ->
  deleteAll "```" (body +:+ nl +:+ "```") = body +:+ nl.
Proof.
  intros H. unfold deleteAll.
  exact (deleteAll_clear _ _ _ (clear_fence body H)).
Qed.

Lemma startsWith_fenced_json (body : string) :
  startsWith (fenced "json" body) "```json" = true.
Proof. unfold fenced. rewrite !app_cons, !app_empty. run_deleteAll. reflexivity. Qed.

Lemma startsWith_fenced_plain (body : string) :
  startsWith (fenced EmptyString body) "```json" = false /\
  startsWith (fenced EmptyString body) "```" = true.
Proof.
  unfold fenced. rewrite !app_cons, !app_empty. split; run_deleteAll; reflexivity.
Qed.

Lemma startsWith_fenced (tag body : string) :
  startsWith (fenced tag body) "```" = true.
Proof. unfold fenced. rewrite !app_cons, !app_empty. run_deleteAll. reflexivity. Qed.

(** X3. The quiz and schedule generators unwrap a fenced reply: when the
    text of the provider is a Markdown fence, tagged [json] or untagged,
    around a body that holds no fence of its own, the content they return is
    the trimmed body. *)
Theorem fenced_reply_is_unwrapped (w : World) (topic duration : string)
    (goals : option string) (body : string) :
  includes body "```" = false ->
  cleanFences (trim (fenced "json" body)) = trim body /\
  cleanFences (trim (fenced EmptyString body)) = trim body /\
  (gemini_generateContent w "gemini-2.0-flash" (geminiQuizPrompt (now w) topic goals)
   = Returned (fenced "json" body) ->
   generateQuizWithGemini w topic goals
   = Returned (ChatResponse.mk (trim body) "gemini")) /\
  (openai_create w "gpt-3.5-turbo"
     (openaiScheduleMessages (now w) topic duration goals)
     {| temperature := 7 # 10; max_tokens := 2048 |}
   = Returned (Some (fenced EmptyString body)) ->
   generateScheduleWithOpenAI w topic duration goals
   = Returned (ChatResponse.mk (trim body) "openai")).
Proof.
  intros H.
  assert (Hj : cleanFences (trim (fenced "json" body)) = trim body).
  { rewrite trim_fenced. unfold cleanFences.
    rewrite startsWith_fenced_json, (deleteAll_json_fenced body H),
      (deleteAll_fence_tail body H).
    apply trim_app_nl. }
  assert (Hp : cleanFences (trim (fenced EmptyString body)) = trim body).
  { rewrite trim_fenced. unfold cleanFences.
    destruct (startsWith_fenced_plain body) as [-> ->].
    rewrite (deleteAll_plain_fenced body H). apply trim_app_nl. }
  repeat split; try assumption.
  - intros Hr. unfold generateQuizWithGemini. rewrite Hr. simpl. rewrite Hj. reflexivity.
  - intros Hr. unfold generateScheduleWithOpenAI. rewrite Hr.
    assert (He : contentOrEmptyObject (Some (fenced EmptyString body))
                 = fenced EmptyString body) by reflexivity.
    cbn [mbind outcome_bind try_catch]. rewrite He, Hp. reflexivity.
Qed.

Lemma fenced_reply_is_unwrapped_witness :
  includes " {} " "```" = false /\
  cleanFences (trim (fenced "json" " {} ")) = "{}" /\
  generateQuizWithGemini (replying geminiKey (fenced "json" " {} ") (JObj [])) "Rust" None
  = Returned (ChatResponse.mk "{}" "gemini").
Proof.
  assert (H : includes " {} " "```" = false) by reflexivity.
  split; [exact H |].
  destruct (fenced_reply_is_unwrapped
              (replying geminiKey (fenced "json" " {} ") (JObj []))
              "Rust" "2 weeks" None " {} " H) as (Hj & _ & Hq & _).
  split; [exact Hj |]. exact (Hq eq_refl).
Defined.


(** X4. [generateProject] unwraps a fenced reply before parsing it: for a
    reply that is a Markdown fence, tagged [json] or untagged, around a body
    without a fence of its own, the text handed to [JSON.parse] is the body
    followed by one line feed (this path does not trim after stripping). *)
Theorem jsonContent_unwraps (tag body : string) :
  tag = "json" \/ tag = EmptyString ->
  includes body "```" = false ->
  ProjectGenerator.jsonContent (fenced tag body) = body +:+ nl.
Proof.
  intros Ht H. unfold ProjectGenerator.jsonContent. rewrite trim_fenced, startsWith_fenced.
  destruct Ht as [-> | ->].
  - rewrite (deleteAll_json_fenced body H). apply (deleteAll_fence_tail body H).
  - assert (Hn : deleteAll "```json" (fenced EmptyString body) = fenced EmptyString body).
    { unfold deleteAll, fenced, nl. rewrite !app_cons, !app_empty. run_deleteAll.
      f_equal. f_equal. f_equal. f_equal.
      exact (deleteAll_clear _ _ _ (clear_fence_json body H)). }
    rewrite Hn. apply (deleteAll_plain_fenced body H).
Qed.

Lemma jsonContent_unwraps_witness :
  ProjectGenerator.jsonContent (fenced "json" "{}") = "{}" +:+ nl.
Proof. apply jsonContent_unwraps; [left; reflexivity | reflexivity]. Defined.

End Fences.

(** ** The project generator, continued *)

Section MoreGenerator.

Import ProjectGenerator.

Lemma or_else_truthy (a b : JSVal) : truthy b = true -> truthy (or_else a b) = true.
Proof. intros H. unfold or_else. destruct (truthy a) eqn:Ha; assumption. Qed.

Lemma detectLanguage_truthy (p l : JSVal) :
  detectLanguage p = Returned l -> truthy l = true.
Proof.
  destruct p; simpl; try discriminate. intros [= <-]. apply or_else_truthy. reflexivity.
Qed.

Lemma normalizeFile_truthy (e : JSVal) (f : ProjectFile) :
  normalizeFile e = Returned f ->
  truthy (path f) = true /\ truthy (language f) = true.
Proof.
  unfold normalizeFile. intros H.
  destruct (getProp e "path") as [p | x]; simpl in H; [| discriminate].
  destruct (getProp e "content") as [c | x]; simpl in H; [| discriminate].
  destruct (getProp e "language") as [l | x]; simpl in H; [| discriminate].
  destruct (truthy l) eqn:Hl; simpl in H.
  - injection H as <-. simpl. split; [apply or_else_truthy; reflexivity | exact Hl].
  - destruct (detectLanguage p) as [t | x] eqn:Hd; simpl in H; [| discriminate].
    injection H as <-. simpl.
    split; [apply or_else_truthy; reflexivity | apply (detectLanguage_truthy p t Hd)].
Qed.

Lemma mapFiles_truthy (entries : list JSVal) (fs : list ProjectFile) :
  mapFiles entries = Returned fs ->
  Forall (fun f => truthy (path f) = true /\ truthy (language f) = true) fs.
Proof.
  revert fs. induction entries as [| e r IH]; intros fs H; simpl in H.
  - injection H as <-. constructor.
  - destruct (normalizeFile e) as [f | x] eqn:Hf; simpl in H; [| discriminate].
    destruct (mapFiles r) as [fs' | x]; simpl in H; [| discriminate].
    injection H as <-. constructor; [apply (normalizeFile_truthy e f Hf) | apply IH; reflexivity].
Qed.

Lemma checkedProject_name (v : JSVal) (p : GeneratedProject) :
  checkedProject v = Returned p ->
  getProp v "name" = Returned (name p) /\ truthy (name p) = true.
Proof.
  unfold checkedProject. intros H.
  destruct (getProp v "name") as [n | e]; simpl in H; [| discriminate].
  destruct (getProp v "files") as [f | e]; simpl in H; [| discriminate].
  destruct (truthy n) eqn:Hn; simpl in H; [| discriminate].
  destruct (negb (truthy f) || negb (isArray f)); [discriminate |].
  destruct f; try discriminate.
  destruct (mapFiles items) as [fs | e]; simpl in H; [| discriminate].
  destruct (getProp v "description"); simpl in H; [| discriminate].
  destruct (getProp v "instructions"); simpl in H; [| discriminate].
  injection H as <-. split; [reflexivity | exact Hn].
Qed.

(** X5. Whatever the provider replies, the project [generateProject] returns
    is usable: its name is truthy, and every one of its files has a truthy
    path and a truthy language tag. *)
Theorem generated_files_are_complete (w : World) (llm : LLMProvider.t) (d : string) :
  exists p,
    generateProject w llm d = Returned p /\
    truthy (name p) = true /\
    Forall (fun f => truthy (path f) = true /\ truthy (language f) = true) (files p).
Proof.
  rewrite generateProject_cases.
  destruct (parsedReply w llm d) as [v | e].
  - destruct (checkedProject v) as [p | e] eqn:Hp.
    + exists p. split; [reflexivity |].
      split; [apply (checkedProject_name v p Hp) |].
      destruct (checkedProject_files v p Hp) as (entries & _ & Hm).
      apply (mapFiles_truthy entries _ Hm).
    + eexists. split; [reflexivity |]. split; [reflexivity |].
      simpl. repeat constructor.
  - eexists. split; [reflexivity |]. split; [reflexivity |].
    simpl. repeat constructor.
Qed.

Lemma normalizeFile_ok (e : JSVal) :
  entry_ok e = true -> exists f, normalizeFile e = Returned f /\ file_of_entry e f.
Proof.
  unfold entry_ok, normalizeFile, file_of_entry. intros H.
  destruct (getProp e "language") as [l | x] eqn:Hl; [| discriminate].
  destruct (getProp e "path") as [p | x] eqn:Hp; [| discriminate].
  assert (exists c, getProp e "content" = Returned c) as (c & Hc).
  { destruct e; simpl in *; try discriminate; eauto. }
  rewrite Hc. simpl.
  destruct (truthy l) eqn:Ht; simpl.
  - eexists. split; [reflexivity |]. exists p, c. repeat split.
  - simpl in H. destruct p; try discriminate. simpl.
    eexists. split; [reflexivity |]. eexists _, c. repeat split.
Qed.

Lemma normalizeFile_not_ok (e : JSVal) :
  entry_ok e = false -> exists x, normalizeFile e = Threw x.
Proof.
  unfold entry_ok, normalizeFile. intros H.
  destruct (getProp e "language") as [l | x] eqn:Hl.
  - destruct (getProp e "path") as [p | x] eqn:Hp.
    + assert (exists c, getProp e "content" = Returned c) as (c & Hc).
      { destruct e; simpl in *; try discriminate; eauto. }
      rewrite Hc. simpl. apply orb_false_iff in H as [Ht Hs]. rewrite Ht. simpl.
      destruct p; try discriminate; simpl; eauto.
    + destruct e; simpl in *; try discriminate; eauto.
  - destruct e; simpl in *; try discriminate; eauto.
Qed.

Lemma mapFiles_ok (entries : list JSVal) :
  forallb entry_ok entries = true ->
  exists fs, mapFiles entries = Returned fs /\ Forall2 file_of_entry entries fs.
Proof.
  induction entries as [| e r IH]; intros H; simpl in *.
  - eexists. split; [reflexivity | constructor].
  - apply andb_true_iff in H as [He Hr].
    destruct (normalizeFile_ok e He) as (f & -> & Hf).
    destruct (IH Hr) as (fs & -> & Hfs). simpl.
    eexists. split; [reflexivity | constructor; assumption].
Qed.

Lemma mapFiles_not_ok (entries : list JSVal) :
  forallb entry_ok entries = false -> exists x, mapFiles entries = Threw x.
Proof.
  induction entries as [| e r IH]; intros H; simpl in *; [discriminate |].
  destruct (entry_ok e) eqn:He; simpl in H.
  - destruct (normalizeFile_ok e He) as (f & -> & _). simpl.
    destruct (IH H) as (x & ->). simpl. eauto.
  - destruct (normalizeFile_not_ok e He) as (x & ->). simpl. eauto.
Qed.

(** X6. A reply that passes the validation is returned as it is, file by
    file: when it parses to a value with a truthy name and an array [files]
    whose entries can all be normalised, the result carries that name and one
    file per entry, in order, each with the entry's path and content, or
    ["unnamed.txt"] and the empty string where the entry has none. *)
Theorem valid_reply_is_kept (w : World) (llm : LLMProvider.t) (d : string)
    (v n : JSVal) (entries : list JSVal) :
  parsedReply w llm d = Returned v ->
  getProp v "name" = Returned n ->
  truthy n = true ->
  getProp v "files" = Returned (JArr entries) ->
  forallb entry_ok entries = true ->
  exists p,
    generateProject w llm d = Returned p /\
    name p = n /\
    length (files p) = length entries /\
    Forall2 file_of_entry entries (files p).
Proof.
  intros Hv Hn Ht Hf Hok.
  rewrite generateProject_cases, Hv.
  destruct (mapFiles_ok entries Hok) as (fs & Hm & H2).
  assert (exists dsc ins, getProp v "description" = Returned dsc /\
                          getProp v "instructions" = Returned ins) as (dsc & ins & Hd & Hi).
  { destruct v; simpl in *; try discriminate; eauto. }
  unfold checkedProject. rewrite Hn, Hf. simpl. rewrite Ht. simpl.
  rewrite Hm. simpl. rewrite Hd, Hi. simpl.
  eexists. split; [reflexivity |]. simpl.
  split; [reflexivity |]. split; [| exact H2].
  symmetry. apply (Forall2_length _ _ _ H2).
Qed.

Lemma valid_reply_is_kept_witness :
  exists p,
    generateProject tsxWorld (LLMProvider.create geminiKey) "a demo" = Returned p /\
    name p = JStr "demo-app" /\
    length (files p) = 1.
Proof.
  destruct (valid_reply_is_kept tsxWorld (LLMProvider.create geminiKey) "a demo"
              tsxReply (JStr "demo-app")
              [ JObj [ ("path", JStr "src/App.tsx");
                       ("content", JStr "export default function App() { return null; }");
                       ("language", JStr "typescript") ] ])
    as (p & Hp & Hn & Hl & _);
    try (vm_compute; reflexivity).
  exists p. repeat split; assumption.
Defined.

(** X7. The reply is taken whole or not at all: when one entry of [files]
    cannot be normalised (it is [null], or it names no language and its path
    is not a string), the whole reply is dropped and the fallback scaffold is
    returned, however many good entries there are. *)
Theorem one_bad_entry_drops_the_reply (w : World) (llm : LLMProvider.t) (d : string)
    (v : JSVal) (entries : list JSVal) :
  parsedReply w llm d = Returned v ->
  getProp v "files" = Returned (JArr entries) ->
  forallb entry_ok entries = false ->
  generateProject w llm d = Returned (getFallbackProject d).
Proof.
  intros Hv Hf Hbad.
  rewrite generateProject_cases, Hv.
  destruct (mapFiles_not_ok entries Hbad) as (x & Hm).
  unfold checkedProject. rewrite Hf.
  destruct (getProp v "name") as [n | e]; simpl; [| reflexivity].
  destruct (truthy n); simpl; [| reflexivity].
  rewrite Hm. reflexivity.
Qed.

End MoreGenerator.

Section LanguageOfPath.

Import ProjectGenerator.

Lemma same_letter_dot (c c' : ascii) :
  same_letter c c' -> Ascii.eqb c "." = Ascii.eqb c' ".".
Proof.
  intros [x | x Hx | x Hx]; [reflexivity | |];
    destruct x as [[] [] [] [] [] [] [] []]; vm_compute in Hx |- *;
    first [reflexivity | discriminate Hx].
Qed.

Lemma split_nonempty (sep : ascii) (s : string) : split sep s <> [].
Proof.
  induction s as [| c s IH]; simpl; [discriminate |].
  destruct (Ascii.eqb c sep); [discriminate |].
  destruct (split sep s); [contradiction | discriminate].
Qed.

Lemma split_app_sep (sep : ascii) (a e : string) :
  split sep (a +:+ String sep e) = (split sep a ++ split sep e)%list.
Proof.
  induction a as [| c a IH].
  - change (EmptyString +:+ String sep e) with (String sep e).
    cbn [split]. rewrite Ascii.eqb_refl. reflexivity.
  - change (String c a +:+ String sep e) with (String c (a +:+ String sep e)).
    cbn [split]. rewrite IH.
    destruct (Ascii.eqb c sep); [reflexivity |].
    pose proof (split_nonempty sep a) as Hne.
    destruct (split sep a); [contradiction | reflexivity].
Qed.

Lemma split_upto_case (s s' : string) :
  eq_upto_case s s' -> Forall2 eq_upto_case (split "." s) (split "." s').
Proof.
  induction 1 as [| c c' s s' Hc Hs IH]; cbn [split].
  - repeat constructor.
  - rewrite <- (same_letter_dot c c' Hc).
    destruct (Ascii.eqb c "."); [constructor; [constructor | exact IH] |].
    destruct IH as [| h h' t t' Hh Ht].
    + repeat constructor. exact Hc.
    + constructor; [constructor; assumption | exact Ht].
Qed.

Lemma last_upto_case (l l' : list string) :
  Forall2 eq_upto_case l l' ->
  toLowerCase <$> last l = toLowerCase <$> last l'.
Proof.
  induction 1 as [| h h' t t' Hh Ht IH]; [reflexivity |].
  destruct Ht as [| x x' r r' Hx Hr].
  - simpl. rewrite (eq_upto_case_lower h h' Hh). reflexivity.
  - rewrite !last_cons_cons. exact IH.
Qed.

(** X8. The language of a file depends on its name only through the text
    after the last dot, whatever its letter case: two names equal up to
    letter case get the same tag, and a prefix up to and including a dot
    (directories, the base name) never changes the tag. *)
Theorem language_depends_on_extension_only (s s' a e : string) :
  (eq_upto_case s s' -> detectLanguage (JStr s) = detectLanguage (JStr s')) /\
  detectLanguage (JStr (a +:+ "." +:+ e)) = detectLanguage (JStr e).
Proof.
  split.
  - intros H. unfold detectLanguage, pop.
    rewrite (last_upto_case _ _ (split_upto_case s s' H)). reflexivity.
  - unfold detectLanguage, pop.
    change ("." +:+ e) with (String "." e).
    rewrite split_app_sep, last_app.
    pose proof (split_nonempty "." e) as Hne.
    destruct (last (split "." e)) eqn:Hl; [reflexivity |].
    apply last_None in Hl. contradiction.
Qed.

Lemma language_depends_on_extension_only_witness :
  detectLanguage (JStr "src/Main.PY") = detectLanguage (JStr "src/main.py") /\
  detectLanguage (JStr "src/main.py") = Returned (JStr "python").
Proof.
  split; [| reflexivity].
  apply (proj1 (language_depends_on_extension_only
                  "src/Main.PY" "src/main.py" EmptyString EmptyString)).
  repeat first
    [ apply eq_upto_case_nil
    | apply eq_upto_case_cons;
      [ match goal with
        | |- same_letter ?x ?y =>
            first [ apply same_unit
                  | change (same_letter x (lowerOf x));
                    apply upper_then_lower; reflexivity
                  | change (same_letter (lowerOf y) y);
                    apply lower_then_upper; reflexivity ]
        end | ] ].
Defined.

End LanguageOfPath.

Section MoreGenerator2.

Import ProjectGenerator.

Lemma one_bad_entry_drops_the_reply_witness :
  generateProject mixedWorld (LLMProvider.create geminiKey) "a page"
  = Returned (getFallbackProject "a page").
Proof.
  apply (one_bad_entry_drops_the_reply mixedWorld (LLMProvider.create geminiKey) "a page"
           mixedReply
           [ JObj [ ("path", JStr "index.html"); ("content", JStr "<p>Hello</p>");
                    ("language", JStr "html") ];
             JObj [ ("content", JStr "body { margin: 0 }") ] ]);
    vm_compute; reflexivity.
Defined.

End MoreGenerator2.

(** ** The unified message router, continued *)

Section MoreRouter.

Import UnifiedAgentCoordinator.

Lemma prefix_app (k b : string) : String.prefix k (k +:+ b) = true.
Proof.
  induction k as [| c k IH]; [apply prefix_nil_l |].
  rewrite app_cons, prefix_cons, Ascii.eqb_refl. exact IH.
Qed.

Lemma prefix_split (k s : string) :
  String.prefix k s = true -> exists b, s = k +:+ b.
Proof.
  revert s. induction k as [| c k IH]; intros s H.
  - exists s. reflexivity.
  - destruct s as [| d s]; [discriminate |].
    rewrite prefix_cons in H.
    destruct (Ascii.eqb_spec c d) as [-> |]; [| discriminate].
    destruct (IH s H) as (b & ->). exists b. reflexivity.
Qed.

(** [includes] is the substring test. *)
Lemma includes_spec (s k : string) :
  includes s k = true <-> exists a b, s = a +:+ k +:+ b.
Proof.
  split.
  - induction s as [| c s IH]; cbn [includes]; intros H.
    + rewrite orb_false_r in H. destruct (prefix_split k _ H) as (b & Hb).
      exists EmptyString, b. exact Hb.
    + apply orb_true_iff in H as [H | H].
      * destruct (prefix_split k _ H) as (b & Hb). exists EmptyString, b. exact Hb.
      * destruct (IH H) as (a & b & ->). exists (String c a), b. reflexivity.
  - intros (a & b & ->). induction a as [| c a IH].
    + rewrite app_empty.
      destruct (k +:+ b) eqn:E; cbn [includes]; unfold startsWith; rewrite <- E;
        rewrite prefix_app; reflexivity.
    + rewrite app_cons. cbn [includes]. rewrite IH. apply orb_true_r.
Qed.

Lemma toLowerCase_app (a b : string) :
  toLowerCase (a +:+ b) = toLowerCase a +:+ toLowerCase b.
Proof.
  induction a as [| c a IH]; [reflexivity |].
  rewrite app_cons. cbn [toLowerCase]. rewrite IH. reflexivity.
Qed.

Lemma keyword_test_spec (keywords : list string) (m : string) :
  existsb (fun keyword => includes (toLowerCase m) keyword) keywords = true <->
  mentions keywords m.
Proof.
  unfold mentions. rewrite existsb_exists. split.
  - intros (k & Hin & Hk). apply includes_spec in Hk as (a & b & Hab). eauto.
  - intros (k & a & b & Hin & Hab). exists k. split; [exact Hin |].
    apply includes_spec. eauto.
Qed.

Lemma mentions_wrapped (keywords : list string) (m pre post : string) :
  mentions keywords m -> mentions keywords (pre +:+ m +:+ post).
Proof.
  intros (k & a & b & Hin & Hab).
  exists k, (toLowerCase pre +:+ a), (b +:+ toLowerCase post).
  split; [exact Hin |].
  rewrite !toLowerCase_app, Hab, !app_assoc_string. reflexivity.
Qed.

(** X9. Each of the four keyword tests is a substring test on the
    lower-cased message: it answers [true] exactly when the lower-cased text
    contains one of its keywords somewhere (inside a longer word too).
    Hence text added before or after a message never makes a test that
    passed fail. *)
Theorem keyword_tests_are_substring_tests (m pre post : string) :
  (isLearningQuery m = true <-> mentions learningKeywords m) /\
  (isBookingQuery m = true <-> mentions bookingKeywords m) /\
  (isCodeQuery m = true <-> mentions codeKeywords m) /\
  (isProjectGenerationQuery m = true <-> mentions projectKeywords m) /\
  (isLearningQuery m = true -> isLearningQuery (pre +:+ m +:+ post) = true) /\
  (isBookingQuery m = true -> isBookingQuery (pre +:+ m +:+ post) = true) /\
  (isCodeQuery m = true -> isCodeQuery (pre +:+ m +:+ post) = true) /\
  (isProjectGenerationQuery m = true ->
   isProjectGenerationQuery (pre +:+ m +:+ post) = true).
Proof.
  unfold isLearningQuery, isBookingQuery, isCodeQuery, isProjectGenerationQuery.
  repeat split; try (apply keyword_test_spec);
    intros H; apply keyword_test_spec; apply mentions_wrapped;
    apply keyword_test_spec; exact H.
Qed.

Lemma keyword_tests_are_substring_tests_witness :
  isBookingQuery "Textbook" = true /\
  isBookingQuery ("Where is my " +:+ "Textbook" +:+ "?") = true.
Proof.
  assert (H : isBookingQuery "Textbook" = true).
  { apply (proj1 (proj2 (keyword_tests_are_substring_tests
                           "Textbook" EmptyString EmptyString))).
    exists "book", "text", EmptyString. split; [simpl; auto | reflexivity]. }
  split; [exact H |].
  exact (proj1 (proj2 (proj2 (proj2 (proj2 (proj2
           (keyword_tests_are_substring_tests "Textbook" "Where is my " "?")))))) H).
Defined.

End MoreRouter.

(** ** The agent manager, continued *)

Section MoreManager.

Import AgentManager.

(** X10. Creating and deleting agents: a created agent is found under its
    id with the given name and description, and can be given tasks at once;
    [deleteAgent] answers whether the id was known, after it the id is
    unknown and its tasks throw; neither operation touches an agent stored
    under another id. *)
Theorem manager_create_and_delete (clock : Z) (uuid n d i task : string) (self : t) :
  let created := createAgent clock uuid self n d in
  let deleted := deleteAgent self i in
  getAgent created.2 uuid = Some created.1 /\
  id created.1 = uuid /\ name created.1 = n /\ description created.1 = d /\
  (i <> uuid -> getAgent created.2 i = getAgent self i) /\
  executeTask created.2 uuid task =
    (Returned ("Agent " +:+ n +:+ " executed task: " +:+ task), created.2) /\
  (deleted.1 = true <-> is_Some (getAgent self i)) /\
  getAgent deleted.2 i = None /\
  (forall j, j <> i -> getAgent deleted.2 j = getAgent self j) /\
  (executeTask deleted.2 i task).1 = Threw (Error ("Agent " +:+ i +:+ " not found")).
Proof.
  unfold createAgent, deleteAgent, getAgent, executeTask. simpl.
  rewrite lookup_insert_eq, lookup_delete_eq. simpl.
  repeat split.
  - intros Hne. apply lookup_insert_ne. congruence.
  - intros H. apply bool_decide_eq_true in H. exact H.
  - intros H. apply bool_decide_eq_true. exact H.
  - intros j Hne. apply lookup_delete_ne. congruence.
Qed.

Lemma manager_create_and_delete_witness :
  getAgent (createAgent 7 "u-1" (create 0) "Planner" "Plans trips").2 "code-helper"
  = getAgent (create 0) "code-helper".
Proof.
  apply (proj1 (proj2 (proj2 (proj2 (proj2
           (manager_create_and_delete 7 "u-1" "Planner" "Plans trips" "code-helper"
              "t" (create 0))))))).
  discriminate.
Defined.

End MoreManager.


(** ** The agent executor, continued *)

Section MoreExecutor.

Import Storage AgentExecutor.

(** The store after a call is the store before it with the writes of the
    call applied: a property that each such write keeps is kept by the
    call. *)
Lemma executeAgent_stable (P : Storage.t -> Prop) (w : World) (llm : LLMProvider.t)
    (st : Storage.t) (agentId : string) (params : JSVal) (agent : Agent) :
  getAgent st agentId = Some agent ->
  P st ->
  (forall s c, P s -> call_of agentId agent c -> P (Storage.apply c s)) ->
  P (executeAgent w llm agentId params st).2.
Proof.
  intros Hget HP Hstep.
  destruct (executeAgent_run w llm st agentId params agent Hget)
    as (r & _ & ->).
  cbn [snd].
  repeat (apply Hstep;
          [| first [ reflexivity
                   | split; [reflexivity |];
                     split; [reflexivity |];
                     eexists; reflexivity ] ]);
  exact HP.
Qed.

Lemma getAgent_apply_other (c : StorageCall) (s : Storage.t) (agentId i : string)
    (agent : Agent) :
  call_of agentId agent c -> i <> agentId ->
  getAgent (Storage.apply c s) i = getAgent s i.
Proof.
  intros Hc Hne. unfold getAgent.
  destruct c as [j ? ? | j ? ? | entry]; simpl in *; [| | reflexivity].
  - subst j. apply lookup_alter_ne. congruence.
  - destruct Hc as (-> & _). apply lookup_alter_ne. congruence.
Qed.

Lemma is_Some_apply (c : StorageCall) (s : Storage.t) (i : string) :
  is_Some (getAgent (Storage.apply c s) i) <-> is_Some (getAgent s i).
Proof.
  unfold getAgent. destruct c; simpl; [| | reflexivity]; apply lookup_alter_is_Some.
Qed.

Lemma logs_apply (c : StorageCall) (s : Storage.t) :
  executionLogs (Storage.apply c s) =
    (executionLogs s ++ match c with
                        | CreateAgentExecutionLog e => [e]
                        | _ => []
                        end)%list.
Proof. destruct c; simpl; rewrite ?app_nil_r; reflexivity. Qed.

Lemma executeAgent_logs_at_most_one (w : World) (llm : LLMProvider.t)
    (st : Storage.t) (agentId : string) (params : JSVal) :
  length (executionLogs (executeAgent w llm agentId params st).2)
  <= length (executionLogs st) + 1.
Proof.
  destruct (getAgent st agentId) as [agent |] eqn:Hget.
  - destruct (executeAgent_run w llm st agentId params agent Hget)
      as (r & _ & ->).
    cbn [snd]. rewrite !logs_apply, !length_app. simpl. lia.
  - unfold executeAgent. rewrite Hget. simpl. lia.
Qed.

(** X11. [executeAgent] touches one record only: whatever the outcome,
    every agent stored under another id is exactly as before, no agent appears or disappears, and the log keeps all
    its entries in order, followed by at most one new entry, which is of
    this agent. *)
Theorem execution_touches_one_agent (w : World) (llm : LLMProvider.t)
    (st : Storage.t) (agentId : string) (params : JSVal) :
  let st' := (executeAgent w llm agentId params st).2 in
  (forall i, i <> agentId -> getAgent st' i = getAgent st i) /\
  (forall i, is_Some (getAgent st' i) <-> is_Some (getAgent st i)) /\
  (exists added, executionLogs st' = (executionLogs st ++ added)%list /\
                 Forall (fun e => log_agentId e = agentId) added /\
                 length added <= 1).
Proof.
  intros st'.
  assert (Hmain :
    (forall i, i <> agentId -> getAgent st' i = getAgent st i) /\
    (forall i, is_Some (getAgent st' i) <-> is_Some (getAgent st i)) /\
    (exists added, executionLogs st' = (executionLogs st ++ added)%list /\
                   Forall (fun e => log_agentId e = agentId) added));
    [| destruct Hmain as (Hf & Hd & added & Hl & Ha);
       split; [exact Hf |]; split; [exact Hd |];
       exists added; split; [exact Hl |]; split; [exact Ha |];
       pose proof (executeAgent_logs_at_most_one w llm st agentId params) as Hc;
       fold st' in Hc; rewrite Hl, length_app in Hc; lia ].
  subst st'.
  destruct (getAgent st agentId) as [agent |] eqn:Hget.
  - apply (executeAgent_stable
             (fun s =>
                (forall i, i <> agentId -> getAgent s i = getAgent st i) /\
                (forall i, is_Some (getAgent s i) <-> is_Some (getAgent st i)) /\
                (exists added, executionLogs s = (executionLogs st ++ added)%list /\
                               Forall (fun e => log_agentId e = agentId) added))
             w llm st agentId params agent Hget).
    + repeat split; try tauto. exists []. rewrite app_nil_r. split; [reflexivity | constructor].
    + intros s c (Hf & Hd & added & Hl & Ha) Hc. split; [| split].
      * intros i Hne. rewrite (getAgent_apply_other c s agentId i agent Hc Hne). auto.
      * intros i. rewrite is_Some_apply. apply Hd.
      * rewrite logs_apply, Hl, <- app_assoc. eexists. split; [reflexivity |].
        apply Forall_app. split; [exact Ha |].
        destruct c; simpl in *; repeat constructor. exact Hc.
  - unfold executeAgent. rewrite Hget. simpl.
    repeat split; try tauto. exists []. rewrite app_nil_r. split; [reflexivity | constructor].
Qed.

Lemma spec_successRate_percentage (rate count : N) (b : bool) :
  (rate <= 100)%N -> (spec_successRate rate count b <= 100)%N.
Proof.
  intros H. unfold spec_successRate, Math_round_ratio.
  apply N.lt_succ_r. apply N.Div0.div_lt_upper_bound.
  destruct b; nia.
Qed.

Lemma spec_successRate_failure (rate count : N) :
  (spec_successRate rate count false <= rate)%N.
Proof.
  unfold spec_successRate, Math_round_ratio.
  apply N.lt_succ_r. apply N.Div0.div_lt_upper_bound. nia.
Qed.

Lemma spec_successRate_success (rate count : N) :
  (rate <= 100)%N -> (rate <= spec_successRate rate count true)%N.
Proof.
  intros H. unfold spec_successRate, Math_round_ratio.
  apply N.div_le_lower_bound; [lia |]. nia.
Qed.

(** X12. The success rate stays a percentage: when every stored agent has a
    success rate of at most 100 before a call of [executeAgent], the same
    holds after it, whatever the outcome. *)
Theorem rates_stay_percentages (w : World) (llm : LLMProvider.t)
    (st : Storage.t) (agentId : string) (params : JSVal) :
  (forall i a, getAgent st i = Some a -> (successRate a <= 100)%N) ->
  forall i a, getAgent (executeAgent w llm agentId params st).2 i = Some a ->
              (successRate a <= 100)%N.
Proof.
  intros Hst.
  destruct (getAgent st agentId) as [agent |] eqn:Hget.
  - apply (executeAgent_stable
             (fun s => forall i a, getAgent s i = Some a -> (successRate a <= 100)%N)
             w llm st agentId params agent Hget Hst).
    intros s c Hs Hc i a. unfold getAgent.
    destruct c as [j x y | j n r | entry]; simpl in *.
    + intros H. apply lookup_alter_Some in H as [(-> & a0 & Ha0 & ->) | (_ & H)];
        [apply (Hs _ _ Ha0) | apply (Hs _ _ H)].
    + destruct Hc as (-> & -> & b & ->).
      intros H. apply lookup_alter_Some in H as [(-> & a0 & Ha0 & ->) | (_ & H)];
        [| apply (Hs _ _ H)].
      simpl. apply spec_successRate_percentage. apply (Hst _ _ Hget).
    + apply Hs.
  - unfold executeAgent. rewrite Hget. exact Hst.
Qed.

Lemma rates_stay_percentages_witness :
  match getAgent (executeAgent (replying noKeys "{}" (JObj []))
                               (LLMProvider.create noKeys) "a2" mailParams twoAgents).2 "a2"
  with
  | Some a => (successRate a <= 100)%N
  | None => True
  end.
Proof.
  destruct (getAgent _ "a2") as [a |] eqn:Ha; [| exact I].
  apply (rates_stay_percentages
           (replying noKeys "{}" (JObj []))
           (LLMProvider.create noKeys) twoAgents "a2" mailParams) with (i := "a2");
    [| exact Ha].
  intros i b. unfold getAgent, twoAgents. simpl.
  intros H. apply lookup_insert_Some in H as [(_ & <-) | (_ & H)].
  - vm_compute. discriminate.
  - apply lookup_singleton_Some in H as (_ & <-). vm_compute. discriminate.
Defined.

(** X13. A run moves the success rate the right way: a failed run never
    raises the agent's success rate, and a successful run of an agent whose
    rate is at most 100 never lowers it; on the first run of an agent the
    rate becomes 100 or 0. *)
Theorem rate_follows_the_outcome (w : World) (llm : LLMProvider.t) (st : Storage.t)
    (agentId : string) (params : JSVal) (agent : Agent) :
  getAgent st agentId = Some agent ->
  exists r st' agent',
    executeAgent w llm agentId params st = (Returned r, st') /\
    getAgent st' agentId = Some agent' /\
    (success r = false -> (successRate agent' <= successRate agent)%N) /\
    (success r = true -> (successRate agent <= 100)%N ->
     (successRate agent <= successRate agent' <= 100)%N) /\
    (tasksCompleted agent = 0%N ->
     successRate agent' = if success r then 100%N else 0%N).
Proof.
  intros Hget.
  destruct (executeAgent_run w llm st agentId params agent Hget)
    as (r & _ & Hrun).
  exists r. eexists. eexists. split; [exact Hrun |].
  unfold getAgent in *. simpl. rewrite !lookup_alter_eq, Hget. simpl.
  split; [reflexivity |]. split; [| split].
  - intros ->. apply spec_successRate_failure.
  - intros -> Hle. split; [apply spec_successRate_success, Hle |
                           apply spec_successRate_percentage, Hle].
  - intros ->. unfold spec_successRate, Math_round_ratio.
    rewrite N.mul_0_r. destruct (success r); reflexivity.
Qed.

Lemma rate_follows_the_outcome_witness :
  exists r st' agent',
    executeAgent (replying noKeys "{}" (JObj [])) (LLMProvider.create noKeys)
                 "a2" mailParams twoAgents = (Returned r, st') /\
    getAgent st' "a2" = Some agent' /\
    (success r = true -> (67 <= 100)%N -> (67 <= successRate agent' <= 100)%N).
Proof.
  destruct (rate_follows_the_outcome (replying noKeys "{}" (JObj []))
              (LLMProvider.create noKeys) twoAgents "a2" mailParams mailer)
    as (r & st' & agent' & Hrun & Ha & _ & Hs & _).
  - vm_compute. reflexivity.
  - exists r, st', agent'. repeat split; try assumption; apply Hs; assumption.
Defined.

End MoreExecutor.

(** ** The template handlers *)

Section Handlers.

Import Storage AgentExecutor.

Lemma getProp_param (params : JSVal) (k : string) :
  getProp (paramsObject params) k = Returned (param params k).
Proof.
  unfold param. destruct (getProp_paramsObject params k) as (v & ->). reflexivity.
Qed.

(** X14. Every handler names the parameter it misses before it does anything
    else: the result is a failure with a fixed message that depends on the
    parameters only, in the order the handler tests them. *)
Theorem missing_parameters_are_reported (w : World) (llm : LLMProvider.t)
    (agent : Agent) (params : JSVal) :
  (truthy (param params "to") && truthy (param params "subject")
     && truthy (param params "body") = false ->
   executeAutoEmailAgent w agent params
   = Returned (failure "Missing required parameters: to, subject, body")) /\
  (truthy (param params "location") = false ->
   executeWeatherReportAgent w agent params
   = Returned (failure "Missing required parameter: location")) /\
  (truthy (param params "location") = true ->
   truthy (param params "apiKey") = false ->
   executeWeatherReportAgent w agent params
   = Returned (failure "Missing required parameter: apiKey (OpenWeatherMap API key)")) /\
  (truthy (param params "topic") = false ->
   executeNewsSummarizerAgent w llm agent params
   = Returned (failure "Missing required parameter: topic (e.g., 'technology', 'business', 'sports')")) /\
  (truthy (param params "topic") = true ->
   truthy (param params "apiKey") = false ->
   executeNewsSummarizerAgent w llm agent params
   = Returned (failure "Missing required parameter: apiKey (News API key)")) /\
  (truthy (param params "task") = false ->
   executeTaskReminderAgent w agent params
   = Returned (failure "Missing required parameter: task (description of what to remind)")) /\
  (truthy (param params "task") = true ->
   truthy (param params "reminderEmail") = false ->
   executeTaskReminderAgent w agent params
   = Returned (failure "Missing required parameter: reminderEmail (where to send reminder)")).
Proof.
  unfold executeAutoEmailAgent, executeWeatherReportAgent,
         executeNewsSummarizerAgent, executeTaskReminderAgent.
  rewrite !getProp_param.
  cbn [mbind outcome_bind fmap outcome_fmap].
  repeat split.
  - intros H.
    destruct (truthy (param params "to")), (truthy (param params "subject")),
             (truthy (param params "body")); try discriminate H; reflexivity.
  - intros ->. reflexivity.
  - intros -> ->. reflexivity.
  - intros ->. reflexivity.
  - intros -> ->. reflexivity.
  - intros ->. reflexivity.
  - intros -> ->. reflexivity.
Qed.

Lemma missing_parameters_are_reported_witness :
  executeWeatherReportAgent weatherWorld monitor (JObj [("location", JStr "Pune")])
  = Returned (failure "Missing required parameter: apiKey (OpenWeatherMap API key)").
Proof.
  apply (missing_parameters_are_reported weatherWorld (LLMProvider.create noKeys)
           monitor (JObj [("location", JStr "Pune")])); reflexivity.
Defined.

(** X15. The two stub templates, an unknown template and a missing template
    never succeed, and their result does not depend on the world, the adapter
    or the parameters: it is a failure without data. *)
Theorem unimplemented_templates_fail (w : World) (llm : LLMProvider.t)
    (agent : Agent) (params : JSVal) :
  implemented (templateId agent) = false ->
  exists r,
    dispatch w llm agent params = Returned r /\
    success r = false /\ data r = JUndefined /\
    forall w' llm' params', dispatch w' llm' agent params' = Returned r.
Proof.
  unfold implemented, dispatch. intros H.
  destruct (templateId agent) as [template |].
  - cbn [existsb] in H.
    destruct (String.eqb template "auto-email"); [discriminate H |].
    destruct (String.eqb template "weather-report"); [discriminate H |].
    destruct (String.eqb template "news-summarizer"); [discriminate H |].
    destruct (String.eqb template "task-reminder"); [discriminate H |].
    destruct (String.eqb template "social-monitor");
      [| destruct (String.eqb template "data-backup")];
      eexists; repeat split.
  - eexists; repeat split.
Qed.

Lemma unimplemented_templates_fail_witness :
  exists r,
    dispatch weatherWorld (LLMProvider.create noKeys) monitor mailParams = Returned r /\
    success r = false /\ data r = JUndefined /\
    forall w' llm' params', dispatch w' llm' monitor params' = Returned r.
Proof.
  apply (unimplemented_templates_fail weatherWorld (LLMProvider.create noKeys)
           monitor mailParams).
  reflexivity.
Defined.

Lemma app_empty_right (s : string) : s +:+ EmptyString = s.
Proof.
  induction s as [| c s IH]; [reflexivity |].
  rewrite app_cons, IH. reflexivity.
Qed.

Ltac scrutinise H :=
  repeat match type of H with
         | context [match ?x with _ => _ end] =>
             let E := fresh "E" in destruct x eqn:E; cbn in H
         end.

(** X16. A mail handler reports success only when the mail service reported
    a delivery: for the e-mail template a delivery of the three parameters as
    given, for the reminder template a delivery to [reminderEmail] of a
    subject that starts with [Task Reminder: ] followed by the task. *)
Theorem mail_success_means_delivery (w : World) (agent : Agent) (params : JSVal)
    (r : AgentExecutionResult) :
  success r = true ->
  (executeAutoEmailAgent w agent params = Returned r ->
   emailService_sendEmail w (param params "to") (param params "subject")
                            (param params "body") = Returned true) /\
  (executeTaskReminderAgent w agent params = Returned r ->
   exists taskText rest body,
     toString (param params "task") = Returned taskText /\
     emailService_sendEmail w (param params "reminderEmail")
       (JStr ("Task Reminder: " +:+ taskText +:+ rest)) (JStr body)
     = Returned true).
Proof.
  intros Hs. split.
  - unfold executeAutoEmailAgent. rewrite !getProp_param.
    cbn [mbind outcome_bind].
    destruct (negb (truthy (param params "to")) || negb (truthy (param params "subject"))
              || negb (truthy (param params "body"))).
    { intros [= <-]. discriminate Hs. }
    unfold try_catch.
    destruct (emailService_sendEmail w _ _ _) as [[|] | e]; cbn [mbind outcome_bind].
    + reflexivity.
    + intros [= <-]. discriminate Hs.
    + intros [= <-]. discriminate Hs.
  - unfold executeTaskReminderAgent. rewrite !getProp_param.
    cbn [mbind outcome_bind fmap outcome_fmap].
    destruct (negb (truthy (param params "task"))).
    { intros [= <-]. discriminate Hs. }
    destruct (negb (truthy (param params "reminderEmail"))).
    { intros [= <-]. discriminate Hs. }
    unfold try_catch.
    destruct (toString (param params "task")) as [taskText | e];
      cbn [mbind outcome_bind]; [| intros [= <-]; discriminate Hs].
    destruct (truthy (param params "dueDate")).
    + destruct (toString (param params "dueDate")) as [dueText | e];
        cbn [mbind outcome_bind]; [| intros [= <-]; discriminate Hs].
      destruct (toString (default_to (param params "reminderTime") _)) as [timeText | e];
        cbn [mbind outcome_bind]; [| intros [= <-]; discriminate Hs].
      destruct (toString (default_to (param params "timezone") _)) as [zoneText | e];
        cbn [mbind outcome_bind]; [| intros [= <-]; discriminate Hs].
      destruct (emailService_sendEmail w _ _ _) as [[|] | e] eqn:Hsend;
        cbn [mbind outcome_bind]; try (intros [= <-]; discriminate Hs).
      intros _. exists taskText. eexists. eexists. split; [reflexivity |].
      exact Hsend.
    + cbn [mbind outcome_bind].
      destruct (toString (default_to (param params "reminderTime") _)) as [timeText | e];
        cbn [mbind outcome_bind]; [| intros [= <-]; discriminate Hs].
      destruct (toString (default_to (param params "timezone") _)) as [zoneText | e];
        cbn [mbind outcome_bind]; [| intros [= <-]; discriminate Hs].
      destruct (emailService_sendEmail w _ _ _) as [[|] | e] eqn:Hsend;
        cbn [mbind outcome_bind]; try (intros [= <-]; discriminate Hs).
      intros _. exists taskText, EmptyString. eexists. split; [reflexivity |].
      rewrite app_empty_right. exact Hsend.
Qed.

Lemma mail_success_means_delivery_witness :
  emailService_sendEmail (replying noKeys "{}" (JObj []))
    (param mailParams "to") (param mailParams "subject") (param mailParams "body")
  = Returned true.
Proof.
  apply (mail_success_means_delivery (replying noKeys "{}" (JObj [])) mailer mailParams
           {| success := true;
              message := "Email sent successfully to ada@example.org";
              data := JObj [("to", JStr "ada@example.org"); ("subject", JStr "Hello")] |});
    reflexivity.
Defined.

(** One step through a handler: split on the innermost value the body waits
    for, and close the branch when it ends in a failure. *)
Ltac innermost x :=
  lazymatch x with
  | context [match _ with _ => _ end] => fail
  | _ => idtac
  end.

Ltac handler_step Hs :=
  match goal with
  | |- context [if negb (ok ?resp) then _ else _] =>
      destruct (ok resp) eqn:?; cbn [negb]
  | |- context [mbind _ ?x] =>
      destruct x eqn:?
  | |- context [match ?x with Returned _ => _ | Threw _ => _ end] =>
      innermost x; destruct x eqn:?
  | |- context [if ?b then _ else _] =>
      innermost b; destruct b eqn:?
  | |- context [match ?x with JArr _ => _ | _ => _ end] =>
      innermost x; destruct x eqn:?
  | |- context [match ?x with _ => _ end] =>
      is_var x; destruct x
  end;
  cbn [mbind outcome_bind fmap outcome_fmap try_catch];
  try (intros [= <-]; discriminate Hs).

(** X17. A handler that asks an HTTP API reports success only when the
    request was answered with an [ok] response whose body could be read as
    JSON; the request of the weather handler is the one built from the
    parameters [location] and [apiKey]. The news handler has then asked the
    adapter, with the fixed system message and a user message that asks for
    a summary, and the fields [summary] and [llmProvider] of its data are
    the content and the tag of the reply [chat] gave. *)
Theorem fetch_success_means_ok_reply (w : World) (llm : LLMProvider.t)
    (agent : Agent) (params : JSVal) (r : AgentExecutionResult) :
  success r = true ->
  (executeWeatherReportAgent w agent params = Returned r ->
   exists locationText apiKeyText resp d,
     toString (param params "location") = Returned locationText /\
     toString (param params "apiKey") = Returned apiKeyText /\
     fetch w ("https://api.openweathermap.org/data/2.5/weather?q=" +:+
              encodeURIComponent locationText +:+ "&appid=" +:+ apiKeyText +:+
              "&units=metric") = Returned resp /\
     ok resp = true /\ json resp = Returned d /\
     message r = "Weather fetched successfully for " +:+ locationText) /\
  (executeNewsSummarizerAgent w llm agent params = Returned r ->
   exists u resp d request reply,
     fetch w u = Returned resp /\
     ok resp = true /\ json resp = Returned d /\
     LLMProvider.chat w llm
       [ Message.mk system
           "You are a news summarizer. Create a concise, informative summary of the news articles provided. Focus on key facts and trends.";
         Message.mk user ("Summarize these " +:+ request) ]
     = Returned reply /\
     getProp (data r) "summary"
     = Returned (JStr (LLMProvider.ChatResponse.content reply)) /\
     getProp (data r) "llmProvider"
     = Returned (JStr (LLMProvider.ChatResponse.provider reply))).
Proof.
  intros Hs. split.
  - unfold executeWeatherReportAgent. rewrite !getProp_param.
    cbn [mbind outcome_bind].
    repeat handler_step Hs.
    intros [= <-]. do 4 eexists. repeat split; eassumption || reflexivity.
  - unfold executeNewsSummarizerAgent. rewrite !getProp_param.
    cbn [mbind outcome_bind fmap outcome_fmap].
    repeat handler_step Hs.
    all: intros [= <-]; do 5 eexists; repeat split; eassumption || reflexivity.
Qed.

Lemma fetch_success_means_ok_reply_witness :
  exists locationText apiKeyText resp d,
    toString (param weatherParams "location") = Returned locationText /\
    toString (param weatherParams "apiKey") = Returned apiKeyText /\
    fetch weatherWorld
          ("https://api.openweathermap.org/data/2.5/weather?q=" +:+
           encodeURIComponent locationText +:+ "&appid=" +:+ apiKeyText +:+
           "&units=metric") = Returned resp /\
    ok resp = true /\ json resp = Returned d /\
    "Weather fetched successfully for Pune"
    = "Weather fetched successfully for " +:+ locationText.
Proof.
  apply (fetch_success_means_ok_reply weatherWorld (LLMProvider.create noKeys)
           monitor weatherParams
           {| success := true;
              message := "Weather fetched successfully for Pune";
              data := JObj [ ("location", JStr "Pune"); ("temperature", JInt 31);
                             ("feelsLike", JInt 33); ("humidity", JInt 40);
                             ("description", JStr "clear sky");
                             ("icon", JStr "01d") ] |});
    reflexivity.
Defined.

End Handlers.
(** ** The outcome of an execution *)

Section ExecutorOutcome.

Import Storage AgentExecutor.

(** X18. [executeAgent] never rejects. For an id that is not stored it
    returns the failure [Agent not found] and leaves the store as it is;
    for a stored agent it returns what the handler of the agent's template
    returns, so the handler of the outer [catch] is never entered. *)
Theorem execution_always_returns (w : World) (llm : LLMProvider.t)
    (st : Storage.t) (agentId : string) (params : JSVal) :
  exists r st',
    executeAgent w llm agentId params st = (Returned r, st') /\
    match getAgent st agentId with
    | None => r = failure "Agent not found" /\ st' = st
    | Some agent => dispatch w llm agent params = Returned r
    end.
Proof.
  destruct (getAgent st agentId) as [agent |] eqn:Hget.
  - destruct (executeAgent_run w llm st agentId params agent Hget)
      as (r & Hr & Hrun).
    exists r. eexists. split; [exact Hrun | exact Hr].
  - unfold executeAgent. rewrite Hget. eexists. eexists. repeat split.
Qed.

(** X19. The status and the log follow the result: after a call for a
    stored agent, the agent has the status [idle] after a success and
    [error] after a failure, never [executing]; its identity, template and
    creation date are as before; and the log is extended by exactly one
    entry, which repeats the result's message and data. *)
Theorem status_and_log_follow_the_result (w : World) (llm : LLMProvider.t)
    (st : Storage.t) (agentId : string) (params : JSVal) (agent : Agent) :
  getAgent st agentId = Some agent ->
  exists r st' agent',
    executeAgent w llm agentId params st = (Returned r, st') /\
    getAgent st' agentId = Some agent' /\
    status agent' = (if success r then idle else error) /\
    (id agent', name agent', description agent', templateId agent', createdAt agent')
    = (id agent, name agent, description agent, templateId agent, createdAt agent) /\
    executionLogs st'
    = (executionLogs st ++
       [ {| log_agentId := agentId;
            log_status := if success r then log_success else log_error;
            log_message := message r;
            log_result := data r |} ])%list.
Proof.
  intros Hget.
  destruct (executeAgent_run w llm st agentId params agent Hget)
    as (r & _ & Hrun).
  exists r. eexists. eexists. split; [exact Hrun |].
  unfold getAgent in *. simpl. rewrite !lookup_alter_eq, Hget. simpl.
  repeat split.
Qed.

Lemma status_and_log_follow_the_result_witness :
  exists r st' agent',
    executeAgent weatherWorld (LLMProvider.create noKeys) "a1" weatherParams twoAgents
    = (Returned r, st') /\
    getAgent st' "a1" = Some agent' /\
    status agent' = (if success r then idle else error).
Proof.
  destruct (status_and_log_follow_the_result weatherWorld (LLMProvider.create noKeys)
              twoAgents "a1" weatherParams monitor)
    as (r & st' & agent' & Hrun & Ha & Hs & _).
  - vm_compute. reflexivity.
  - exists r, st', agent'. repeat split; assumption.
Defined.

End ExecutorOutcome.

(** ** The mail service *)

Section Mail.

Import EmailService.

Lemma attempt_Some (c : bool) (k : outcome unit) (s s' : t) :
  attempt c k s = Some s' -> c = true /\ k = Returned tt /\ s' = s.
Proof.
  unfold attempt. destruct c; [| discriminate].
  destruct k as [[] | e]; [| discriminate].
  intros [= <-]. auto.
Qed.

Lemma env_or_empty (v : option string) :
  isEmpty (env_or v EmptyString) = false -> configured v = true.
Proof.
  unfold env_or, configured. destruct v as [s |]; [| discriminate].
  destruct (isEmpty s); [discriminate | reflexivity].
Qed.

Lemma env_or_configured (v : option string) :
  configured v = true -> isEmpty (env_or v EmptyString) = false.
Proof.
  unfold env_or, configured. destruct v as [s |]; [| discriminate].
  destruct (isEmpty s) eqn:E; [discriminate |]. intros _. exact E.
Qed.

Lemma env_or_Some (v : option string) :
  isEmpty (env_or v EmptyString) = false -> Some (env_or v EmptyString) = v.
Proof.
  unfold env_or. destruct v as [s |]; [| discriminate].
  destruct (isEmpty s); [discriminate | reflexivity].
Qed.

(** The invariant of a constructed service, block by block of
    [initializeEmailProvider]. *)
Lemma create_consistent (lib : MailLibrary) (e : MailEnv) :
  let svc := create lib e in
  (enabled svc = true <-> provider svc <> Demo) /\
  (provider svc = GmailAppPassword \/ provider svc = GmailOAuth2 ->
   exists transporter,
     gmailTransporter svc = Some transporter /\
     nodemailer_createTransport lib transporter = Returned tt /\
     Some (fromEmail svc) = GMAIL_USER e /\ isEmpty (fromEmail svc) = false) /\
  (provider svc = Resend ->
   resend svc = RESEND_API_KEY e /\ configured (RESEND_API_KEY e) = true /\
   Resend_new lib (env_or (RESEND_API_KEY e) EmptyString) = Returned tt /\
   fromEmail svc = env_or (FROM_EMAIL e) "onboarding@resend.dev") /\
  (provider svc = Demo -> svc = fresh) /\
  (configured (GMAIL_USER e) = true -> configured (GMAIL_APP_PASSWORD e) = true ->
   nodemailer_createTransport lib
     (ServiceGmail (env_or (GMAIL_USER e) EmptyString)
                   (env_or (GMAIL_APP_PASSWORD e) EmptyString)) = Returned tt ->
   provider svc = GmailAppPassword).
Proof.
  unfold create, initializeEmailProvider.
  assert (Hfirst :
    forall s, attempt (negb (isEmpty (env_or (GMAIL_USER e) EmptyString)) &&
                       negb (isEmpty (env_or (GMAIL_APP_PASSWORD e) EmptyString)))
                      (nodemailer_createTransport lib
                         (ServiceGmail (env_or (GMAIL_USER e) EmptyString)
                                       (env_or (GMAIL_APP_PASSWORD e) EmptyString)))
                      s = None ->
    configured (GMAIL_USER e) = true -> configured (GMAIL_APP_PASSWORD e) = true ->
    nodemailer_createTransport lib
      (ServiceGmail (env_or (GMAIL_USER e) EmptyString)
                    (env_or (GMAIL_APP_PASSWORD e) EmptyString)) = Returned tt ->
    False).
  { intros s H1 Hu Hp Hk. unfold attempt in H1.
    rewrite Hk, (env_or_configured _ Hu), (env_or_configured _ Hp) in H1.
    discriminate H1. }
  destruct (attempt _ (nodemailer_createTransport lib (ServiceGmail _ _)) _)
    as [s1 |] eqn:H1.
  { apply attempt_Some in H1 as (Hc & Hk & ->). cbn.
    apply andb_true_iff in Hc as (Hu & _). apply negb_true_iff in Hu.
    split; [split; [discriminate | reflexivity] |].
    split; [intros _; eexists; repeat split; [exact Hk | exact (env_or_Some _ Hu) | exact Hu] |].
    split; [discriminate |]. split; [discriminate |]. reflexivity. }
  destruct (attempt _ (nodemailer_createTransport lib (SmtpOAuth2 _ _ _ _)) _)
    as [s2 |] eqn:H2.
  { apply attempt_Some in H2 as (Hc & Hk & ->). cbn.
    apply andb_true_iff in Hc as (Hc & _). apply andb_true_iff in Hc as (Hc & _).
    apply andb_true_iff in Hc as (Hu & _). apply negb_true_iff in Hu.
    split; [split; [discriminate | reflexivity] |].
    split; [intros _; eexists; repeat split; [exact Hk | exact (env_or_Some _ Hu) | exact Hu] |].
    split; [discriminate |]. split; [discriminate |].
    intros Hu' Hp' Hk'. destruct (Hfirst _ H1 Hu' Hp' Hk'). }
  destruct (attempt _ (Resend_new lib _) _) as [s3 |] eqn:H3.
  { apply attempt_Some in H3 as (Hc & Hk & ->). cbn.
    apply andb_true_iff in Hc as (Hu & _). apply negb_true_iff in Hu.
    split; [split; [discriminate | reflexivity] |].
    split; [intros [H | H]; discriminate H |].
    split; [intros _; repeat split;
            [exact (env_or_Some _ Hu) | exact (env_or_empty _ Hu) | exact Hk] |].
    split; [discriminate |].
    intros Hu' Hp' Hk'. destruct (Hfirst _ H1 Hu' Hp' Hk'). }
  cbn.
  split; [split; [discriminate | intros H; destruct (H eq_refl)] |].
  split; [intros [H | H]; discriminate H |].
  split; [discriminate |]. split; [reflexivity |].
  intros Hu' Hp' Hk'. destruct (Hfirst _ H1 Hu' Hp' Hk').
Qed.

(** X20. The object [new EmailService()] builds is consistent, whatever the
    environment holds and whatever the constructors of the mail libraries
    do: it is enabled exactly when its provider is not the demo provider; a
    Gmail provider comes with a transporter that was constructed and with the
    Gmail user, which is not empty, as sender; the Resend provider comes with
    its client; and in demo mode the object is as the field initialisers left
    it. The app password is preferred whenever its transport can be
    constructed. *)
Theorem constructed_service_is_consistent (lib : MailLibrary) (e : MailEnv) :
  let svc := create lib e in
  (enabled svc = true <-> provider svc <> Demo) /\
  (provider svc = GmailAppPassword \/ provider svc = GmailOAuth2 ->
   exists transporter,
     gmailTransporter svc = Some transporter /\
     nodemailer_createTransport lib transporter = Returned tt /\
     Some (fromEmail svc) = GMAIL_USER e /\ isEmpty (fromEmail svc) = false) /\
  (provider svc = Resend ->
   resend svc = RESEND_API_KEY e /\ configured (RESEND_API_KEY e) = true /\
   Resend_new lib (env_or (RESEND_API_KEY e) EmptyString) = Returned tt /\
   fromEmail svc = env_or (FROM_EMAIL e) "onboarding@resend.dev") /\
  (provider svc = Demo -> svc = fresh) /\
  (configured (GMAIL_USER e) = true -> configured (GMAIL_APP_PASSWORD e) = true ->
   nodemailer_createTransport lib
     (ServiceGmail (env_or (GMAIL_USER e) EmptyString)
                   (env_or (GMAIL_APP_PASSWORD e) EmptyString)) = Returned tt ->
   provider svc = GmailAppPassword).
Proof. exact (create_consistent lib e). Qed.

(** X21. [sendEmail] on three strings, for a service as [new EmailService()]
    builds it: the call never throws; in demo mode it answers [true] without
    asking any library; otherwise it answers [true] exactly when the one
    library call it makes returns (whatever that call returns), with the
    configured sender and the page around the body, line feeds turned into
    [<br>]. The branch for a missing provider is never taken. *)
Theorem sendEmail_on_strings (lib : MailLibrary) (e : MailEnv)
    (to subject body : string) :
  let svc := create lib e in
  exists sent,
    sendEmail lib svc (JStr to) (JStr subject) (JStr body) = Returned sent /\
    match provider svc with
    | Demo => sent = true
    | GmailAppPassword | GmailOAuth2 =>
        exists transporter,
          gmailTransporter svc = Some transporter /\
          (sent = true <->
           transporter_sendMail lib transporter (mailOf svc to subject body)
           = Returned tt)
    | Resend =>
        exists client,
          resend svc = Some client /\
          (sent = true <->
           resend_emails_send lib client (mailOf svc to subject body) = Returned tt)
    end.
Proof.
  intros svc.
  destruct (create_consistent lib e)
    as (Hen & Hgmail & Hresend & Hdemo & _).
  fold svc in Hen, Hgmail, Hresend, Hdemo.
  unfold sendEmail, sendViaGmail, sendViaResend.
  destruct (provider svc) eqn:Hp.
  - destruct (Hgmail (or_introl eq_refl)) as (tr & Htr & _).
    rewrite (proj2 Hen) by discriminate.
    cbn [negb bodyMarkup mbind outcome_bind]. rewrite Htr.
    fold (mailOf svc to subject body).
    destruct (transporter_sendMail lib tr (mailOf svc to subject body)) as [[] | err] eqn:Hsend;
      cbn [mbind outcome_bind try_catch toString].
    + exists true. split; [reflexivity |]. exists tr.
      split; [reflexivity |]. split; [intros _; exact Hsend | reflexivity].
    + exists false. split; [reflexivity |]. exists tr.
      split; [reflexivity |]. split; [discriminate |].
      rewrite Hsend. discriminate.
  - destruct (Hgmail (or_intror eq_refl)) as (tr & Htr & _).
    rewrite (proj2 Hen) by discriminate.
    cbn [negb bodyMarkup mbind outcome_bind]. rewrite Htr.
    fold (mailOf svc to subject body).
    destruct (transporter_sendMail lib tr (mailOf svc to subject body)) as [[] | err] eqn:Hsend;
      cbn [mbind outcome_bind try_catch toString].
    + exists true. split; [reflexivity |]. exists tr.
      split; [reflexivity |]. split; [intros _; exact Hsend | reflexivity].
    + exists false. split; [reflexivity |]. exists tr.
      split; [reflexivity |]. split; [discriminate |].
      rewrite Hsend. discriminate.
  - destruct (Hresend eq_refl) as (Hc & Hk & _).
    rewrite (proj2 Hen) by discriminate.
    cbn [negb bodyMarkup mbind outcome_bind]. rewrite Hc.
    destruct (RESEND_API_KEY e) as [client |]; [| discriminate Hk].
    fold (mailOf svc to subject body).
    destruct (resend_emails_send lib client (mailOf svc to subject body)) as [[] | err] eqn:Hsend;
      cbn [mbind outcome_bind try_catch toString].
    + exists true. split; [reflexivity |]. exists client.
      split; [reflexivity |]. split; [intros _; exact Hsend | reflexivity].
    + exists false. split; [reflexivity |]. exists client.
      split; [reflexivity |]. split; [discriminate |].
      rewrite Hsend. discriminate.
  - rewrite (Hdemo eq_refl). cbn. exists true. split; reflexivity.
Qed.

Lemma executeAutoEmailAgent_strings (w : World) (agent : Storage.Agent)
    (params : JSVal) (to subject body : JSVal) :
  param params "to" = to -> param params "subject" = subject ->
  param params "body" = body ->
  truthy to = true -> truthy subject = true -> truthy body = true ->
  AgentExecutor.executeAutoEmailAgent w agent params
  = try_catch
      (sent ← emailService_sendEmail w to subject body;
       if (sent : bool) then
         toText ← toString to;
         Returned {| AgentExecutor.success := true;
                     AgentExecutor.message := "Email sent successfully to " +:+ toText;
                     AgentExecutor.data := JObj [("to", to); ("subject", subject)] |}
       else Returned (AgentExecutor.failure "Email service failed to send email"))
      (fun error =>
         Returned (AgentExecutor.failure
                     ("Failed to send email: " +:+ message_or error "Unknown error"))).
Proof.
  intros <- <- <- Ht Hs Hb.
  unfold AgentExecutor.executeAutoEmailAgent. rewrite !getProp_param.
  cbn [mbind outcome_bind]. rewrite Ht, Hs, Hb. reflexivity.
Qed.

(** X22. Without mail credentials every e-mail run is reported as a
    success: for a service that is not enabled and parameters [to],
    [subject] and [body] that are non-empty strings, the e-mail handler
    answers [Email sent successfully to <to>], whatever the mail libraries
    would do. *)
Theorem demo_mode_reports_success (w : World) (lib : MailLibrary) (svc : t)
    (agent : Storage.Agent) (params : JSVal) (to subject body : string) :
  isEnabled svc = false ->
  param params "to" = JStr to -> param params "subject" = JStr subject ->
  param params "body" = JStr body ->
  to <> EmptyString -> subject <> EmptyString -> body <> EmptyString ->
  AgentExecutor.executeAutoEmailAgent (mailing w lib svc) agent params
  = Returned {| AgentExecutor.success := true;
                AgentExecutor.message := "Email sent successfully to " +:+ to;
                AgentExecutor.data := JObj [("to", JStr to); ("subject", JStr subject)] |}.
Proof.
  unfold isEnabled. intros Hen Ht Hs Hb Hto Hsubject Hbody.
  rewrite (executeAutoEmailAgent_strings _ agent params _ _ _ Ht Hs Hb);
    try (destruct to, subject, body; cbn; congruence).
  cbn. unfold sendEmail. rewrite Hen. reflexivity.
Qed.

Lemma demo_mode_reports_success_witness :
  AgentExecutor.executeAutoEmailAgent
    (mailing (offline noKeys) failing (create failing noMail)) mailer mailParams
  = Returned {| AgentExecutor.success := true;
                AgentExecutor.message := "Email sent successfully to " +:+ "ada@example.org";
                AgentExecutor.data := JObj [("to", JStr "ada@example.org");
                                            ("subject", JStr "Hello")] |}.
Proof.
  apply (demo_mode_reports_success (offline noKeys) failing (create failing noMail)
           mailer mailParams "ada@example.org" "Hello" "A first message");
    first [reflexivity | discriminate].
Defined.

(** X23. With an enabled service a body that is not a string makes the run
    fail: for [to] and [subject] truthy and a truthy [body] that is not a
    string, the e-mail handler answers [Failed to send email: body.replace is
    not a function], whatever the mail libraries would do. *)
Theorem non_string_body_fails_when_enabled (w : World) (lib : MailLibrary) (svc : t)
    (agent : Storage.Agent) (params : JSVal) :
  isEnabled svc = true ->
  truthy (param params "to") = true -> truthy (param params "subject") = true ->
  truthy (param params "body") = true ->
  otherThanText (param params "body") = true ->
  AgentExecutor.executeAutoEmailAgent (mailing w lib svc) agent params
  = Returned (AgentExecutor.failure
                "Failed to send email: body.replace is not a function").
Proof.
  unfold isEnabled. intros Hen Ht Hs Hb Hother.
  rewrite (executeAutoEmailAgent_strings _ agent params _ _ _ eq_refl eq_refl eq_refl
             Ht Hs Hb).
  cbn. unfold sendEmail. rewrite Hen. cbn.
  destruct (param params "body"); try discriminate Hother; reflexivity.
Qed.

Lemma non_string_body_fails_when_enabled_witness :
  AgentExecutor.executeAutoEmailAgent
    (mailing (offline noKeys) delivering (create delivering allMail)) mailer numberBody
  = Returned (AgentExecutor.failure
                "Failed to send email: body.replace is not a function").
Proof.
  apply (non_string_body_fails_when_enabled (offline noKeys) delivering
           (create delivering allMail) mailer numberBody);
    reflexivity.
Defined.

End Mail.

(** ** The routes *)

Section RoutesProperties.

Import Storage AgentExecutor UnifiedAgentCoordinator Routes.

(** X24. [POST /api/agents/:id/execute] answers 200 with the executor's
    result, also when the run failed: the failure is in the body. An unknown
    agent is answered with the failure [Agent not found], and nothing is
    written; for a stored agent the body is the result of the handler of its
    template. The handler never touches the generated projects or the agent
    manager. *)
Theorem execute_route_status (w : World) (llm : LLMProvider.t) (id : string)
    (reqBody : JSVal) (srv : Server) :
  let out := postAgentExecute w llm id reqBody srv in
  generatedProjects out.2 = generatedProjects srv /\
  agentManager out.2 = agentManager srv /\
  statusCode out.1 = 200 /\
  (getAgent (storage srv) id = None ->
   out = (res_json (ExecutionBody (failure "Agent not found")), srv)) /\
  (forall agent, getAgent (storage srv) id = Some agent ->
     exists r, dispatch w llm agent reqBody = Returned r /\
               payload out.1 = ExecutionBody r).
Proof.
  unfold postAgentExecute.
  destruct (getAgent (storage srv) id) as [agent |] eqn:Hget.
  - destruct (executeAgent_run w llm (storage srv) id reqBody agent Hget)
      as (r & Hr & ->).
    cbn [fst snd generatedProjects agentManager storage statusCode payload res_json].
    repeat split; try discriminate.
    intros agent' [= <-]. exists r. split; [exact Hr | reflexivity].
  - unfold executeAgent. rewrite Hget.
    cbn [fst snd generatedProjects agentManager storage statusCode payload res_json].
    repeat split; try discriminate.
    intros _. destruct srv; reflexivity.
Qed.

Lemma handleMessage_returns (w : World) (llm : LLMProvider.t) (m : string) :
  exists r, handleMessage w llm m = Returned r.
Proof.
  destruct (isProjectGenerationQuery m) eqn:Hq.
  - destruct (generateProject_returns w llm m) as (p & Hp).
    rewrite (handleMessage_project w llm m p Hq Hp). eauto.
  - destruct (handleMessage_chat w llm m Hq) as (reply & ->). eauto.
Qed.

Lemma handleMessage_projectId (w : World) (llm : LLMProvider.t) (m i : string)
    (r : CoordinatorResult) :
  handleMessage w llm m = Returned r ->
  projectId r = Some i ->
  i = "proj-" +:+ pretty (now w) /\ isProjectGenerationQuery m = true.
Proof.
  intros Hr Hi. destruct (isProjectGenerationQuery m) eqn:Hq.
  - destruct (generateProject_returns w llm m) as (p & Hp).
    rewrite (handleMessage_project w llm m p Hq Hp) in Hr.
    injection Hr as <-. destruct (projectSummary p); cbn in Hi; [| discriminate].
    injection Hi as <-. auto.
  - destruct (handleMessage_chat w llm m Hq) as (reply & H).
    rewrite H in Hr. injection Hr as <-. discriminate Hi.
Qed.

(** X25. [POST /api/chat/unified] on a body whose [message] can be read:
    400 exactly for a falsy message; for a non-empty string the reply of
    [handleMessage], with 200, always; and 500 for every other value, which
    has no [toLowerCase]. *)
Theorem unified_chat_route_status (w : World) (llm : LLMProvider.t)
    (reqBody message : JSVal) :
  getProp reqBody "message" = Returned message ->
  let resp := postChatUnified w llm reqBody in
  (truthy message = false ->
   resp = res_status_json 400 (ErrorBody "Message is required")) /\
  (forall s, message = JStr s -> s <> EmptyString ->
     exists result, handleMessage w llm s = Returned result /\
                    resp = res_json (CoordinatorBody result)) /\
  (truthy message = true -> (forall s, message <> JStr s) ->
   resp = res_status_json 500 (ErrorBody "Failed to process message")).
Proof.
  intros Hm. unfold postChatUnified. rewrite Hm. cbn [mbind outcome_bind].
  split; [| split].
  - intros ->. reflexivity.
  - intros s -> Hs.
    assert (Ht : truthy (JStr s) = true) by (destruct s; [congruence | reflexivity]).
    rewrite Ht. cbn [negb unifiedCoordinator_handleMessage].
    destruct (handleMessage_returns w llm s) as (result & Hr).
    exists result. split; [exact Hr |]. rewrite Hr. reflexivity.
  - intros -> Hns. cbn [negb].
    destruct message; try reflexivity.
    destruct (Hns s eq_refl).
Qed.

Lemma unified_chat_body (w : World) (llm : LLMProvider.t) (reqBody : JSVal)
    (m : string) :
  getProp reqBody "message" = Returned (JStr m) -> m <> EmptyString ->
  exists result, handleMessage w llm m = Returned result /\
                 postChatUnified w llm reqBody = res_json (CoordinatorBody result).
Proof.
  intros Hm Hs. unfold postChatUnified. rewrite Hm. cbn [mbind outcome_bind].
  assert (Ht : truthy (JStr m) = true) by (destruct m; [congruence | reflexivity]).
  rewrite Ht. cbn [negb unifiedCoordinator_handleMessage].
  destruct (handleMessage_returns w llm m) as (result & Hr).
  exists result. split; [exact Hr |]. rewrite Hr. reflexivity.
Qed.

Lemma unified_chat_route_status_witness :
  postChatUnified socketWorld (LLMProvider.create noKeys) (JObj [("message", JInt 5)])
  = res_status_json 500 (ErrorBody "Failed to process message").
Proof.
  apply (unified_chat_route_status socketWorld (LLMProvider.create noKeys)
           (JObj [("message", JInt 5)]) (JInt 5) eq_refl).
  - reflexivity.
  - discriminate.
Defined.

Lemma keyword_nonempty (m : string) :
  isProjectGenerationQuery m = true -> m <> EmptyString.
Proof. intros H ->. vm_compute in H. discriminate. Qed.

(** X26. A project generated over the socket can be downloaded
    afterwards. For a socket message of type
    [unified_chat] whose text is a project request, the handler sends one
    frame with the coordinator's result; when the result names a project,
    its id is [proj-] followed by the clock value, and the download of that
    id finds that project afterwards, while every other id answers as
    before. [POST /api/chat/unified] answers the same result for the same
    body; that handler writes no shared object, so the project it names is
    not stored. *)
Theorem socket_project_can_be_downloaded (w : World) (llm : LLMProvider.t)
    (text m : string) (data : JSVal) (srv : Server) :
  JSON_parse w text = Returned data ->
  getProp data "type" = Returned (JStr "unified_chat") ->
  getProp data "message" = Returned (JStr m) ->
  isProjectGenerationQuery m = true ->
  exists result,
    handleMessage w llm m = Returned result /\
    (onMessage w llm text srv).1 = [UnifiedResponse result] /\
    postChatUnified w llm data = res_json (CoordinatorBody result) /\
    forall i project,
      projectId result = Some i -> projectData result = Some project ->
      i = "proj-" +:+ pretty (now w) /\
      getProjectDownload i (onMessage w llm text srv).2 = inr project /\
      forall j, j <> i ->
        getProjectDownload j (onMessage w llm text srv).2 = getProjectDownload j srv.
Proof.
  intros Hparse Htype Hmsg Hq.
  destruct (handleMessage_returns w llm m) as (result & Hr).
  exists result. split; [exact Hr |].
  assert (Hon : onMessage w llm text srv
                = ([UnifiedResponse result], storeProject result srv)).
  { unfold onMessage. rewrite Hparse. cbn [mbind outcome_bind]. rewrite Htype.
    cbn [mbind outcome_bind isString]. rewrite Hmsg.
    cbn [mbind outcome_bind unifiedCoordinator_handleMessage]. rewrite Hr.
    reflexivity. }
  rewrite Hon. cbn [fst snd]. split; [reflexivity |]. split.
  - destruct (unified_chat_body w llm data m Hmsg (keyword_nonempty m Hq))
      as (result' & Hr' & ->).
    rewrite Hr in Hr'. injection Hr' as <-. reflexivity.
  - intros i project Hi Hp.
    destruct (handleMessage_projectId w llm m i result Hr Hi) as (-> & _).
    split; [reflexivity |].
    unfold storeProject, getProjectDownload. rewrite Hi, Hp.
    change ("proj-" +:+ pretty (now w)) with (String "p" ("roj-" +:+ pretty (now w))).
    cbn [isEmpty negb generatedProjects].
    split.
    + rewrite lookup_insert_eq. reflexivity.
    + intros j Hj. rewrite lookup_insert_ne by congruence.
      destruct (generatedProjects srv) as [projects |]; [reflexivity |].
      cbn. rewrite lookup_empty. reflexivity.
Qed.

Lemma socket_project_can_be_downloaded_witness :
  exists result,
    handleMessage socketWorld (LLMProvider.create noKeys)
                  "Please create a project that tracks books" = Returned result /\
    (onMessage socketWorld (LLMProvider.create noKeys)
               (JSON_stringify projectFrame) sampleServer).1
    = [UnifiedResponse result].
Proof.
  destruct (socket_project_can_be_downloaded socketWorld (LLMProvider.create noKeys)
              (JSON_stringify projectFrame)
              "Please create a project that tracks books" projectFrame sampleServer)
    as (result & Hr & Hon & _);
    try (vm_compute; reflexivity).
  exists result. split; assumption.
Defined.

(** X27. The socket handler is quiet: whatever the message, it sends at
    most one frame and never writes the agent store or the agent manager;
    when it sends nothing the server is as before; and a text that does not
    parse, or parses to a value of another [type], sends nothing. *)
Theorem socket_handler_is_quiet (w : World) (llm : LLMProvider.t) (text : string)
    (srv : Server) :
  let out := onMessage w llm text srv in
  length out.1 <= 1 /\
  storage out.2 = storage srv /\
  agentManager out.2 = agentManager srv /\
  (out.1 = [] -> out.2 = srv) /\
  ((exists e, JSON_parse w text = Threw e) -> out = ([], srv)) /\
  (forall data type,
     JSON_parse w text = Returned data -> getProp data "type" = Returned type ->
     isString type "agent_chat" = false -> isString type "unified_chat" = false ->
     out = ([], srv)).
Proof.
  intros out.
  assert (Hother : forall data type,
             JSON_parse w text = Returned data -> getProp data "type" = Returned type ->
             isString type "agent_chat" = false -> isString type "unified_chat" = false ->
             out = ([], srv)).
  { intros data type Hd Ht Ha Hu. subst out. unfold onMessage.
    rewrite Hd. cbn [mbind outcome_bind]. rewrite Ht. cbn [mbind outcome_bind].
    rewrite Ha, Hu. reflexivity. }
  assert (Hfail : (exists e, JSON_parse w text = Threw e) -> out = ([], srv)).
  { intros (e & He). subst out. unfold onMessage. rewrite He. reflexivity. }
  assert (Hmain : length out.1 <= 1 /\ storage out.2 = storage srv /\
                  agentManager out.2 = agentManager srv /\ (out.1 = [] -> out.2 = srv));
    [| destruct Hmain as (H1 & H2 & H3 & H4); auto 10].
  subst out. clear Hother Hfail. unfold onMessage.
  repeat match goal with
         | |- context [mbind _ ?x] => destruct x; cbn [mbind outcome_bind]
         | |- context [if ?b then _ else _] => destruct b
         end;
    cbn [fst snd length]; try (repeat split; (lia || discriminate || reflexivity)).
  all: unfold storeProject;
    match goal with
    | |- context [projectId ?r] => destruct (projectId r), (projectData r)
    end;
    try match goal with
        | |- context [negb (isEmpty ?i)] => destruct (negb (isEmpty i))
        end;
    cbn; repeat split; (lia || discriminate).
Qed.

Lemma truthy_text (s : string) : s <> EmptyString -> truthy (JStr s) = true.
Proof. destruct s; [congruence | reflexivity]. Qed.

(** X28. The task and chat routes follow the agent manager. For a
    non-empty string in the body they answer what [executeTask] and
    [chatWithAgent] return, with 200, and 500 when these throw, which is
    when the id is unknown; the chat route adds the provider the adapter
    selected, though no provider is asked. A falsy value is answered with
    400 before the manager is asked. *)
Theorem agent_routes_follow_the_manager (llm : LLMProvider.t) (id : string)
    (reqBody : JSVal) (srv : Server) :
  (forall s, getProp reqBody "task" = Returned (JStr s) -> s <> EmptyString ->
     postAgentTask id reqBody srv
     = match (AgentManager.executeTask (agentManager srv) id s).1 with
       | Returned text => res_json (TextBody text)
       | Threw _ => res_status_json 500 (ErrorBody "Failed to execute task")
       end) /\
  (forall s, getProp reqBody "message" = Returned (JStr s) -> s <> EmptyString ->
     postAgentChat llm id reqBody srv
     = match (AgentManager.chatWithAgent (agentManager srv) id s).1 with
       | Returned text => res_json (AgentChatBody text (LLMProvider.provider llm))
       | Threw _ => res_status_json 500 (ErrorBody "Failed to chat with agent")
       end) /\
  (forall v, getProp reqBody "task" = Returned v -> truthy v = false ->
     postAgentTask id reqBody srv
     = res_status_json 400 (ErrorBody "Task description is required")) /\
  (forall v, getProp reqBody "message" = Returned v -> truthy v = false ->
     postAgentChat llm id reqBody srv
     = res_status_json 400 (ErrorBody "Message is required")) /\
  (AgentManager.getAgent (agentManager srv) id = None ->
   forall v, truthy v = true ->
     (getProp reqBody "task" = Returned v ->
      postAgentTask id reqBody srv
      = res_status_json 500 (ErrorBody "Failed to execute task")) /\
     (getProp reqBody "message" = Returned v ->
      postAgentChat llm id reqBody srv
      = res_status_json 500 (ErrorBody "Failed to chat with agent"))).
Proof.
  unfold postAgentTask, postAgentChat, agentManager_executeTask,
    agentManager_chatWithAgent, agents_get, AgentManager.executeTask,
    AgentManager.chatWithAgent, AgentManager.getAgent.
  split; [| split; [| split; [| split]]].
  - intros s -> Hs. cbn [mbind outcome_bind]. rewrite (truthy_text s Hs).
    destruct (AgentManager.agents (agentManager srv) !! id); reflexivity.
  - intros s -> Hs. cbn [mbind outcome_bind]. rewrite (truthy_text s Hs).
    destruct (AgentManager.agents (agentManager srv) !! id); reflexivity.
  - intros v -> Hv. cbn [mbind outcome_bind]. rewrite Hv. reflexivity.
  - intros v -> Hv. cbn [mbind outcome_bind]. rewrite Hv. reflexivity.
  - intros -> v Hv. split; intros ->; cbn [mbind outcome_bind]; rewrite Hv; reflexivity.
Qed.

Lemma labelled_primitive (label : string) (v : JSVal) :
  primitive v = true -> exists line, labelled label v = Returned line.
Proof.
  intros H. unfold labelled. destruct (truthy v); [| eauto].
  destruct (toString_primitive v H) as (text & ->). cbn. eauto.
Qed.

(** X29. [POST /api/booking/detect-intent] on a JSON object: a falsy
    [query] is answered with 400; when [query], [budget], [destination] and
    [dates] are primitive values the route always answers 200 with the
    content and the provider tag of the adapter's reply, since [chat] never
    throws. *)
Theorem detect_intent_route (w : World) (llm : LLMProvider.t)
    (fields : list (string * JSVal)) :
  let resp := postDetectIntent w llm (JObj fields) in
  (truthy (lookupProperty fields "query") = false ->
   resp = res_status_json 400 (ErrorBody "Query is required")) /\
  (truthy (lookupProperty fields "query") = true ->
   Forall (fun k => primitive (lookupProperty fields k) = true)
          ["query"; "budget"; "destination"; "dates"] ->
   exists messages reply,
     LLMProvider.chat w llm messages = Returned reply /\
     resp = res_json (IntentBody (LLMProvider.ChatResponse.content reply)
                                 (LLMProvider.ChatResponse.provider reply))).
Proof.
  unfold postDetectIntent. cbn [getProp mbind outcome_bind].
  split.
  - intros ->. reflexivity.
  - intros -> Hprim. cbn [negb].
    inversion Hprim as [| ? ? Hq Hprim1]; subst.
    inversion Hprim1 as [| ? ? Hb Hprim2]; subst.
    inversion Hprim2 as [| ? ? Hd Hprim3]; subst.
    inversion Hprim3 as [| ? ? Hdt _]; subst.
    destruct (toString_primitive _ Hq) as (queryText & ->).
    destruct (labelled_primitive "Budget" _ Hb) as (budgetLine & ->).
    destruct (labelled_primitive "Destination" _ Hd) as (destinationLine & ->).
    destruct (labelled_primitive "Dates" _ Hdt) as (datesLine & ->).
    cbn [mbind outcome_bind].
    match goal with
    | |- context [LLMProvider.chat w llm ?ms] =>
        destruct (chat_returns w llm ms) as (reply & Hreply);
        exists ms, reply; split; [exact Hreply |]; rewrite Hreply
    end.
    reflexivity.
Qed.

Lemma detect_intent_route_witness :
  exists messages reply,
    LLMProvider.chat socketWorld (LLMProvider.create noKeys) messages = Returned reply /\
    postDetectIntent socketWorld (LLMProvider.create noKeys)
                     (JObj [("query", JStr "Two nights in Pune"); ("budget", JInt 200)])
    = res_json (IntentBody (LLMProvider.ChatResponse.content reply)
                           (LLMProvider.ChatResponse.provider reply)).
Proof.
  apply (detect_intent_route socketWorld (LLMProvider.create noKeys)
           [("query", JStr "Two nights in Pune"); ("budget", JInt 200)]).
  - reflexivity.
  - repeat constructor.
Defined.

End RoutesProperties.
